(** * Cross-chain swap client: packed swap data, authorizations, relay client

    A shallow embedding of the EVM side of the swap library:
    - [EVMSwapData] (packages/crosslightning-evm/src/evm/swaps/EVMSwapData.ts),
    - [EVMSwapProgram] (same directory, EVMSwapProgram.ts),
    - [EVMBtcRelay] (packages/crosslightning-evm/src/evm/btcrelay/EVMBtcRelay.ts).

    JavaScript values are modelled as follows.  An ethers [BigNumber] and a
    bn.js [BN] are integers of [Z]; the operations of ethers that throw
    (bitwise operations on negative operands, [toNumber] out of the safe
    range, malformed strings) return in the error monad [result].  A JS
    [number] that the code uses as an integer is a [Z].  A [Buffer] is a
    [list byte].  JS strings are [string]s.  Calls that leave the process
    (the contracts, the signer, the clock, keccak256, ABI coding) are fields
    of an environment record that every method receives. *)

From Stdlib Require Import ZArith List String Ascii Bool Lia.
From Stdlib Require Import Strings.Byte.
From coqutil Require Import Z.bitblast.
Import ListNotations.

Local Open Scope string_scope.
Local Open Scope list_scope.
Local Open Scope Z_scope.

(* ================================================================== *)
(** ** Errors and the error monad *)

Inductive Error : Type :=
| SignatureVerificationError (message : string)
| Fault (message : string).

Inductive result (A : Type) : Type :=
| Ok (a : A)
| Throw (e : Error).

Arguments Ok {A} a.
Arguments Throw {A} e.

Definition bind {A B : Type} (c : result A) (k : A -> result B) : result B :=
  match c with
  | Ok a => k a
  | Throw e => Throw e
  end.

Notation "x <- c ;; k" := (bind c (fun x => k))
  (at level 61, c at next level, right associativity).

Definition isOk {A : Type} (c : result A) : bool :=
  match c with Ok _ => true | Throw _ => false end.

(* ================================================================== *)
(** ** Strings: digits, hexadecimal text, padding *)

Definition hexDigitValue (c : ascii) : option Z :=
  let n := Z.of_N (N_of_ascii c) in
  if (48 <=? n) && (n <=? 57) then Some (n - 48)
  else if (97 <=? n) && (n <=? 102) then Some (n - 87)
  else if (65 <=? n) && (n <=? 70) then Some (n - 55)
  else None.

Definition decDigitValue (c : ascii) : option Z :=
  let n := Z.of_N (N_of_ascii c) in
  if (48 <=? n) && (n <=? 57) then Some (n - 48) else None.

(** The lower-case digit of a value below 16, as [Number.prototype.toString(16)],
    [Buffer.prototype.toString('hex')] and ethers print it. *)
Definition hexDigitChar (d : Z) : ascii :=
  if d <? 10 then ascii_of_N (Z.to_N (48 + d)) else ascii_of_N (Z.to_N (87 + d)).

(** Reads a run of digits in base [base], most significant first; [None] on
    the first character that is not a digit. *)
Fixpoint parseDigits (digit : ascii -> option Z) (base : Z) (s : string) (acc : Z)
  : option Z :=
  match s with
  | EmptyString => Some acc
  | String c s' =>
      match digit c with
      | Some d => parseDigits digit base s' (base * acc + d)
      | None => None
      end
  end.

Definition parseHex (s : string) : option Z := parseDigits hexDigitValue 16 s 0.
Definition parseDec (s : string) : option Z := parseDigits decDigitValue 10 s 0.

Fixpoint repeatChar (c : ascii) (n : nat) : string :=
  match n with
  | O => EmptyString
  | S n' => String c (repeatChar c n')
  end.

(** [String.prototype.padStart(targetLength, c)] for a one-character pad. *)
Definition padStart (targetLength : nat) (c : ascii) (s : string) : string :=
  (repeatChar c (targetLength - String.length s) ++ s)%string.

(** [s.substring(2)] *)
Definition substring2 (s : string) : string :=
  substring 2 (String.length s - 2) s.

Definition lowerChar (c : ascii) : ascii :=
  let n := N_of_ascii c in
  if (65 <=? n)%N && (n <=? 90)%N then ascii_of_N (n + 32) else c.

(** [String.prototype.toLowerCase] on the ASCII range (addresses and hex
    text are ASCII). *)
Fixpoint toLowerCase (s : string) : string :=
  match s with
  | EmptyString => EmptyString
  | String c s' => String (lowerChar c) (toLowerCase s')
  end.

Definition isWhitespace (c : ascii) : bool :=
  let n := Z.of_N (N_of_ascii c) in
  ((9 <=? n) && (n <=? 13)) || (n =? 32).

Fixpoint stripWhitespace (s : string) : string :=
  match s with
  | EmptyString => EmptyString
  | String c s' =>
      if isWhitespace c then stripWhitespace s' else String c (stripWhitespace s')
  end.

(** Base-16 digits of a non-negative integer, least significant first, with
    no digit for zero.  [fuel] bounds the number of digits. *)
Fixpoint hexDigitsLE (fuel : nat) (n : Z) : list Z :=
  match fuel with
  | O => []
  | S fuel' => if n <=? 0 then [] else (n mod 16) :: hexDigitsLE fuel' (n / 16)
  end.

Definition stringOfChars (l : list ascii) : string :=
  fold_right String EmptyString l.

(** Hexadecimal text of a positive integer without leading zeros. *)
Definition hexOfPositive (n : Z) : string :=
  stringOfChars (map hexDigitChar (rev (hexDigitsLE (Z.to_nat (Z.log2 n) + 1) n))).

Definition decDigitChar (d : Z) : ascii := ascii_of_N (Z.to_N (48 + d)).

(** Base-10 digits of a non-negative integer, least significant first, with
    no digit for zero.  [fuel] bounds the number of digits. *)
Fixpoint decDigitsLE (fuel : nat) (n : Z) : list Z :=
  match fuel with
  | O => []
  | S fuel' => if n <=? 0 then [] else (n mod 10) :: decDigitsLE fuel' (n / 10)
  end.

(** Decimal text of a positive integer without leading zeros. *)
Definition decOfPositive (n : Z) : string :=
  stringOfChars (map decDigitChar (rev (decDigitsLE (Z.to_nat (Z.log2 n) + 1) n))).

(* ================================================================== *)
(** ** bn.js [BN] *)

Module BN.

(** [new BN(s)] for a string in base 10: white space is dropped
    ([replace(/\s+/g, '')], here the ASCII white space), a leading minus sign
    negates, the empty string is zero, and any character that is not a
    decimal digit fails the parser's assertion. *)
Definition ofString (s : string) : result Z :=
  match stripWhitespace s with
  | String "-" s' =>
      match parseDec s' with
      | Some v => Ok (- v)
      | None => Throw (Fault "Invalid character")
      end
  | s' =>
      match parseDec s' with
      | Some v => Ok v
      | None => Throw (Fault "Invalid character")
      end
  end.

(** [bn.toString(16)] *)
Definition toString16 (n : Z) : string :=
  if n =? 0 then "0"
  else if n <? 0 then ("-" ++ hexOfPositive (- n))%string
  else hexOfPositive n.

(** [bn.toNumber()]: at most 53 bits. *)
Definition toNumber (n : Z) : result Z :=
  if Z.abs n <? 2 ^ 53 then Ok n
  else Throw (Fault "Number can only safely store up to 53 bits").

(** [bn.toString(10)] *)
Definition toString10 (n : Z) : string :=
  if n =? 0 then "0"
  else if n <? 0 then ("-" ++ decOfPositive (- n))%string
  else decOfPositive n.

(** [a.div(b)]: the quotient rounded towards zero; dividing by zero fails the
    library's assertion. *)
Definition div (a b : Z) : result Z :=
  if b =? 0 then Throw (Fault "Assertion failed") else Ok (Z.quot a b).

End BN.

(* ================================================================== *)
(** ** ethers [BigNumber] *)

Module BigNumber.

(** ethers rejects numbers at or beyond [0x1fffffffffffff] in magnitude, and
    its bitwise operations and shifts reject negative values. *)
Definition MAX_SAFE : Z := 9007199254740991.

(** [BigNumber.from(n)] for a JS number holding an integer. *)
Definition fromNumber (n : Z) : result Z :=
  if (MAX_SAFE <=? n) || (n <=? - MAX_SAFE) then Throw (Fault "overflow")
  else Ok n.

Definition nonEmpty (s : string) : bool :=
  match s with EmptyString => false | _ => true end.

Definition fromUnsignedString (s : string) : result Z :=
  match s with
  | String "0" (String "x" h) =>
      match (if nonEmpty h then parseHex h else None) with
      | Some v => Ok v
      | None => Throw (Fault "invalid BigNumber string")
      end
  | _ =>
      match (if nonEmpty s then parseDec s else None) with
      | Some v => Ok v
      | None => Throw (Fault "invalid BigNumber string")
      end
  end.

(** [BigNumber.from(s)] for a string: decimal digits, or [0x] and hex
    digits, with an optional leading minus sign. *)
Definition fromString (s : string) : result Z :=
  match s with
  | String "-" s' => v <- fromUnsignedString s' ;; Ok (- v)
  | _ => fromUnsignedString s
  end.

Definition and (a b : Z) : result Z :=
  if (a <? 0) || (b <? 0) then Throw (Fault "unbound-bitwise-result")
  else Ok (Z.land a b).

Definition or (a b : Z) : result Z :=
  if (a <? 0) || (b <? 0) then Throw (Fault "unbound-bitwise-result")
  else Ok (Z.lor a b).

Definition shl (a : Z) (n : Z) : result Z :=
  if (n <? 0) || (a <? 0) then Throw (Fault "negative-width")
  else Ok (Z.shiftl a n).

Definition shr (a : Z) (n : Z) : result Z :=
  if (n <? 0) || (a <? 0) then Throw (Fault "negative-width")
  else Ok (Z.shiftr a n).

Definition toNumber (a : Z) : result Z :=
  match BN.toNumber a with
  | Ok n => Ok n
  | Throw _ => Throw (Fault "overflow")
  end.

(** [toHexString]: [0x] and an even number of digits, [0x00] for zero. *)
Definition toHexString (a : Z) : string :=
  let digits (n : Z) :=
    let h := BN.toString16 n in
    if Nat.even (String.length h) then h else ("0" ++ h)%string in
  if a <? 0 then ("-0x" ++ digits (- a))%string else ("0x" ++ digits a)%string.

End BigNumber.

(* ================================================================== *)
(** ** Swap kinds *)

(** [ChainSwapType] of the base package, by the names the code uses. *)
Inductive ChainSwapType : Type :=
| HTLC
| CHAIN
| CHAIN_NONCED
| CHAIN_TXID.

(* ================================================================== *)
(** ** EVMSwapData *)

Record EVMSwapData : Type := {
  offerer : string;
  claimer : string;
  token : string;
  amount : option Z;
  paymentHash : string;
  data : Z;
  securityDeposit : option Z;
  claimerBounty : option Z;
  txoHash : option string
}.

Definition orZero (v : option Z) : Z :=
  match v with Some x => x | None => 0 end.

Definition boolNumber (b : bool) : Z := if b then 1 else 0.

Module EVMSwapData.

(** The positional constructor.  [expiry], [nonce] and [confirmations]
    fall back to zero when absent ([expiry || BigNumber.from(0)],
    [confirmations || 0]); [kind] and [index] are numbers, so the
    positional branch of the constructor is the one taken. *)
Definition new (offerer claimer token : string) (amount : option Z)
    (paymentHash : string) (expiry nonce confirmations : option Z)
    (kind : Z) (payIn payOut : bool)
    (securityDeposit claimerBounty : option Z) (index : Z)
    (txoHash : option string) : result EVMSwapData :=
  let expiry := orZero expiry in
  let nonce := orZero nonce in
  let confirmations := orZero confirmations in
  m64 <- BigNumber.fromString "0xFFFFFFFFFFFFFFFF" ;;
  f0 <- BigNumber.and expiry m64 ;;
  m64' <- BigNumber.fromString "0xFFFFFFFFFFFFFFFF" ;;
  n1 <- BigNumber.and nonce m64' ;;
  f1 <- BigNumber.shl n1 64 ;;
  d1 <- BigNumber.or f0 f1 ;;
  c <- BigNumber.fromNumber confirmations ;;
  m16 <- BigNumber.fromNumber 65535 ;;
  c2 <- BigNumber.and c m16 ;;
  f2 <- BigNumber.shl c2 128 ;;
  d2 <- BigNumber.or d1 f2 ;;
  k <- BigNumber.fromNumber kind ;;
  m8 <- BigNumber.fromNumber 255 ;;
  k3 <- BigNumber.and k m8 ;;
  f3 <- BigNumber.shl k3 144 ;;
  d3 <- BigNumber.or d2 f3 ;;
  pin <- BigNumber.fromNumber (boolNumber payIn) ;;
  pin4 <- BigNumber.and pin m8 ;;
  f4 <- BigNumber.shl pin4 152 ;;
  d4 <- BigNumber.or d3 f4 ;;
  pout <- BigNumber.fromNumber (boolNumber payOut) ;;
  pout5 <- BigNumber.and pout m8 ;;
  f5 <- BigNumber.shl pout5 160 ;;
  d5 <- BigNumber.or d4 f5 ;;
  i <- BigNumber.fromNumber index ;;
  i6 <- BigNumber.and i m8 ;;
  f6 <- BigNumber.shl i6 168 ;;
  d6 <- BigNumber.or d5 f6 ;;
  Ok {| offerer := offerer; claimer := claimer; token := token;
        amount := amount; paymentHash := paymentHash; data := d6;
        securityDeposit := securityDeposit; claimerBounty := claimerBounty;
        txoHash := txoHash |}.

Definition getKind (s : EVMSwapData) : result Z :=
  a <- BigNumber.shr (data s) 144 ;;
  m <- BigNumber.fromNumber 255 ;;
  b <- BigNumber.and a m ;;
  BigNumber.toNumber b.

Definition getExpiry (s : EVMSwapData) : result Z :=
  m <- BigNumber.fromString "0xFFFFFFFFFFFFFFFF" ;;
  BigNumber.and (data s) m.

Definition getConfirmations (s : EVMSwapData) : result Z :=
  a <- BigNumber.shr (data s) 128 ;;
  m <- BigNumber.fromNumber 65535 ;;
  b <- BigNumber.and a m ;;
  BigNumber.toNumber b.

Definition getEscrowNonce (s : EVMSwapData) : result Z :=
  a <- BigNumber.shr (data s) 64 ;;
  m <- BigNumber.fromString "0xFFFFFFFFFFFFFFFF" ;;
  BigNumber.and a m.

Definition isPayIn (s : EVMSwapData) : result bool :=
  a <- BigNumber.shr (data s) 152 ;;
  m <- BigNumber.fromString "0xFF" ;;
  b <- BigNumber.and a m ;;
  z <- BigNumber.fromNumber 0 ;;
  Ok (z <? b).

Definition withData (s : EVMSwapData) (d : Z) : EVMSwapData :=
  {| offerer := offerer s; claimer := claimer s; token := token s;
     amount := amount s; paymentHash := paymentHash s; data := d;
     securityDeposit := securityDeposit s; claimerBounty := claimerBounty s;
     txoHash := txoHash s |}.

Definition setPayIn (s : EVMSwapData) (payIn : bool) : result EVMSwapData :=
  m <- BigNumber.fromString
         "0x00000000000000000000FFFF00FFFFFFFFFFFFFFFFFFFFFFFFFFFFFFFFFFFFFF" ;;
  a <- BigNumber.and (data s) m ;;
  p <- BigNumber.fromNumber (boolNumber payIn) ;;
  f <- BigNumber.shl p 152 ;;
  d <- BigNumber.or a f ;;
  Ok (withData s d).

Definition isPayOut (s : EVMSwapData) : result bool :=
  a <- BigNumber.shr (data s) 160 ;;
  m <- BigNumber.fromString "0xFF" ;;
  b <- BigNumber.and a m ;;
  z <- BigNumber.fromNumber 0 ;;
  Ok (z <? b).

Definition setPayOut (s : EVMSwapData) (payOut : bool) : result EVMSwapData :=
  m <- BigNumber.fromString
         "0x00000000000000000000FF00FFFFFFFFFFFFFFFFFFFFFFFFFFFFFFFFFFFFFFFF" ;;
  a <- BigNumber.and (data s) m ;;
  p <- BigNumber.fromNumber (boolNumber payOut) ;;
  f <- BigNumber.shl p 160 ;;
  d <- BigNumber.or a f ;;
  Ok (withData s d).

Definition getIndex (s : EVMSwapData) : result Z :=
  a <- BigNumber.shr (data s) 168 ;;
  m <- BigNumber.fromString "0xFF" ;;
  b <- BigNumber.and a m ;;
  BigNumber.toNumber b.

Definition getType (s : EVMSwapData) : result (option ChainSwapType) :=
  kind <- getKind s ;;
  Ok (if kind =? 0 then Some HTLC
      else if kind =? 1 then Some CHAIN
      else if kind =? 2 then Some CHAIN_NONCED
      else if kind =? 3 then Some CHAIN_TXID
      else None).

(** [getHash]: the payment hash without its [0x]. *)
Definition getHash (s : EVMSwapData) : string := substring2 (paymentHash s).

Definition getTxoHash (s : EVMSwapData) : option string :=
  match txoHash s with
  | None => None
  | Some h => Some (substring2 h)
  end.

Definition setTxoHash (s : EVMSwapData) (h : option string) : EVMSwapData :=
  {| offerer := offerer s; claimer := claimer s; token := token s;
     amount := amount s; paymentHash := paymentHash s; data := data s;
     securityDeposit := securityDeposit s; claimerBounty := claimerBounty s;
     txoHash := match h with
                | None => None
                | Some h' => Some ("0x" ++ h')%string
                end |}.

(** Reading a member of a BigNumber that is [null] is a [TypeError]. *)
Definition notNull (v : option Z) : result Z :=
  match v with
  | Some x => Ok x
  | None => Throw (Fault "TypeError")
  end.

Definition getTotalDepositBigNumber (s : EVMSwapData) : result Z :=
  deposit <- notNull (securityDeposit s) ;;
  bounty <- notNull (claimerBounty s) ;;
  Ok (if bounty <? deposit then deposit else bounty).

(** The object [serialize] returns.  A record of this model always has a
    data word, so the [data] member is always a string. *)
Record Serialized : Type := {
  s_type : string;
  s_offerer : string;
  s_claimer : string;
  s_token : string;
  s_amount : option string;
  s_paymentHash : string;
  s_data : string;
  s_securityDeposit : option string;
  s_claimerBounty : option string;
  s_txoHash : option string
}.

Definition hexOrNull (v : option Z) : option string :=
  match v with
  | None => None
  | Some x => Some (BigNumber.toHexString x)
  end.

Definition serialize (s : EVMSwapData) : Serialized :=
  {| s_type := "evm";
     s_offerer := offerer s;
     s_claimer := claimer s;
     s_token := token s;
     s_amount := hexOrNull (amount s);
     s_paymentHash := paymentHash s;
     s_data := BigNumber.toHexString (data s);
     s_securityDeposit := hexOrNull (securityDeposit s);
     s_claimerBounty := hexOrNull (claimerBounty s);
     s_txoHash := txoHash s |}.

Definition bigNumberOrNull (v : option string) : result (option Z) :=
  match v with
  | None => Ok None
  | Some text => x <- BigNumber.fromString text ;; Ok (Some x)
  end.

(** The constructor's branch for one argument, on a serialized object. *)
Definition deserialize (o : Serialized) : result EVMSwapData :=
  amount <- bigNumberOrNull (s_amount o) ;;
  data <- BigNumber.fromString (s_data o) ;;
  securityDeposit <- bigNumberOrNull (s_securityDeposit o) ;;
  claimerBounty <- bigNumberOrNull (s_claimerBounty o) ;;
  Ok {| offerer := s_offerer o; claimer := s_claimer o; token := s_token o;
        amount := amount; paymentHash := s_paymentHash o; data := data;
        securityDeposit := securityDeposit; claimerBounty := claimerBounty;
        txoHash := s_txoHash o |}.

End EVMSwapData.

(* ================================================================== *)
(** ** Reference definitions for the packed data word *)

(** The value the layout table prescribes for the seven fields. *)
Definition packedLayout (expiry nonce confirmations kind : Z) (payIn payOut : bool)
    (index : Z) : Z :=
  expiry + nonce * 2 ^ 64 + confirmations * 2 ^ 128 + kind * 2 ^ 144
  + boolNumber payIn * 2 ^ 152 + boolNumber payOut * 2 ^ 160 + index * 2 ^ 168.

(** The [w] bits of [d] from bit [k] upwards. *)
Definition bitField (d k w : Z) : Z := Z.land (Z.shiftr d k) (Z.ones w).

(* ================================================================== *)
(** ** Buffers and hexadecimal text *)

Definition byteOfZ (z : Z) : byte :=
  match Byte.of_N (Z.to_N z) with
  | Some b => b
  | None => x00
  end.

Definition byteValue (b : byte) : Z := Z.of_N (Byte.to_N b).

(** [Buffer.from(s, 'hex')] as Node decodes it: two digits a byte; decoding
    stops at the first pair that is not two hex digits, and a trailing single
    character is dropped. *)
Fixpoint bufferFromHex (s : string) : list byte :=
  match s with
  | String c1 (String c2 rest) =>
      match hexDigitValue c1, hexDigitValue c2 with
      | Some h, Some l => byteOfZ (16 * h + l) :: bufferFromHex rest
      | _, _ => []
      end
  | _ => []
  end.

(** [buffer.toString('hex')] *)
Fixpoint bufferToHex (b : list byte) : string :=
  match b with
  | [] => EmptyString
  | x :: b' =>
      String (hexDigitChar (byteValue x / 16))
        (String (hexDigitChar (byteValue x mod 16)) (bufferToHex b'))
  end.

Fixpoint allHexDigits (s : string) : bool :=
  match s with
  | EmptyString => true
  | String c s' =>
      match hexDigitValue c with
      | Some _ => allHexDigits s'
      | None => false
      end
  end.

(** Text made of pairs of the digits [0-9a-f], as [toString('hex')] writes
    it and as the Bitcoin RPC gives block and transaction hashes. *)
Fixpoint isLowerHexBytes (s : string) : bool :=
  match s with
  | EmptyString => true
  | String c1 (String c2 rest) =>
      match hexDigitValue c1, hexDigitValue c2 with
      | Some h, Some l =>
          Ascii.eqb (hexDigitChar h) c1 && Ascii.eqb (hexDigitChar l) c2
          && isLowerHexBytes rest
      | _, _ => false
      end
  | _ => false
  end.

(** ethers [arrayify] on a string: [0x], then hex digits, an even number of
    them. *)
Definition arrayify (s : string) : result (list byte) :=
  match s with
  | String "0" (String "x" h) =>
      if allHexDigits h then
        if Nat.even (String.length h) then Ok (bufferFromHex h)
        else Throw (Fault "hex data is odd-length")
      else Throw (Fault "invalid arrayify value")
  | _ => Throw (Fault "invalid arrayify value")
  end.

(** [utils.solidityKeccak256(['bytes'], [v])]: the bytes that the hex string
    [v] denotes are hashed, and the digest is returned as hex text after [0x]. *)
Definition solidityKeccak256 (keccak256 : list byte -> list byte) (v : string)
  : result string :=
  bytes <- arrayify v ;;
  Ok ("0x" ++ bufferToHex (keccak256 bytes))%string.

(** Reference encodings: [n] bytes of [v], least significant first, and most
    significant first. *)
Fixpoint bytesLE (n : nat) (v : Z) : list byte :=
  match n with
  | O => []
  | S n' => byteOfZ (v mod 256) :: bytesLE n' (v / 256)
  end.

Definition bytesBE (n : nat) (v : Z) : list byte := rev (bytesLE n v).

(** [k] base-16 digits of [v], least significant first. *)
Fixpoint fixedDigitsLE (k : nat) (v : Z) : list Z :=
  match k with
  | O => []
  | S k' => (v mod 16) :: fixedDigitsLE k' (v / 16)
  end.

Definition fixedHex (k : nat) (v : Z) : string :=
  stringOfChars (map hexDigitChar (rev (fixedDigitsLE k v))).

(** [Buffer.from(s)] for a string: its bytes. *)
Definition bufferFromString (s : string) : list byte :=
  map byte_of_ascii (list_ascii_of_string s).

(* ================================================================== *)
(** ** EVMSwapProgram *)

Inductive SwapCommitStatus : Type :=
| EXPIRED
| NOT_COMMITED
| COMMITED
| PAID
| REFUNDABLE.

(** What a swap program instance holds and what it calls outside itself:
    its own address, the clock, the swap contract's commitment storage, and
    the ethers utilities that hash, encode and recover signers. *)
Record Env : Type := {
  (** [this.address], set from the signer by [start()] *)
  address : string;
  (** [Date.now()], in milliseconds *)
  Date_now : Z;
  (** [this.contract.getCommitment(paymentHash)], a 32-byte hex string *)
  getCommitment : string -> string;
  (** the Keccak-256 digest behind [utils.solidityKeccak256] *)
  keccak256 : list byte -> list byte;
  (** [utils.defaultAbiCoder.encode] of the swap tuple *)
  defaultAbiCoder_encode : EVMSwapData -> string;
  (** [utils.solidityPack(['bytes','bytes32','uint64'], [prefix, hash, timeout])] *)
  solidityPack : string -> string -> Z -> option string;
  (** [utils.verifyMessage(message, signature)], the recovered address *)
  verifyMessage : list byte -> string -> option string
}.

(** A call into ethers that rejects its arguments throws an error of the
    library, never a [SignatureVerificationError]. *)
Definition library {A : Type} (what : string) (r : option A) : result A :=
  match r with
  | Some a => Ok a
  | None => Throw (Fault what)
  end.

Definition claimGracePeriod : Z := 10 * 60.
Definition refundGracePeriod : Z := 10 * 60.
Definition authGracePeriod : Z := 5 * 60.

(** [Math.floor(Date.now() / 1000)] *)
Definition nowSeconds (env : Env) : Z := Date_now env / 1000.

Module EVMSwapProgram.

(** [EVMSwapData.getCommitHash] *)
Definition getCommitHash (env : Env) (s : EVMSwapData) : result string :=
  let encoded := defaultAbiCoder_encode env s in
  solidityKeccak256 (keccak256 env) encoded.

Definition getHashForOnchain (env : Env) (outputScript : list byte)
    (amount nonce : Z) : result (list byte) :=
  let amountBuffer :=
    rev (bufferFromHex (padStart 16 "0" (BN.toString16 amount))) in
  txoHash <- solidityKeccak256 (keccak256 env)
               ("0x" ++ bufferToHex (amountBuffer ++ outputScript))%string ;;
  let nonceHexString := padStart 16 "0" (BN.toString16 nonce) in
  hash <- solidityKeccak256 (keccak256 env)
            ("0x" ++ nonceHexString ++ substring2 txoHash)%string ;;
  Ok (bufferFromHex (substring2 hash)).

Definition areWeClaimer (env : Env) (swapData : EVMSwapData) : bool :=
  String.eqb (claimer swapData) (address env).

Definition areWeOfferer (env : Env) (swapData : EVMSwapData) : bool :=
  String.eqb (offerer swapData) (address env).

Definition isExpired (env : Env) (data : EVMSwapData) : result bool :=
  let currentTimestamp := 0 in
  let currentTimestamp :=
    if areWeOfferer env data then nowSeconds env - refundGracePeriod
    else currentTimestamp in
  let currentTimestamp :=
    if areWeClaimer env data then nowSeconds env + claimGracePeriod
    else currentTimestamp in
  expiry <- EVMSwapData.getExpiry data ;;
  Ok (expiry <? currentTimestamp).

Definition getCommitStatus (env : Env) (data : EVMSwapData)
  : result SwapCommitStatus :=
  let commitedHash := getCommitment env (paymentHash data) in
  commitNum <- BigNumber.fromString commitedHash ;;
  paid <- BigNumber.fromNumber 256 ;;
  if commitNum =? paid then Ok PAID
  else
    bound <- BigNumber.fromNumber 256 ;;
    if commitNum <? bound then
      expired <- isExpired env data ;;
      if expired then Ok EXPIRED else Ok NOT_COMMITED
    else
      commitHash <- getCommitHash env data ;;
      if String.eqb commitedHash commitHash then
        if areWeOfferer env data then
          expired <- isExpired env data ;;
          if expired then Ok REFUNDABLE else Ok COMMITED
        else Ok COMMITED
      else
        if areWeOfferer env data then
          expired <- isExpired env data ;;
          if expired then Ok EXPIRED else Ok NOT_COMMITED
        else Ok NOT_COMMITED.

Definition getMessage (env : Env) (swapData : EVMSwapData) (prefix timeout : string)
  : result (list byte) :=
  commitHash <- getCommitHash env swapData ;;
  timeoutNum <- BigNumber.fromString timeout ;;
  encoded <- library "solidityPack"
               (solidityPack env ("0x" ++ bufferToHex (bufferFromString prefix))%string
                  commitHash timeoutNum) ;;
  messageBuffer <- solidityKeccak256 (keccak256 env) encoded ;;
  Ok (bufferFromHex (substring2 messageBuffer)).

Definition getClaimInitMessage (env : Env) (swapData : EVMSwapData) (nonce : Z)
    (prefix timeout : string) : result (list byte) :=
  getMessage env swapData prefix timeout.

Definition getInitMessage (env : Env) (swapData : EVMSwapData) (nonce : Z)
    (prefix timeout : string) : result (list byte) :=
  getMessage env swapData prefix timeout.

Definition getRefundMessage (env : Env) (swapData : EVMSwapData)
    (prefix timeout : string) : result (list byte) :=
  getMessage env swapData prefix timeout.

Definition isValidClaimInitAuthorization (env : Env) (data : EVMSwapData)
    (timeout prefix signature : string) (nonce : Z) : result (list byte) :=
  if negb (String.eqb prefix "claim_initialize") then
    Throw (SignatureVerificationError "Invalid prefix")
  else
    expiryTimestamp <- BN.ofString timeout ;;
    let currentTimestamp := nowSeconds env in
    let isExpired := expiryTimestamp - currentTimestamp <? authGracePeriod in
    if isExpired then Throw (SignatureVerificationError "Authorization expired!")
    else
      let commitment := getCommitment env (paymentHash data) in
      commitNum <- BigNumber.fromString commitment ;;
      index <- EVMSwapData.getIndex data ;;
      indexNum <- BigNumber.fromNumber index ;;
      if negb (commitNum =? indexNum) then
        Throw (SignatureVerificationError "Invalid nonce!")
      else
        messageBuffer <- getClaimInitMessage env data nonce prefix timeout ;;
        recoveredAddress <- library "verifyMessage"
                              (verifyMessage env messageBuffer signature) ;;
        let invalidSignature :=
          negb (String.eqb (toLowerCase recoveredAddress)
                           (toLowerCase (claimer data))) in
        if invalidSignature then
          Throw (SignatureVerificationError "Invalid signature!")
        else Ok messageBuffer.

Definition isValidInitAuthorization (env : Env) (data : EVMSwapData)
    (timeout prefix signature : string) (nonce : Z) : result (list byte) :=
  if negb (String.eqb prefix "initialize") then
    Throw (SignatureVerificationError "Invalid prefix")
  else
    expiryTimestamp <- BN.ofString timeout ;;
    let currentTimestamp := nowSeconds env in
    let isExpired := expiryTimestamp - currentTimestamp <? authGracePeriod in
    if isExpired then Throw (SignatureVerificationError "Authorization expired!")
    else
      expiry <- EVMSwapData.getExpiry data ;;
      let swapWillExpireTooSoon :=
        expiry - currentTimestamp <? authGracePeriod + claimGracePeriod in
      if swapWillExpireTooSoon then
        Throw (SignatureVerificationError "Swap will expire too soon!")
      else
        let commitment := getCommitment env (paymentHash data) in
        commitNum <- BigNumber.fromString commitment ;;
        index <- EVMSwapData.getIndex data ;;
        indexNum <- BigNumber.fromNumber index ;;
        if negb (commitNum =? indexNum) then
          Throw (SignatureVerificationError "Invalid nonce!")
        else
          messageBuffer <- getInitMessage env data nonce prefix timeout ;;
          recoveredAddress <- library "verifyMessage"
                              (verifyMessage env messageBuffer signature) ;;
          let invalidSignature :=
            negb (String.eqb (toLowerCase recoveredAddress)
                             (toLowerCase (offerer data))) in
          if invalidSignature then
            Throw (SignatureVerificationError "Invalid signature!")
          else Ok messageBuffer.

Definition isValidRefundAuthorization (env : Env) (swapData : EVMSwapData)
    (timeout prefix signature : string) : result (list byte) :=
  if negb (String.eqb prefix "refund") then
    Throw (SignatureVerificationError "Invalid prefix")
  else
    expiryTimestamp <- BN.ofString timeout ;;
    let currentTimestamp := nowSeconds env in
    let isExpired := expiryTimestamp - currentTimestamp <? authGracePeriod in
    if isExpired then Throw (SignatureVerificationError "Authorization expired!")
    else
      messageBuffer <- getRefundMessage env swapData prefix timeout ;;
      recoveredAddress <- library "verifyMessage"
                              (verifyMessage env messageBuffer signature) ;;
      let invalidSignature :=
        negb (String.eqb (toLowerCase recoveredAddress)
                         (toLowerCase (claimer swapData))) in
      if invalidSignature then
        Throw (SignatureVerificationError "Invalid signature!")
      else Ok messageBuffer.

Definition typeToKind (type : ChainSwapType) : Z :=
  match type with
  | HTLC => 0
  | CHAIN => 1
  | CHAIN_NONCED => 2
  | CHAIN_TXID => 3
  end.

(** [x == null ? null : BigNumber.from(x.toString(10))] *)
Definition bigNumberOfBN (x : option Z) : result (option Z) :=
  match x with
  | None => Ok None
  | Some v => n <- BigNumber.fromString (BN.toString10 v) ;; Ok (Some n)
  end.

Definition createSwapData (env : Env) (type : ChainSwapType)
    (offerer claimer token : string) (amount : option Z) (paymentHash : string)
    (sequence expiry escrowNonce : option Z) (confirmations : Z)
    (payIn payOut : bool) (securityDeposit claimerBounty : option Z)
  : result EVMSwapData :=
  let commitment := getCommitment env ("0x" ++ paymentHash)%string in
  commitNum <- BigNumber.fromString commitment ;;
  bound <- BigNumber.fromNumber 256 ;;
  if bound <=? commitNum then Throw (Fault "Already committed or already paid")
  else
    amountNum <- bigNumberOfBN amount ;;
    expiryNum <- bigNumberOfBN expiry ;;
    nonceNum <- bigNumberOfBN escrowNonce ;;
    depositNum <- bigNumberOfBN securityDeposit ;;
    bountyNum <- bigNumberOfBN claimerBounty ;;
    index <- BigNumber.toNumber commitNum ;;
    EVMSwapData.new offerer claimer token amountNum ("0x" ++ paymentHash)%string
      expiryNum nonceNum (Some confirmations) (typeToKind type) payIn payOut
      depositNum bountyNum index None.

(** The signature as the contract takes it. *)
Record SignatureStruct : Type := {
  r : string;
  s : string;
  vAndTimeout : Z
}.

(** [getSignatureStruct]; [splitSignature] is [utils.splitSignature], which
    gives the members r, s and v of a signature, or throws. *)
Definition getSignatureStruct (splitSignature : string -> option (string * string * Z))
    (signature timeout : string) : result SignatureStruct :=
  sig <- library "splitSignature" (splitSignature signature) ;;
  timeoutNum <- BigNumber.fromString timeout ;;
  shifted <- BigNumber.shl timeoutNum 8 ;;
  v <- BigNumber.fromNumber (snd sig) ;;
  mask <- BigNumber.fromNumber 255 ;;
  low <- BigNumber.and v mask ;;
  packed <- BigNumber.or shifted low ;;
  Ok {| r := fst (fst sig); s := snd (fst sig); vAndTimeout := packed |}.

Definition getPaymentHashStatus (env : Env) (paymentHash : string)
  : result SwapCommitStatus :=
  let commitedHash := getCommitment env ("0x" ++ paymentHash)%string in
  commitNum <- BigNumber.fromString commitedHash ;;
  paid <- BigNumber.fromNumber 256 ;;
  if commitNum =? paid then Ok PAID
  else
    bound <- BigNumber.fromNumber 256 ;;
    if commitNum <? bound then Ok NOT_COMMITED else Ok COMMITED.

Definition isCommited (env : Env) (swapData : EVMSwapData) : result bool :=
  let commitment := getCommitment env (paymentHash swapData) in
  commitHash <- getCommitHash env swapData ;;
  Ok (String.eqb commitment commitHash).

Definition isClaimable (env : Env) (data : EVMSwapData) : result bool :=
  if negb (areWeClaimer env data) then Ok false
  else
    expired <- isExpired env data ;;
    if expired then Ok false else isCommited env data.

Definition isRequestRefundable (env : Env) (data : EVMSwapData) : result bool :=
  if negb (areWeOfferer env data) then Ok false
  else
    let currentTimestamp := nowSeconds env - refundGracePeriod in
    expiry <- EVMSwapData.getExpiry data ;;
    let isExpired := expiry <? currentTimestamp in
    if negb isExpired then Ok false else isCommited env data.

Definition withClaimer (swapData : EVMSwapData) (who : string) : EVMSwapData :=
  {| offerer := offerer swapData; claimer := who; token := token swapData;
     amount := amount swapData; paymentHash := paymentHash swapData;
     data := data swapData;
     securityDeposit := securityDeposit swapData;
     claimerBounty := claimerBounty swapData; txoHash := txoHash swapData |}.

Definition withOfferer (swapData : EVMSwapData) (who : string) : EVMSwapData :=
  {| offerer := who; claimer := claimer swapData; token := token swapData;
     amount := amount swapData; paymentHash := paymentHash swapData;
     data := data swapData;
     securityDeposit := securityDeposit swapData;
     claimerBounty := claimerBounty swapData; txoHash := txoHash swapData |}.

(** [setUsAsClaimer] and [setUsAsOfferer] change the record they are given;
    here they return the changed record. *)
Definition setUsAsClaimer (env : Env) (swapData : EVMSwapData) : result EVMSwapData :=
  let swapData := withClaimer swapData (address env) in
  swapData <- EVMSwapData.setPayIn swapData false ;;
  EVMSwapData.setPayOut swapData true.

Definition setUsAsOfferer (env : Env) (swapData : EVMSwapData) : result EVMSwapData :=
  let swapData := withOfferer swapData (address env) in
  EVMSwapData.setPayIn swapData true.

End EVMSwapProgram.

(* ================================================================== *)
(** ** EVMBtcRelay *)

(** A Bitcoin block as the [BtcBlock] interface presents it. *)
Record BtcBlock : Type := {
  getVersion : Z;
  getPrevBlockhash : string;
  getMerkleRoot : string;
  getTimestamp : Z;
  getNbits : Z;
  getNonce : Z;
  getHash : string
}.

(** The object [serializeBlockHeader] hands to [new EVMBtcHeader]. *)
Record EVMBtcHeader : Type := {
  version : Z;
  reversedPrevBlockhash : list byte;
  merkleRoot : list byte;
  timestamp : Z;
  nbits : Z;
  nonce : Z;
  hash : list byte
}.

(** The header classes and the buffer comparison the relay client imports:
    [EVMBtcHeader.serialize], [EVMBtcStoredHeader.computeNext] and
    [getChainWork], and [StatePredictorUtils.gtBuffer(a, b)], which tells
    whether the work [a] is greater than the work [b]. *)
Class HeaderCodec : Type := {
  EVMBtcStoredHeader : Type;
  serialize : EVMBtcHeader -> list byte;
  computeNext : EVMBtcStoredHeader -> EVMBtcHeader -> EVMBtcStoredHeader;
  getChainWork : EVMBtcStoredHeader -> list byte;
  gtBuffer : list byte -> list byte -> bool
}.

(** [provider.getFeeData()] *)
Record FeeData : Type := {
  lastBaseFeePerGas : option Z;
  gasPrice : option Z
}.

(** The relay contract's storage and the provider, as the client reads them. *)
Record RelayEnv : Type := {
  (** [contract._highScoreAndBlockHeight()], a uint256 *)
  highScoreAndBlockHeight : Z;
  (** [contract._forkCounter()] *)
  forkCounter : Z;
  (** [contract.getLatestMainChainCommitmentHash()] *)
  getLatestMainChainCommitmentHash : string;
  (** [provider.getFeeData()]; [None] when the call throws *)
  getFeeData : option FeeData;
  (** [provider.getGasPrice()] *)
  getGasPrice : Z;
  useEip1559ForFeeEstimate : bool
}.

Definition GAS_PER_BLOCKHEADER : Z := 35000.

Record TipData : Type := {
  commitHash : string;
  chainWork : list byte;
  blockheight : Z
}.

Module EVMBtcRelay.

Definition serializeBlockHeader (e : BtcBlock) : EVMBtcHeader :=
  {| version := getVersion e;
     reversedPrevBlockhash := rev (bufferFromHex (getPrevBlockhash e));
     merkleRoot := rev (bufferFromHex (getMerkleRoot e));
     timestamp := getTimestamp e;
     nbits := getNbits e;
     nonce := getNonce e;
     hash := rev (bufferFromHex (getHash e)) |}.

Section Headers.
Context {codec : HeaderCodec}.

(** The transaction that [contract.populateTransaction.<method>] builds,
    with the gas limit the client sets on it.  The gas limit is
    [BigNumber.from] of a number computed from an array length, which is
    below 2^32, so that conversion cannot fail and is left out. *)
Record UnsignedTransaction : Type := {
  method : string;
  headersData : string;
  forkIdArgument : option Z;
  storedHeaderArgument : EVMBtcStoredHeader;
  gasLimit : Z
}.

Record SaveHeadersResult : Type := {
  forkId : Z;
  lastStoredHeader : EVMBtcStoredHeader;
  tx : UnsignedTransaction;
  computedCommitedHeaders : list EVMBtcStoredHeader
}.

(** ['0x' + Buffer.concat(blockHeaderObj.map(e => e.serialize())).toString('hex')] *)
Definition headersHex (blockHeaderObj : list EVMBtcHeader) : string :=
  ("0x" ++ bufferToHex (List.concat (map serialize blockHeaderObj)))%string.

(** The loop that pushes [last.computeNext(blockHeader)] for each header
    onto [computedCommitedHeaders], which starts as [[storedHeader]]. *)
Definition precompute (storedHeader : EVMBtcStoredHeader)
    (blockHeaderObj : list EVMBtcHeader) : list EVMBtcStoredHeader :=
  fold_left
    (fun computed blockHeader =>
       computed ++ [computeNext (last computed storedHeader) blockHeader])
    blockHeaderObj [storedHeader].

Definition saveNewForkHeaders (env : RelayEnv) (forkHeaders : list BtcBlock)
    (storedHeader : EVMBtcStoredHeader) (tipWork : list byte)
  : result SaveHeadersResult :=
  let blockHeaderObj := map serializeBlockHeader forkHeaders in
  let forkId := forkCounter env in
  let unsignedTx :=
    {| method := "submitNewForkChainHeaders";
       headersData := headersHex blockHeaderObj;
       forkIdArgument := None;
       storedHeaderArgument := storedHeader;
       gasLimit := 200000 + 100000 * Z.of_nat (List.length forkHeaders) |} in
  let computedCommitedHeaders := precompute storedHeader blockHeaderObj in
  let changedCommitedHeader := last computedCommitedHeaders storedHeader in
  zero <- BigNumber.fromNumber 0 ;;
  let forkId :=
    if gtBuffer (getChainWork changedCommitedHeader) tipWork then zero
    else forkId in
  forkIdNumber <- BigNumber.toNumber forkId ;;
  Ok {| forkId := forkIdNumber;
        lastStoredHeader := changedCommitedHeader;
        tx := unsignedTx;
        computedCommitedHeaders := computedCommitedHeaders |}.

Definition saveForkHeaders (env : RelayEnv) (forkHeaders : list BtcBlock)
    (storedHeader : EVMBtcStoredHeader) (forkId : Z) (tipWork : list byte)
  : result SaveHeadersResult :=
  let blockHeaderObj := map serializeBlockHeader forkHeaders in
  forkIdNum <- BigNumber.fromNumber forkId ;;
  let unsignedTx :=
    {| method := "submitForkChainHeaders";
       headersData := headersHex blockHeaderObj;
       forkIdArgument := Some forkIdNum;
       storedHeaderArgument := storedHeader;
       gasLimit := 200000 + 100000 * Z.of_nat (List.length forkHeaders) |} in
  let computedCommitedHeaders := precompute storedHeader blockHeaderObj in
  let changedCommitedHeader := last computedCommitedHeaders storedHeader in
  let forkId :=
    if gtBuffer (getChainWork changedCommitedHeader) tipWork then 0
    else forkId in
  Ok {| forkId := forkId;
        lastStoredHeader := changedCommitedHeader;
        tx := unsignedTx;
        computedCommitedHeaders := computedCommitedHeaders |}.

(** The chain of stored headers the specification describes: the previous stored
    header, then [computeNext] applied header after header. *)
Fixpoint chainFrom (prev : EVMBtcStoredHeader) (headers : list EVMBtcHeader)
  : list EVMBtcStoredHeader :=
  match headers with
  | [] => [prev]
  | h :: rest => prev :: chainFrom (computeNext prev h) rest
  end.

Definition saveMainHeaders (mainHeaders : list BtcBlock)
    (storedHeader : EVMBtcStoredHeader) : SaveHeadersResult :=
  let blockHeaderObj := map serializeBlockHeader mainHeaders in
  let unsignedTx :=
    {| method := "submitMainChainHeaders";
       headersData := headersHex blockHeaderObj;
       forkIdArgument := None;
       storedHeaderArgument := storedHeader;
       gasLimit := 40000 + 40000 * Z.of_nat (List.length mainHeaders) |} in
  let computedCommitedHeaders := precompute storedHeader blockHeaderObj in
  {| forkId := 0;
     lastStoredHeader := last computedCommitedHeaders storedHeader;
     tx := unsignedTx;
     computedCommitedHeaders := computedCommitedHeaders |}.

End Headers.

Definition getTipData (env : RelayEnv) : result (option TipData) :=
  let w := highScoreAndBlockHeight env in
  mask <- BigNumber.fromString
            "0x00000000FFFFFFFFFFFFFFFFFFFFFFFFFFFFFFFFFFFFFFFFFFFFFFFFFFFFFFFF" ;;
  work <- BigNumber.and w mask ;;
  let chainWork :=
    bufferFromHex (padStart 64 "0" (substring2 (BigNumber.toHexString work))) in
  top <- BigNumber.shr w 224 ;;
  blockheight <- BigNumber.toNumber top ;;
  if blockheight =? 0 then Ok None
  else
    let spvTipCommitment := getLatestMainChainCommitmentHash env in
    Ok (Some {| commitHash := substring2 spvTipCommitment;
                chainWork := chainWork;
                blockheight := blockheight |}).

(** The gas price [estimateSynchronizeFee] settles on: the last base fee
    when EIP-1559 data is asked for and has one, else that data's gas
    price, else (also when [getFeeData] throws) the legacy gas price. *)
Definition selectGasPrice (env : RelayEnv) : Z :=
  let gasPrice :=
    if useEip1559ForFeeEstimate env then
      match getFeeData env with
      | Some gasPriceData =>
          match lastBaseFeePerGas gasPriceData with
          | Some fee => Some fee
          | None => gasPrice gasPriceData
          end
      | None => None
      end
    else None in
  match gasPrice with
  | Some price => price
  | None => getGasPrice env
  end.

Definition estimateSynchronizeFee (env : RelayEnv) (requiredBlockheight : Z)
  : result Z :=
  top <- BigNumber.shr (highScoreAndBlockHeight env) 224 ;;
  currBlockheight <- BigNumber.toNumber top ;;
  let blockheightDelta := requiredBlockheight - currBlockheight in
  if blockheightDelta <=? 0 then Ok 0
  else
    let totalGas := blockheightDelta * GAS_PER_BLOCKHEADER in
    let gasPrice := selectGasPrice env in
    gas <- BigNumber.fromNumber totalGas ;;
    Ok (gas * gasPrice).

(** [getFeePerBlock]; its choice of the gas price is the same code as in
    [estimateSynchronizeFee]. *)
Definition getFeePerBlock (env : RelayEnv) : result Z :=
  let gasPrice := selectGasPrice env in
  gas <- BigNumber.fromNumber GAS_PER_BLOCKHEADER ;;
  Ok (gas * gasPrice).

Section Logs.
Context {codec : HeaderCodec}.

(** A log of the relay contract after [contractInterface.parseLog]: the
    event's name and its arguments. *)
Record ParsedLog : Type := {
  name : string;
  blockHash : string;
  commitmentHash : string;
  storedHeader : EVMBtcStoredHeader
}.

(** What the log scanners read besides the tip word: the provider's block
    number and logs, the relay's commitment at a height, the block height a
    stored header carries, and the size of a log window. *)
Record LogSource : Type := {
  getBlockNumber : Z;
  getLogs : Z -> Z -> list ParsedLog;
  relayCommitment : Z -> string;
  getBlockheight : EVMBtcStoredHeader -> Z;
  logBlocksLimit : Z
}.

Record BlockData : Type := {
  blockhash : string;
  height : Z
}.

(** The block hash of a log in the byte order of the Bitcoin RPC:
    [Buffer.from(blockHash.substring(2), 'hex').reverse().toString('hex')]. *)
Definition loggedBlockHash (log : ParsedLog) : string :=
  bufferToHex (rev (bufferFromHex (substring2 (blockHash log)))).

Definition isStoreLog (log : ParsedLog) : bool :=
  String.eqb (name log) "StoreHeader" || String.eqb (name log) "StoreFork".

(** The outcome of looking through one window of logs. *)
Inductive Scan : Type :=
| Found (header : EVMBtcStoredHeader)
| ReturnNull
| NoMatch.

(** The [for] loop of [retrieveLogAndBlockheight] over the logs it is given
    in the order it visits them (the last log of the window first).  The
    height a stored header carries is a 32-bit number, which [BigNumber.from]
    accepts, so asking the relay for its commitment does not throw. *)
Fixpoint scanLogs (source : LogSource) (blockData : BlockData)
    (logs : list ParsedLog) : Scan :=
  match logs with
  | [] => NoMatch
  | log :: rest =>
      if isStoreLog log && String.eqb (loggedBlockHash log) (blockhash blockData) then
        let header := storedHeader log in
        let committedData := relayCommitment source (getBlockheight source header) in
        if negb (String.eqb committedData (commitmentHash log)) then ReturnNull
        else Found header
      else scanLogs source blockData rest
  end.

(** The [while] loop: at most [fuel] windows are looked through, going back
    [logBlocksLimit] blocks each time; [None] when the header was not found
    in these windows (the loop itself goes on, after half a second). *)
Fixpoint scanWindows (source : LogSource) (blockData : BlockData) (fuel : nat)
    (currentBlock : Z) : option Scan :=
  match fuel with
  | O => None
  | S fuel' =>
      let logs := getLogs source (currentBlock - logBlocksLimit source) currentBlock in
      match scanLogs source blockData (rev logs) with
      | NoMatch =>
          scanWindows source blockData fuel' (currentBlock - logBlocksLimit source)
      | outcome => Some outcome
      end
  end.

(** The test of the loop on one log: it stores the block asked for. *)
Definition logMatches (blockData : BlockData) (log : ParsedLog) : bool :=
  isStoreLog log && String.eqb (loggedBlockHash log) (blockhash blockData).

(** The logs the loop fetches in its [k]-th turn when it starts at block
    [start]: [fromBlock] and [toBlock] after [k] times
    [currentBlock -= logBlocksLimit]. *)
Definition window (source : LogSource) (start : Z) (k : nat) : list ParsedLog :=
  getLogs source (start - (Z.of_nat k + 1) * logBlocksLimit source)
                 (start - Z.of_nat k * logBlocksLimit source).

Record RetrievedLog : Type := {
  retrievedHeader : EVMBtcStoredHeader;
  retrievedHeight : Z
}.

(** [retrieveLogAndBlockheight]: [None] when the search is still going on
    after [fuel] windows, [Some None] for [null]. *)
Definition retrieveLogAndBlockheight (env : RelayEnv) (source : LogSource)
    (fuel : nat) (blockData : BlockData) (requiredBlockheight : option Z)
  : result (option (option RetrievedLog)) :=
  top <- BigNumber.shr (highScoreAndBlockHeight env) 224 ;;
  blockHeight <- BigNumber.toNumber top ;;
  if blockHeight <? height blockData then Ok (Some None)
  else
    if match requiredBlockheight with
       | Some required => blockHeight <? required
       | None => false
       end
    then Ok (Some None)
    else
      let currentBlock := getBlockNumber source - 1 in
      match scanWindows source blockData fuel currentBlock with
      | None => Ok None
      | Some (Found header) =>
          Ok (Some (Some {| retrievedHeader := header;
                            retrievedHeight := blockHeight |}))
      | Some _ => Ok (Some None)
      end.

(** The [for] loop of [retrieveLogByCommitHash], over the logs in the order
    of the window. *)
Fixpoint scanLogsByCommitHash (spvCommitmentHashStr : string) (blockData : BlockData)
    (logs : list ParsedLog) : Scan :=
  match logs with
  | [] => NoMatch
  | log :: rest =>
      if isStoreLog log
         && String.eqb (substring2 (commitmentHash log)) spvCommitmentHashStr then
        if negb (String.eqb (loggedBlockHash log) (blockhash blockData)) then ReturnNull
        else Found (storedHeader log)
      else scanLogsByCommitHash spvCommitmentHashStr blockData rest
  end.

Fixpoint scanWindowsByCommitHash (source : LogSource) (spvCommitmentHashStr : string)
    (blockData : BlockData) (fuel : nat) (currentBlock : Z) : option Scan :=
  match fuel with
  | O => None
  | S fuel' =>
      let logs := getLogs source (currentBlock - logBlocksLimit source) currentBlock in
      match scanLogsByCommitHash spvCommitmentHashStr blockData logs with
      | NoMatch =>
          scanWindowsByCommitHash source spvCommitmentHashStr blockData fuel'
            (currentBlock - logBlocksLimit source)
      | outcome => Some outcome
      end
  end.

(** [retrieveLogByCommitHash]: [None] when the search is still going on
    after [fuel] windows, [Some None] for [null]. *)
Definition retrieveLogByCommitHash (env : RelayEnv) (source : LogSource)
    (fuel : nat) (spvCommitmentHashStr : string) (blockData : BlockData)
  : result (option (option EVMBtcStoredHeader)) :=
  top <- BigNumber.shr (highScoreAndBlockHeight env) 224 ;;
  blockHeight <- BigNumber.toNumber top ;;
  if blockHeight <? height blockData then Ok (Some None)
  else
    at_ <- BigNumber.fromNumber blockHeight ;;
    let committedData := substring2 (relayCommitment source at_) in
    if negb (String.eqb committedData spvCommitmentHashStr) then Ok (Some None)
    else
      let currentBlock := getBlockNumber source - 1 in
      match scanWindowsByCommitHash source spvCommitmentHashStr blockData fuel
              currentBlock with
      | None => Ok None
      | Some (Found header) => Ok (Some (Some header))
      | Some _ => Ok (Some None)
      end.

(** The Bitcoin RPC as [retrieveLatestKnownBlockLog] uses it. *)
Record BitcoinRpc {B : Type} : Type := {
  isInMainChain : string -> bool;
  getBlockHeader : string -> B
}.

(** The [for] loop of [retrieveLatestKnownBlockLog], over the logs in the
    order it visits them (the last log of the window first). *)
Fixpoint scanLatestKnown {B : Type} (source : LogSource) (bitcoinRpc : @BitcoinRpc B)
    (logs : list ParsedLog) : option (EVMBtcStoredHeader * B) :=
  match logs with
  | [] => None
  | log :: rest =>
      if isStoreLog log then
        let blockHash := loggedBlockHash log in
        if isInMainChain bitcoinRpc blockHash then
          let _storedHeader := storedHeader log in
          let committedData :=
            relayCommitment source (getBlockheight source _storedHeader) in
          if String.eqb committedData (commitmentHash log) then
            Some (_storedHeader, getBlockHeader bitcoinRpc blockHash)
          else scanLatestKnown source bitcoinRpc rest
        else scanLatestKnown source bitcoinRpc rest
      else scanLatestKnown source bitcoinRpc rest
  end.

Fixpoint scanWindowsLatestKnown {B : Type} (source : LogSource)
    (bitcoinRpc : @BitcoinRpc B) (fuel : nat) (currentBlock : Z)
  : option (EVMBtcStoredHeader * B) :=
  match fuel with
  | O => None
  | S fuel' =>
      let logs := getLogs source (currentBlock - logBlocksLimit source) currentBlock in
      match scanLatestKnown source bitcoinRpc (rev logs) with
      | Some found => Some found
      | None =>
          scanWindowsLatestKnown source bitcoinRpc fuel'
            (currentBlock - logBlocksLimit source)
      end
  end.

(** [retrieveLatestKnownBlockLog]: the stored header and the Bitcoin header
    found, [None] when the search is still going on after [fuel] windows. *)
Definition retrieveLatestKnownBlockLog {B : Type} (source : LogSource)
    (bitcoinRpc : @BitcoinRpc B) (fuel : nat) : option (EVMBtcStoredHeader * B) :=
  scanWindowsLatestKnown source bitcoinRpc fuel (getBlockNumber source - 1).

(** A log that [retrieveLatestKnownBlockLog] accepts: it stores a header, its
    block is in the main chain of the Bitcoin node, and its commitment hash
    is the relay's commitment at the height of its header. *)
Definition isKnownLog {B : Type} (source : LogSource) (bitcoinRpc : @BitcoinRpc B)
    (log : ParsedLog) : bool :=
  isStoreLog log
  && isInMainChain bitcoinRpc (loggedBlockHash log)
  && String.eqb (relayCommitment source (getBlockheight source (storedHeader log)))
       (commitmentHash log).

(** The log the search of [retrieveLatestKnownBlockLog] settles on in its
    [k]-th window: it is accepted, no log after it in the window is, and no
    log of a window nearer to the tip is. *)
Definition latestKnownAt {B : Type} (source : LogSource) (bitcoinRpc : @BitcoinRpc B)
    (start : Z) (k : nat) (log : ParsedLog) : Prop :=
  exists before after,
    window source start k = before ++ log :: after
    /\ isKnownLog source bitcoinRpc log = true
    /\ (forall l, In l after -> isKnownLog source bitcoinRpc l = false)
    /\ (forall j l, (j < k)%nat -> In l (window source start j) ->
                    isKnownLog source bitcoinRpc l = false).

End Logs.

End EVMBtcRelay.

(* ================================================================== *)
(** ** Swap prices (packages/crosslightning-sdk-base, ISwapPrice and OKXSwapPrice) *)

(** The abstract methods of [ISwapPrice] and its field.  A token address is
    the string that keys the coins map; [preFetchedPrice] is optional. *)
Class ISwapPrice (T : Type) : Type := {
  maxAllowedFeeDifferencePPM : T -> Z;
  getToBtcSwapAmount : T -> Z -> string -> option Z -> result Z;
  getFromBtcSwapAmount : T -> Z -> string -> option Z -> result Z;
  shouldIgnore : T -> string -> result bool
}.

Module SwapPrice.

(** The object that [isValidAmountSend] and [isValidAmountReceive] return. *)
Record Validity : Type := {
  isValid : bool;
  differencePPM : Z;
  satsBaseFee : Z;
  feePPM : Z
}.

Section Methods.
Context {T : Type} `{ISwapPrice T}.

Definition isValidAmountSend (self : T) (amountSats satsBaseFee feePPM paidToken : Z)
    (token : string) (preFetchedPrice : option Z) : result Validity :=
  ignore <- shouldIgnore self token ;;
  if ignore : bool then
    Ok {| isValid := true; differencePPM := 0;
          satsBaseFee := satsBaseFee; feePPM := feePPM |}
  else
    withFee <- BN.div (amountSats * (1000000 + feePPM)) 1000000 ;;
    let totalSats := withFee + satsBaseFee in
    calculatedAmtInToken <- getFromBtcSwapAmount self totalSats token preFetchedPrice ;;
    let difference := paidToken - calculatedAmtInToken in
    differencePPM <- BN.div (difference * 1000000) calculatedAmtInToken ;;
    if differencePPM >? maxAllowedFeeDifferencePPM self then
      Ok {| isValid := false; differencePPM := differencePPM;
            satsBaseFee := satsBaseFee; feePPM := feePPM |}
    else
      Ok {| isValid := true; differencePPM := differencePPM;
            satsBaseFee := satsBaseFee; feePPM := feePPM |}.

Definition isValidAmountReceive (self : T) (amountSats satsBaseFee feePPM receiveToken : Z)
    (token : string) (preFetchedPrice : option Z) : result Validity :=
  ignore <- shouldIgnore self token ;;
  if ignore : bool then
    Ok {| isValid := true; differencePPM := 0;
          satsBaseFee := satsBaseFee; feePPM := feePPM |}
  else
    withFee <- BN.div (amountSats * (1000000 - feePPM)) 1000000 ;;
    let totalSats := withFee - satsBaseFee in
    calculatedAmtInToken <- getFromBtcSwapAmount self totalSats token preFetchedPrice ;;
    let difference := calculatedAmtInToken - receiveToken in
    differencePPM <- BN.div (difference * 1000000) calculatedAmtInToken ;;
    if differencePPM >? maxAllowedFeeDifferencePPM self then
      Ok {| isValid := false; differencePPM := differencePPM;
            satsBaseFee := satsBaseFee; feePPM := feePPM |}
    else
      Ok {| isValid := true; differencePPM := differencePPM;
            satsBaseFee := satsBaseFee; feePPM := feePPM |}.

End Methods.

End SwapPrice.

Module OKXSwapPrice.

(** An entry of the coins map; [decimals] is a count of digits. *)
Record Coin : Type := {
  pair : string;
  decimals : nat;
  invert : bool
}.

(** The fields of an [OKXSwapPrice] that its amount methods read.  The coins
    map is looked up by token address.  [getPrice] stands for the method of
    that name, which reads the exchange or its cache and computes in floating
    point; only its result, a [BN], enters the amounts. *)
Record t : Type := {
  maxAllowedFeeDiffPPM : Z;
  COINS_MAP : string -> option Coin;
  getPrice : string -> bool -> Z
}.

(** [preFetchedPrice || (await this.getPrice(coin.pair, coin.invert))]: a
    [BN] is an object, so a price that was passed is used even when it is
    zero. *)
Definition priceFor (self : t) (coin : Coin) (preFetchedPrice : option Z) : Z :=
  match preFetchedPrice with
  | Some price => price
  | None => getPrice self (pair coin) (invert coin)
  end.


Definition getFromBtcSwapAmount (self : t) (fromAmount : Z) (toToken : string)
    (preFetchedPrice : option Z) : result Z :=
  match COINS_MAP self toToken with
  | None => Throw (Fault "Token not found")
  | Some coin =>
      let price := priceFor self coin preFetchedPrice in
      BN.div (fromAmount * 10 ^ Z.of_nat (decimals coin) * 1000) price
  end.

Definition getToBtcSwapAmount (self : t) (fromAmount : Z) (fromToken : string)
    (preFetchedPrice : option Z) : result Z :=
  match COINS_MAP self fromToken with
  | None => Throw (Fault "Token not found")
  | Some coin =>
      let price := priceFor self coin preFetchedPrice in
      msat <- BN.div (fromAmount * price) 1000 ;;
      BN.div msat (10 ^ Z.of_nat (decimals coin))
  end.

Definition shouldIgnore (self : t) (tokenAddress : string) : result bool :=
  match COINS_MAP self tokenAddress with
  | None => Throw (Fault "Token not found")
  | Some coin => Ok (String.eqb (pair coin) "$ignore")
  end.

#[export] Instance swapPrice : ISwapPrice t :=
  Build_ISwapPrice t maxAllowedFeeDiffPPM getToBtcSwapAmount getFromBtcSwapAmount
    shouldIgnore.

End OKXSwapPrice.

(* ================================================================== *)
(** ** Which errors a computation can raise *)

(** [faultOnly c]: whatever [c] throws is an error of a library, not a
    [SignatureVerificationError]. *)
Definition faultOnly {A : Type} (c : result A) : Prop :=
  forall e : Error, c = Throw e -> exists message : string, e = Fault message.

(** [throwsOnly P c]: whatever [c] throws satisfies [P]. *)
Definition throwsOnly {A : Type} (P : Error -> Prop) (c : result A) : Prop :=
  forall e : Error, c = Throw e -> P e.

(* ================================================================== *)
(** ** Fixed inputs for worked examples *)

(** A swap between two parties with a given data word. *)
Definition exampleSwap (offererAddress claimerAddress : string) (d : Z) : EVMSwapData :=
  {| offerer := offererAddress; claimer := claimerAddress;
     token := "0x0000000000000000000000000000000000000000";
     amount := Some 100000;
     paymentHash := "0x11";
     data := d;
     securityDeposit := Some 0; claimerBounty := Some 0; txoHash := None |}.

(** An environment whose clock, own address, stored commitment and recovered
    signer are given; the digest and the two encoders are stand-ins that
    return well-formed hex text. *)
Definition exampleEnv (self : string) (nowMilliseconds : Z) (commitment : string)
    (recovered : option string) : Env :=
  {| address := self;
     Date_now := nowMilliseconds;
     getCommitment := fun _ => commitment;
     keccak256 := fun b => firstn 32 (b ++ repeat x00 32);
     defaultAbiCoder_encode := fun s => BigNumber.toHexString (data s);
     solidityPack := fun prefixHex commitHash _ =>
                       Some (prefixHex ++ substring2 commitHash)%string;
     verifyMessage := fun _ _ => recovered |}.

(** A relay whose tip is at height 840000 with fork counter 3. *)
Definition exampleRelay : RelayEnv :=
  {| highScoreAndBlockHeight := 840000 * 2 ^ 224 + 123456789;
     forkCounter := 3;
     getLatestMainChainCommitmentHash := "0xabcdef";
     getFeeData := Some {| lastBaseFeePerGas := None; gasPrice := Some 30 |};
     getGasPrice := 10;
     useEip1559ForFeeEstimate := true |}.

(** The value of a buffer read as a big-endian number. *)
Definition bufferValue (b : list byte) : Z :=
  fold_left (fun acc x => 256 * acc + byteValue x) b 0.

(** A small header codec: a stored header is a pair of height and chain
    work, and every header adds its [nbits] to the work. *)
Definition exampleCodec : HeaderCodec :=
  {| EVMBtcStoredHeader := Z * Z;
     serialize := fun h => bytesLE 4 (version h);
     computeNext := fun s h => (fst s + 1, snd s + nbits h);
     getChainWork := fun s => bytesBE 32 (snd s);
     gtBuffer := fun a b => bufferValue b <? bufferValue a |}.

Definition exampleBlock (bits : Z) : BtcBlock :=
  {| getVersion := 536870912; getPrevBlockhash := "00ff"; getMerkleRoot := "abcd";
     getTimestamp := 1700000000; getNbits := bits; getNonce := 1; getHash := "1234" |}.

(** A log source over [exampleCodec]: one StoreHeader log for the block with
    hash 1234 at height 839999, found in the second window back from block
    1000. *)
Definition exampleLog (commitment : string) : @EVMBtcRelay.ParsedLog exampleCodec :=
  @EVMBtcRelay.Build_ParsedLog exampleCodec "StoreHeader" "0x3412" commitment
    (839999, 5).

Definition exampleLogSource (commitment : string) : @EVMBtcRelay.LogSource exampleCodec :=
  @EVMBtcRelay.Build_LogSource exampleCodec
    1001
    (fun _ toBlock => if toBlock =? 900 then [exampleLog commitment] else [])
    (fun h => if h =? 839999 then "0xc0" else "0x00")
    fst
    100.

(** A price source with the coins map of the class: USDC with 6 decimals,
    SOL with 9, a coin that is ignored, and prices in the unit of
    [getPrice]. *)
Definition examplePrices : OKXSwapPrice.t :=
  {| OKXSwapPrice.maxAllowedFeeDiffPPM := 5000;
     OKXSwapPrice.COINS_MAP := fun token =>
       if String.eqb token "USDC" then
         Some {| OKXSwapPrice.pair := "BTC-USDC"; OKXSwapPrice.decimals := 6;
                 OKXSwapPrice.invert := true |}
       else if String.eqb token "SOL" then
         Some {| OKXSwapPrice.pair := "SOL-BTC"; OKXSwapPrice.decimals := 9;
                 OKXSwapPrice.invert := false |}
       else if String.eqb token "FREE" then
         Some {| OKXSwapPrice.pair := "$ignore"; OKXSwapPrice.decimals := 0;
                 OKXSwapPrice.invert := false |}
       else None;
     OKXSwapPrice.getPrice := fun pair _ =>
       if String.eqb pair "BTC-USDC" then 1600000 else 250000000 |}.
(* ================================================================== *)
(** * Theorems *)

(** ** The error monad and BigNumber on non-negative operands *)

Lemma bind_Ok {A B : Type} (a : A) (k : A -> result B) :
  bind (Ok a) k = k a.
Proof. reflexivity. Qed.

Lemma and_nonneg (a b : Z) :
  0 <= a -> 0 <= b -> BigNumber.and a b = Ok (Z.land a b).
Proof.
  intros Ha Hb. unfold BigNumber.and.
  destruct (Z.ltb_spec a 0); [lia|].
  destruct (Z.ltb_spec b 0); [lia|]. reflexivity.
Qed.

Lemma or_nonneg (a b : Z) :
  0 <= a -> 0 <= b -> BigNumber.or a b = Ok (Z.lor a b).
Proof.
  intros Ha Hb. unfold BigNumber.or.
  destruct (Z.ltb_spec a 0); [lia|].
  destruct (Z.ltb_spec b 0); [lia|]. reflexivity.
Qed.

Lemma shl_nonneg (a n : Z) :
  0 <= a -> 0 <= n -> BigNumber.shl a n = Ok (Z.shiftl a n).
Proof.
  intros Ha Hn. unfold BigNumber.shl.
  destruct (Z.ltb_spec n 0); [lia|].
  destruct (Z.ltb_spec a 0); [lia|]. reflexivity.
Qed.

Lemma shr_nonneg (a n : Z) :
  0 <= a -> 0 <= n -> BigNumber.shr a n = Ok (Z.shiftr a n).
Proof.
  intros Ha Hn. unfold BigNumber.shr.
  destruct (Z.ltb_spec n 0); [lia|].
  destruct (Z.ltb_spec a 0); [lia|]. reflexivity.
Qed.

Lemma fromNumber_safe (n : Z) :
  - BigNumber.MAX_SAFE < n < BigNumber.MAX_SAFE -> BigNumber.fromNumber n = Ok n.
Proof.
  intros H. unfold BigNumber.fromNumber.
  destruct (Z.leb_spec BigNumber.MAX_SAFE n); [lia|].
  destruct (Z.leb_spec n (- BigNumber.MAX_SAFE)); [lia|]. reflexivity.
Qed.

Lemma toNumber_safe (n : Z) :
  Z.abs n < 2 ^ 53 -> BigNumber.toNumber n = Ok n.
Proof.
  intros H. unfold BigNumber.toNumber, BN.toNumber.
  destruct (Z.ltb_spec (Z.abs n) (2 ^ 53)); [reflexivity | lia].
Qed.

Lemma land_ones_bounds (a k : Z) : 0 <= k -> 0 <= Z.land a (Z.ones k) < 2 ^ k.
Proof.
  intros Hk. rewrite Z.land_ones by lia. apply Z.mod_pos_bound. lia.
Qed.

Lemma lor_shiftl_add (a b k : Z) :
  0 <= k -> 0 <= a < 2 ^ k -> Z.lor a (Z.shiftl b k) = a + b * 2 ^ k.
Proof.
  intros Hk Ha. rewrite <- Z.shiftl_mul_pow2 by lia.
  apply Z.or_to_plus.
  rewrite <- (Z.mod_small a (2 ^ k)) by lia.
  Z.bitblast. subst.
  rewrite (Z.testbit_neg_r b) by lia. apply andb_false_r.
Qed.

Lemma boolNumber_bounds (b : bool) : 0 <= boolNumber b < 2.
Proof. destruct b; simpl; lia. Qed.

(** ** The packed data word *)


Ltac bn_nonneg :=
  repeat match goal with
    | |- 0 <= Z.land _ _ => apply Z.land_nonneg; left
    | |- 0 <= Z.lor _ _ => apply Z.lor_nonneg; split
    | |- 0 <= Z.shiftl _ _ => apply Z.shiftl_nonneg
    | |- 0 <= Z.shiftr _ _ => apply Z.shiftr_nonneg
    | |- 0 <= _ mod _ => apply Z.mod_pos_bound; lia
    end; try lia.

Ltac bn_step :=
  first
    [ rewrite bind_Ok
    | rewrite and_nonneg by (bn_nonneg; cbv; congruence)
    | rewrite or_nonneg by bn_nonneg
    | rewrite shl_nonneg by bn_nonneg
    | rewrite shr_nonneg by bn_nonneg
    | rewrite fromNumber_safe by (unfold BigNumber.MAX_SAFE; lia) ].

Lemma new_data (o c t : string) (am : option Z) (ph : string) (expiry nonce confirmations kind : Z)
    (payIn payOut : bool) (sd cb : option Z) (index : Z) (txo : option string) :
  0 <= expiry -> 0 <= nonce -> 0 <= confirmations < 2 ^ 16 ->
  0 <= kind < 2 ^ 8 -> 0 <= index < 2 ^ 8 ->
  EVMSwapData.new o c t am ph (Some expiry) (Some nonce) (Some confirmations) kind
    payIn payOut sd cb index txo =
  Ok {| offerer := o; claimer := c; token := t; amount := am; paymentHash := ph;
        data := packedLayout (expiry mod 2 ^ 64) (nonce mod 2 ^ 64) confirmations kind
                  payIn payOut index;
        securityDeposit := sd; claimerBounty := cb; txoHash := txo |}.
Proof.
  intros He Hn Hc Hk Hi.
  pose proof (boolNumber_bounds payIn) as Hpi.
  pose proof (boolNumber_bounds payOut) as Hpo.
  unfold EVMSwapData.new, orZero.
  change (BigNumber.fromString "0xFFFFFFFFFFFFFFFF") with (Ok (Z.ones 64)).
  change (BigNumber.fromNumber 65535) with (Ok (Z.ones 16)).
  change (BigNumber.fromNumber 255) with (Ok (Z.ones 8)).
  repeat bn_step.
  do 2 f_equal.
  rewrite !Z.land_ones by lia.
  pose proof (Z.mod_pos_bound expiry (2 ^ 64) ltac:(lia)) as He'.
  pose proof (Z.mod_pos_bound nonce (2 ^ 64) ltac:(lia)) as Hn'.
  rewrite (Z.mod_small confirmations), (Z.mod_small kind), (Z.mod_small index),
    (Z.mod_small (boolNumber payIn)), (Z.mod_small (boolNumber payOut)) by lia.
  unfold packedLayout.
  set (e := expiry mod 2 ^ 64) in *. set (n := nonce mod 2 ^ 64) in *.
  rewrite (lor_shiftl_add e) by lia.
  rewrite (lor_shiftl_add (e + _)) by lia.
  rewrite (lor_shiftl_add (e + _ + _)) by lia.
  rewrite (lor_shiftl_add (e + _ + _ + _)) by lia.
  rewrite (lor_shiftl_add (e + _ + _ + _ + _)) by lia.
  rewrite (lor_shiftl_add (e + _ + _ + _ + _ + _)) by lia.
  reflexivity.
Qed.

Lemma field_extract (lo v hi k w kw : Z) :
  kw = k + w -> 0 <= k -> 0 <= w -> 0 <= lo < 2 ^ k -> 0 <= v < 2 ^ w ->
  ((lo + v * 2 ^ k + hi * 2 ^ kw) / 2 ^ k) mod 2 ^ w = v.
Proof.
  intros -> Hk Hw Hlo Hv.
  rewrite Z.pow_add_r by lia.
  replace (lo + v * 2 ^ k + hi * (2 ^ k * 2 ^ w))
    with (lo + (v + hi * 2 ^ w) * 2 ^ k) by ring.
  rewrite Z.div_add by lia.
  rewrite Z.div_small by lia. simpl.
  rewrite Z.mod_add by lia.
  apply Z.mod_small. lia.
Qed.

Section PackedFields.
Variables expiry nonce confirmations kind index : Z.
Variables payIn payOut : bool.
Hypothesis Hexpiry : 0 <= expiry < 2 ^ 64.
Hypothesis Hnonce : 0 <= nonce < 2 ^ 64.
Hypothesis Hconfirmations : 0 <= confirmations < 2 ^ 16.
Hypothesis Hkind : 0 <= kind < 2 ^ 8.
Hypothesis Hindex : 0 <= index < 2 ^ 8.

Let d := packedLayout expiry nonce confirmations kind payIn payOut index.

Lemma packedLayout_bounds : 0 <= d < 2 ^ 176.
Proof.
  pose proof (boolNumber_bounds payIn). pose proof (boolNumber_bounds payOut).
  unfold d, packedLayout. lia.
Qed.

Lemma packed_expiry : d mod 2 ^ 64 = expiry.
Proof.
  pose proof (boolNumber_bounds payIn). pose proof (boolNumber_bounds payOut).
  unfold d, packedLayout.
  replace (expiry + _ + _ + _ + _ + _ + _) with
    (expiry + (nonce + confirmations * 2 ^ 64 + kind * 2 ^ 80 + boolNumber payIn * 2 ^ 88
       + boolNumber payOut * 2 ^ 96 + index * 2 ^ 104) * 2 ^ 64) by ring.
  rewrite Z.mod_add by lia. apply Z.mod_small. lia.
Qed.

Lemma packed_nonce : (d / 2 ^ 64) mod 2 ^ 64 = nonce.
Proof.
  pose proof (boolNumber_bounds payIn). pose proof (boolNumber_bounds payOut).
  unfold d, packedLayout.
  replace (expiry + _ + _ + _ + _ + _ + _) with
    (expiry + nonce * 2 ^ 64 + (confirmations + kind * 2 ^ 16 + boolNumber payIn * 2 ^ 24
       + boolNumber payOut * 2 ^ 32 + index * 2 ^ 40) * 2 ^ 128) by ring.
  apply field_extract; lia.
Qed.

Lemma packed_confirmations : (d / 2 ^ 128) mod 2 ^ 16 = confirmations.
Proof.
  pose proof (boolNumber_bounds payIn). pose proof (boolNumber_bounds payOut).
  unfold d, packedLayout.
  replace (expiry + _ + _ + _ + _ + _ + _) with
    ((expiry + nonce * 2 ^ 64) + confirmations * 2 ^ 128
     + (kind + boolNumber payIn * 2 ^ 8 + boolNumber payOut * 2 ^ 16 + index * 2 ^ 24)
       * 2 ^ 144) by ring.
  apply field_extract; lia.
Qed.

Lemma packed_kind : (d / 2 ^ 144) mod 2 ^ 8 = kind.
Proof.
  pose proof (boolNumber_bounds payIn). pose proof (boolNumber_bounds payOut).
  unfold d, packedLayout.
  replace (expiry + _ + _ + _ + _ + _ + _) with
    ((expiry + nonce * 2 ^ 64 + confirmations * 2 ^ 128) + kind * 2 ^ 144
     + (boolNumber payIn + boolNumber payOut * 2 ^ 8 + index * 2 ^ 16)
       * 2 ^ 152) by ring.
  apply field_extract; lia.
Qed.

Lemma packed_payIn : (d / 2 ^ 152) mod 2 ^ 8 = boolNumber payIn.
Proof.
  pose proof (boolNumber_bounds payIn). pose proof (boolNumber_bounds payOut).
  unfold d, packedLayout.
  replace (expiry + _ + _ + _ + _ + _ + _) with
    ((expiry + nonce * 2 ^ 64 + confirmations * 2 ^ 128 + kind * 2 ^ 144)
     + boolNumber payIn * 2 ^ 152
     + (boolNumber payOut + index * 2 ^ 8) * 2 ^ 160) by ring.
  apply field_extract; lia.
Qed.

Lemma packed_payOut : (d / 2 ^ 160) mod 2 ^ 8 = boolNumber payOut.
Proof.
  pose proof (boolNumber_bounds payIn). pose proof (boolNumber_bounds payOut).
  unfold d, packedLayout.
  replace (expiry + _ + _ + _ + _ + _ + _) with
    ((expiry + nonce * 2 ^ 64 + confirmations * 2 ^ 128 + kind * 2 ^ 144
      + boolNumber payIn * 2 ^ 152)
     + boolNumber payOut * 2 ^ 160 + index * 2 ^ 168) by ring.
  apply field_extract; lia.
Qed.

Lemma packed_index : (d / 2 ^ 168) mod 2 ^ 8 = index.
Proof.
  pose proof (boolNumber_bounds payIn). pose proof (boolNumber_bounds payOut).
  unfold d, packedLayout.
  replace (expiry + _ + _ + _ + _ + _ + _) with
    ((expiry + nonce * 2 ^ 64 + confirmations * 2 ^ 128 + kind * 2 ^ 144
      + boolNumber payIn * 2 ^ 152 + boolNumber payOut * 2 ^ 160)
     + index * 2 ^ 168 + 0 * 2 ^ 176) by ring.
  apply field_extract; lia.
Qed.
End PackedFields.

(** ** Accessors on a non-negative data word *)


Lemma bitField_div_mod (d k w : Z) :
  0 <= k -> 0 <= w -> bitField d k w = (d / 2 ^ k) mod 2 ^ w.
Proof.
  intros Hk Hw. unfold bitField.
  rewrite Z.land_ones, Z.shiftr_div_pow2 by lia. reflexivity.
Qed.

Lemma bitField_bounds (d k w : Z) : 0 <= w -> 0 <= bitField d k w < 2 ^ w.
Proof. intros Hw. apply land_ones_bounds. exact Hw. Qed.

Section Accessors.
Variable s : EVMSwapData.
Hypothesis Hdata : 0 <= data s.

Lemma getExpiry_spec : EVMSwapData.getExpiry s = Ok (bitField (data s) 0 64).
Proof.
  unfold EVMSwapData.getExpiry, bitField.
  change (BigNumber.fromString "0xFFFFFFFFFFFFFFFF") with (Ok (Z.ones 64)).
  repeat bn_step. rewrite Z.shiftr_0_r. reflexivity.
Qed.

Lemma getEscrowNonce_spec : EVMSwapData.getEscrowNonce s = Ok (bitField (data s) 64 64).
Proof.
  unfold EVMSwapData.getEscrowNonce, bitField.
  change (BigNumber.fromString "0xFFFFFFFFFFFFFFFF") with (Ok (Z.ones 64)).
  repeat bn_step. reflexivity.
Qed.

Lemma getConfirmations_spec :
  EVMSwapData.getConfirmations s = Ok (bitField (data s) 128 16).
Proof.
  unfold EVMSwapData.getConfirmations.
  change (BigNumber.fromNumber 65535) with (Ok (Z.ones 16)).
  repeat bn_step. fold (bitField (data s) 128 16).
  pose proof (bitField_bounds (data s) 128 16 ltac:(lia)).
  apply toNumber_safe. lia.
Qed.

Lemma getKind_spec : EVMSwapData.getKind s = Ok (bitField (data s) 144 8).
Proof.
  unfold EVMSwapData.getKind.
  change (BigNumber.fromNumber 255) with (Ok (Z.ones 8)).
  repeat bn_step. fold (bitField (data s) 144 8).
  pose proof (bitField_bounds (data s) 144 8 ltac:(lia)).
  apply toNumber_safe. lia.
Qed.

Lemma getIndex_spec : EVMSwapData.getIndex s = Ok (bitField (data s) 168 8).
Proof.
  unfold EVMSwapData.getIndex.
  change (BigNumber.fromString "0xFF") with (Ok (Z.ones 8)).
  repeat bn_step. fold (bitField (data s) 168 8).
  pose proof (bitField_bounds (data s) 168 8 ltac:(lia)).
  apply toNumber_safe. lia.
Qed.

Lemma isPayIn_spec : EVMSwapData.isPayIn s = Ok (0 <? bitField (data s) 152 8).
Proof.
  unfold EVMSwapData.isPayIn.
  change (BigNumber.fromString "0xFF") with (Ok (Z.ones 8)).
  repeat bn_step. reflexivity.
Qed.

Lemma isPayOut_spec : EVMSwapData.isPayOut s = Ok (0 <? bitField (data s) 160 8).
Proof.
  unfold EVMSwapData.isPayOut.
  change (BigNumber.fromString "0xFF") with (Ok (Z.ones 8)).
  repeat bn_step. reflexivity.
Qed.
End Accessors.

Lemma boolNumber_pos (b : bool) : (0 <? boolNumber b) = b.
Proof. destruct b; reflexivity. Qed.

(** C3.  For all field values within the widths of the layout table (expiry and
    escrow nonce below 2^64, confirmations below 2^16, kind and index below 2^8,
    the two flags booleans), the constructor of EVMSwapData succeeds, its data
    word is the layout's value (expiry at bit 0, nonce at bit 64, confirmations
    at bit 128, kind at bit 144, pay_in at bit 152, pay_out at bit 160, index at
    bit 168, and nothing above bit 175), and getExpiry, getEscrowNonce,
    getConfirmations, getKind, isPayIn, isPayOut and getIndex return exactly
    the values the record was built from. *)
Theorem C3_pack_unpack_roundtrip
    (o c t : string) (am : option Z) (ph : string)
    (expiry nonce confirmations kind : Z) (payIn payOut : bool)
    (sd cb : option Z) (index : Z) (txo : option string) :
  0 <= expiry < 2 ^ 64 -> 0 <= nonce < 2 ^ 64 -> 0 <= confirmations < 2 ^ 16 ->
  0 <= kind < 2 ^ 8 -> 0 <= index < 2 ^ 8 ->
  exists s : EVMSwapData,
    EVMSwapData.new o c t am ph (Some expiry) (Some nonce) (Some confirmations) kind
      payIn payOut sd cb index txo = Ok s
    /\ data s = expiry + nonce * 2 ^ 64 + confirmations * 2 ^ 128 + kind * 2 ^ 144
                + boolNumber payIn * 2 ^ 152 + boolNumber payOut * 2 ^ 160
                + index * 2 ^ 168
    /\ 0 <= data s < 2 ^ 176
    /\ EVMSwapData.getExpiry s = Ok expiry
    /\ EVMSwapData.getEscrowNonce s = Ok nonce
    /\ EVMSwapData.getConfirmations s = Ok confirmations
    /\ EVMSwapData.getKind s = Ok kind
    /\ EVMSwapData.isPayIn s = Ok payIn
    /\ EVMSwapData.isPayOut s = Ok payOut
    /\ EVMSwapData.getIndex s = Ok index.
Proof.
  intros He Hn Hc Hk Hi.
  eexists. split.
  { rewrite new_data by lia. rewrite !Z.mod_small by lia. reflexivity. }
  pose proof (packedLayout_bounds expiry nonce confirmations kind index payIn payOut
                He Hn Hc Hk Hi) as Hb.
  cbv zeta in Hb.
  split; [reflexivity|]. split; [exact Hb|].
  rewrite getExpiry_spec, getEscrowNonce_spec, getConfirmations_spec, getKind_spec,
    isPayIn_spec, isPayOut_spec, getIndex_spec by (simpl; lia).
  rewrite !bitField_div_mod by lia. simpl data.
  rewrite Z.pow_0_r, Z.div_1_r.
  rewrite packed_expiry, packed_nonce, packed_confirmations, packed_kind,
    packed_payIn, packed_payOut, packed_index by assumption.
  rewrite !boolNumber_pos. repeat split; reflexivity.
Qed.

Lemma C3_pack_unpack_roundtrip_witness :
  exists s : EVMSwapData,
    EVMSwapData.new "0xA1" "0xB2" "0x00" (Some 1000) "0xC3"
      (Some 1700000600) (Some 42) (Some 3) 2 true false (Some 5) (Some 6) 7 None = Ok s
    /\ data s = 1700000600 + 42 * 2 ^ 64 + 3 * 2 ^ 128 + 2 * 2 ^ 144
                + boolNumber true * 2 ^ 152 + boolNumber false * 2 ^ 160 + 7 * 2 ^ 168
    /\ 0 <= data s < 2 ^ 176
    /\ EVMSwapData.getExpiry s = Ok 1700000600
    /\ EVMSwapData.getEscrowNonce s = Ok 42
    /\ EVMSwapData.getConfirmations s = Ok 3
    /\ EVMSwapData.getKind s = Ok 2
    /\ EVMSwapData.isPayIn s = Ok true
    /\ EVMSwapData.isPayOut s = Ok false
    /\ EVMSwapData.getIndex s = Ok 7.
Proof.
  apply C3_pack_unpack_roundtrip; lia.
Defined.

(** ** setPayIn and setPayOut *)

Lemma bitField_ext (d d' k w : Z) :
  0 <= k -> 0 <= w ->
  (forall i, k <= i < k + w -> Z.testbit d' i = Z.testbit d i) ->
  bitField d' k w = bitField d k w.
Proof.
  intros Hk Hw H. unfold bitField. Z.bitblast. rewrite H by lia. reflexivity.
Qed.

Lemma setPayIn_data (s : EVMSwapData) (b : bool) :
  0 <= data s ->
  EVMSwapData.setPayIn s b =
  Ok (EVMSwapData.withData s
        (Z.lor (Z.land (data s) (Z.lor (Z.ones 152) (Z.shiftl (Z.ones 16) 160)))
               (Z.shiftl (boolNumber b) 152))).
Proof.
  intros Hd. pose proof (boolNumber_bounds b).
  unfold EVMSwapData.setPayIn.
  change (BigNumber.fromString
            "0x00000000000000000000FFFF00FFFFFFFFFFFFFFFFFFFFFFFFFFFFFFFFFFFFFF")
    with (Ok (Z.lor (Z.ones 152) (Z.shiftl (Z.ones 16) 160))).
  repeat bn_step. reflexivity.
Qed.

Lemma setPayOut_data (s : EVMSwapData) (b : bool) :
  0 <= data s ->
  EVMSwapData.setPayOut s b =
  Ok (EVMSwapData.withData s
        (Z.lor (Z.land (data s) (Z.lor (Z.ones 160) (Z.shiftl (Z.ones 8) 168)))
               (Z.shiftl (boolNumber b) 160))).
Proof.
  intros Hd. pose proof (boolNumber_bounds b).
  unfold EVMSwapData.setPayOut.
  change (BigNumber.fromString
            "0x00000000000000000000FF00FFFFFFFFFFFFFFFFFFFFFFFFFFFFFFFFFFFFFFFF")
    with (Ok (Z.lor (Z.ones 160) (Z.shiftl (Z.ones 8) 168))).
  repeat bn_step. reflexivity.
Qed.

Lemma testbit_boolNumber (b : bool) (i : Z) :
  Z.testbit (boolNumber b) i = (i =? 0) && b.
Proof.
  destruct b; simpl.
  - destruct (Z.eqb_spec i 0) as [->|Hi]; [reflexivity|].
    destruct i; try congruence; reflexivity.
  - rewrite Z.testbit_0_l, andb_false_r. reflexivity.
Qed.

Lemma testbit_above (d n i : Z) : 0 <= d < 2 ^ n -> n <= i -> Z.testbit d i = false.
Proof.
  intros Hd Hi.
  destruct (Z.eq_dec d 0) as [->|Hnz]; [apply Z.testbit_0_l|].
  apply Z.bits_above_log2; [lia|].
  assert (0 <= n) by (destruct (Z.leb_spec 0 n); [assumption|];
                      rewrite Z.pow_neg_r in Hd by lia; lia).
  apply Z.lt_le_trans with n; [|exact Hi].
  apply Z.log2_lt_pow2; lia.
Qed.

Lemma setPayIn_bits (d : Z) (b : bool) (i : Z) :
  0 <= d < 2 ^ 176 ->
  Z.testbit (Z.lor (Z.land d (Z.lor (Z.ones 152) (Z.shiftl (Z.ones 16) 160)))
                   (Z.shiftl (boolNumber b) 152)) i
  = if (152 <=? i) && (i <? 160) then (i =? 152) && b else Z.testbit d i.
Proof.
  intros Hd.
  rewrite Z.lor_spec, Z.land_spec, Z.lor_spec, !Z.shiftl_spec', !Z.testbit_ones,
    testbit_boolNumber by lia.
  destruct (Z.leb_spec 152 i), (Z.ltb_spec i 160); simpl.
  - replace (i <? 152) with false by (symmetry; apply Z.ltb_ge; lia).
    replace (i - 160 <? 16) with true by (symmetry; apply Z.ltb_lt; lia).
    replace (0 <=? i - 160) with false by (symmetry; apply Z.leb_gt; lia).
    replace (i <? 0) with false by (symmetry; apply Z.ltb_ge; lia).
    rewrite !andb_false_r. simpl.
    replace (i - 152 =? 0) with (i =? 152)
      by (destruct (Z.eqb_spec i 152), (Z.eqb_spec (i - 152) 0); lia || reflexivity).
    reflexivity.
  - replace (i <? 0) with false by (symmetry; apply Z.ltb_ge; lia).
    replace (i - 152 =? 0) with false by (symmetry; apply Z.eqb_neq; lia).
    replace (i <? 152) with false by (symmetry; apply Z.ltb_ge; lia).
    replace (0 <=? i) with true by (symmetry; apply Z.leb_le; lia).
    replace (0 <=? i - 160) with true by (symmetry; apply Z.leb_le; lia).
    simpl. rewrite orb_false_r.
    destruct (Z.ltb_spec (i - 160) 16); simpl.
    + rewrite andb_true_r. reflexivity.
    + rewrite andb_false_r. symmetry. apply testbit_above with 176; lia.
  - replace (i - 152 =? 0) with false by (symmetry; apply Z.eqb_neq; lia).
    replace (i <? 152) with true by (symmetry; apply Z.ltb_lt; lia).
    rewrite !andb_false_r, orb_false_r.
    destruct (Z.leb_spec 0 i); simpl.
    + rewrite andb_true_r. reflexivity.
    + rewrite Z.testbit_neg_r by lia. reflexivity.
  - lia.
Qed.

Lemma setPayOut_bits (d : Z) (b : bool) (i : Z) :
  0 <= d < 2 ^ 176 ->
  Z.testbit (Z.lor (Z.land d (Z.lor (Z.ones 160) (Z.shiftl (Z.ones 8) 168)))
                   (Z.shiftl (boolNumber b) 160)) i
  = if (160 <=? i) && (i <? 168) then (i =? 160) && b else Z.testbit d i.
Proof.
  intros Hd.
  rewrite Z.lor_spec, Z.land_spec, Z.lor_spec, !Z.shiftl_spec', !Z.testbit_ones,
    testbit_boolNumber by lia.
  destruct (Z.leb_spec 160 i), (Z.ltb_spec i 168); simpl.
  - replace (i <? 160) with false by (symmetry; apply Z.ltb_ge; lia).
    replace (i - 168 <? 8) with true by (symmetry; apply Z.ltb_lt; lia).
    replace (0 <=? i - 168) with false by (symmetry; apply Z.leb_gt; lia).
    replace (i <? 0) with false by (symmetry; apply Z.ltb_ge; lia).
    rewrite !andb_false_r. simpl.
    replace (i - 160 =? 0) with (i =? 160)
      by (destruct (Z.eqb_spec i 160), (Z.eqb_spec (i - 160) 0); lia || reflexivity).
    reflexivity.
  - replace (i <? 0) with false by (symmetry; apply Z.ltb_ge; lia).
    replace (i - 160 =? 0) with false by (symmetry; apply Z.eqb_neq; lia).
    replace (i <? 160) with false by (symmetry; apply Z.ltb_ge; lia).
    replace (0 <=? i) with true by (symmetry; apply Z.leb_le; lia).
    replace (0 <=? i - 168) with true by (symmetry; apply Z.leb_le; lia).
    simpl. rewrite orb_false_r.
    destruct (Z.ltb_spec (i - 168) 8); simpl.
    + rewrite andb_true_r. reflexivity.
    + rewrite andb_false_r. symmetry. apply testbit_above with 176; lia.
  - replace (i - 160 =? 0) with false by (symmetry; apply Z.eqb_neq; lia).
    replace (i <? 160) with true by (symmetry; apply Z.ltb_lt; lia).
    rewrite !andb_false_r, orb_false_r.
    destruct (Z.leb_spec 0 i); simpl.
    + rewrite andb_true_r. reflexivity.
    + rewrite Z.testbit_neg_r by lia. reflexivity.
  - lia.
Qed.

Lemma bitField_flag (d k : Z) (b : bool) :
  0 <= k ->
  (forall i, Z.testbit d i
             = if (k <=? i) && (i <? k + 8) then (i =? k) && b else Z.testbit d i) ->
  bitField d k 8 = boolNumber b.
Proof.
  intros Hk H. unfold bitField. apply Z.bits_inj'. intros i Hi.
  rewrite Z.land_spec, Z.shiftr_spec, Z.testbit_ones, testbit_boolNumber by lia.
  destruct (Z.ltb_spec i 8); simpl.
  - rewrite H.
    replace (k <=? i + k) with true by (symmetry; apply Z.leb_le; lia).
    replace (i + k <? k + 8) with true by (symmetry; apply Z.ltb_lt; lia).
    replace (0 <=? i) with true by (symmetry; apply Z.leb_le; lia).
    simpl. rewrite andb_true_r.
    destruct (Z.eqb_spec (i + k) k), (Z.eqb_spec i 0); lia || reflexivity.
  - replace (i =? 0) with false by (symmetry; apply Z.eqb_neq; lia).
    rewrite !andb_false_r. reflexivity.
Qed.

Ltac frame_field Hbits :=
  apply bitField_ext; [lia | lia |];
  let i := fresh "i" in let Hi := fresh "Hi" in
  intros i Hi; rewrite Hbits;
  match goal with
  | |- (if (?a <=? ?x) && (?x <? ?c) then _ else _) = _ =>
      destruct (Z.leb_spec a x), (Z.ltb_spec x c); simpl; lia || reflexivity
  end.

(** C10.  On a data word below 2^176, setPayIn(b) succeeds, rewrites bits
    152..159 to the value 1 when b is true and 0 otherwise, leaves every other
    bit as it was, and so leaves getExpiry, getEscrowNonce, getConfirmations,
    getKind, isPayOut and getIndex unchanged (and the other members of the
    record untouched); setPayOut(b) does the same on bits 160..167, leaving
    getExpiry, getEscrowNonce, getConfirmations, getKind, isPayIn and getIndex
    unchanged. *)
Theorem C10_setPayIn_setPayOut_frame (s : EVMSwapData) (b : bool) :
  0 <= data s < 2 ^ 176 ->
  exists s1 s2 : EVMSwapData,
    EVMSwapData.setPayIn s b = Ok s1 /\ EVMSwapData.setPayOut s b = Ok s2
    /\ (forall i, ~ (152 <= i < 160) -> Z.testbit (data s1) i = Z.testbit (data s) i)
    /\ (data s1 / 2 ^ 152) mod 2 ^ 8 = boolNumber b
    /\ s1 = EVMSwapData.withData s (data s1)
    /\ EVMSwapData.isPayIn s1 = Ok b
    /\ EVMSwapData.getExpiry s1 = EVMSwapData.getExpiry s
    /\ EVMSwapData.getEscrowNonce s1 = EVMSwapData.getEscrowNonce s
    /\ EVMSwapData.getConfirmations s1 = EVMSwapData.getConfirmations s
    /\ EVMSwapData.getKind s1 = EVMSwapData.getKind s
    /\ EVMSwapData.isPayOut s1 = EVMSwapData.isPayOut s
    /\ EVMSwapData.getIndex s1 = EVMSwapData.getIndex s
    /\ (forall i, ~ (160 <= i < 168) -> Z.testbit (data s2) i = Z.testbit (data s) i)
    /\ (data s2 / 2 ^ 160) mod 2 ^ 8 = boolNumber b
    /\ s2 = EVMSwapData.withData s (data s2)
    /\ EVMSwapData.isPayOut s2 = Ok b
    /\ EVMSwapData.getExpiry s2 = EVMSwapData.getExpiry s
    /\ EVMSwapData.getEscrowNonce s2 = EVMSwapData.getEscrowNonce s
    /\ EVMSwapData.getConfirmations s2 = EVMSwapData.getConfirmations s
    /\ EVMSwapData.getKind s2 = EVMSwapData.getKind s
    /\ EVMSwapData.isPayIn s2 = EVMSwapData.isPayIn s
    /\ EVMSwapData.getIndex s2 = EVMSwapData.getIndex s.
Proof.
  intros Hd.
  do 2 eexists.
  split; [apply setPayIn_data; lia|].
  split; [apply setPayOut_data; lia|].
  set (d1 := Z.lor (Z.land (data s) (Z.lor (Z.ones 152) (Z.shiftl (Z.ones 16) 160)))
                   (Z.shiftl (boolNumber b) 152)).
  set (d2 := Z.lor (Z.land (data s) (Z.lor (Z.ones 160) (Z.shiftl (Z.ones 8) 168)))
                   (Z.shiftl (boolNumber b) 160)).
  pose proof (boolNumber_bounds b) as Hb.
  assert (H1 : forall i, Z.testbit d1 i
             = if (152 <=? i) && (i <? 160) then (i =? 152) && b
               else Z.testbit (data s) i)
    by (intros i; apply setPayIn_bits; exact Hd).
  assert (H2 : forall i, Z.testbit d2 i
             = if (160 <=? i) && (i <? 168) then (i =? 160) && b
               else Z.testbit (data s) i)
    by (intros i; apply setPayOut_bits; exact Hd).
  assert (Hd1 : 0 <= d1) by (unfold d1; bn_nonneg).
  assert (Hd2 : 0 <= d2) by (unfold d2; bn_nonneg).
  assert (F1 : bitField d1 152 8 = boolNumber b).
  { apply bitField_flag; [lia|]. intros i. rewrite H1.
    change (152 + 8) with 160.
    destruct ((152 <=? i) && (i <? 160)); [reflexivity | apply H1 || reflexivity]. }
  assert (F2 : bitField d2 160 8 = boolNumber b).
  { apply bitField_flag; [lia|]. intros i. rewrite H2.
    change (160 + 8) with 168.
    destruct ((160 <=? i) && (i <? 168)); reflexivity. }
  rewrite !getExpiry_spec, !getEscrowNonce_spec, !getConfirmations_spec, !getKind_spec,
    !isPayIn_spec, !isPayOut_spec, !getIndex_spec by (simpl; lia).
  simpl data. rewrite <- !bitField_div_mod by lia. rewrite F1, F2, boolNumber_pos.
  repeat split; try reflexivity.
  - intros i Hi. rewrite H1.
    destruct (Z.leb_spec 152 i), (Z.ltb_spec i 160); simpl; lia || reflexivity.
  - f_equal. frame_field H1.
  - f_equal. frame_field H1.
  - f_equal. frame_field H1.
  - f_equal. frame_field H1.
  - do 2 f_equal. frame_field H1.
  - f_equal. frame_field H1.
  - intros i Hi. rewrite H2.
    destruct (Z.leb_spec 160 i), (Z.ltb_spec i 168); simpl; lia || reflexivity.
  - f_equal. frame_field H2.
  - f_equal. frame_field H2.
  - f_equal. frame_field H2.
  - f_equal. frame_field H2.
  - do 2 f_equal. frame_field H2.
  - f_equal. frame_field H2.
Qed.

Lemma C10_setPayIn_setPayOut_frame_witness :
  let s := {| offerer := "0xA1"; claimer := "0xB2"; token := "0x00"; amount := Some 1000;
              paymentHash := "0xC3";
              data := packedLayout 1700000600 42 3 2 false true 7;
              securityDeposit := Some 5; claimerBounty := Some 6; txoHash := None |} in
  exists s1 s2 : EVMSwapData,
    EVMSwapData.setPayIn s true = Ok s1 /\ EVMSwapData.setPayOut s false = Ok s2
    /\ EVMSwapData.isPayIn s1 = Ok true /\ EVMSwapData.getIndex s1 = EVMSwapData.getIndex s
    /\ EVMSwapData.isPayOut s1 = EVMSwapData.isPayOut s.
Proof.
  intros s.
  destruct (C10_setPayIn_setPayOut_frame s true ltac:(vm_compute; split; congruence))
    as (s1 & _ & H1 & _ & _ & _ & _ & Hin & _ & _ & _ & _ & Hout & Hidx & _).
  destruct (C10_setPayIn_setPayOut_frame s false ltac:(vm_compute; split; congruence))
    as (_ & s2 & _ & H2 & _).
  exists s1, s2. repeat split; assumption.
Defined.

(* ------------------------------------------------------------------ *)
(** ** Hexadecimal text and buffers *)

Lemma hexDigit_roundtrip (d : Z) :
  0 <= d < 16 -> hexDigitValue (hexDigitChar d) = Some d.
Proof.
  intros H. rewrite <- (Z2Nat.id d) by lia.
  assert (Hn : (Z.to_nat d < 16)%nat) by lia.
  revert Hn. generalize (Z.to_nat d). intros n Hn.
  do 16 (destruct n as [|n]; [reflexivity|]). lia.
Qed.

Lemma byte_hex (x : byte) :
  hexDigitValue (hexDigitChar (byteValue x / 16)) = Some (byteValue x / 16)
  /\ hexDigitValue (hexDigitChar (byteValue x mod 16)) = Some (byteValue x mod 16)
  /\ byteOfZ (16 * (byteValue x / 16) + byteValue x mod 16) = x.
Proof. destruct x; vm_compute; repeat split; reflexivity. Qed.

Lemma bufferFromHex_toHex_app (b : list byte) (s : string) :
  bufferFromHex (bufferToHex b ++ s)%string = b ++ bufferFromHex s.
Proof.
  induction b as [|x b IH]; [reflexivity|].
  destruct (byte_hex x) as (Hh & Hl & Hx).
  cbn [bufferToHex String.append bufferFromHex app].
  rewrite Hh, Hl, Hx, IH. reflexivity.
Qed.

Lemma string_app_empty (s : string) : (s ++ "")%string = s.
Proof. induction s; simpl; congruence. Qed.

Lemma bufferFromHex_toHex (b : list byte) : bufferFromHex (bufferToHex b) = b.
Proof.
  rewrite <- (string_app_empty (bufferToHex b)), bufferFromHex_toHex_app.
  apply app_nil_r.
Qed.

Lemma bufferToHex_app (a b : list byte) :
  bufferToHex (a ++ b) = (bufferToHex a ++ bufferToHex b)%string.
Proof. induction a as [|x a IH]; simpl; [reflexivity | rewrite IH; reflexivity]. Qed.

Lemma bufferToHex_allHex (b : list byte) : allHexDigits (bufferToHex b) = true.
Proof.
  induction b as [|x b IH]; [reflexivity|].
  destruct (byte_hex x) as (Hh & Hl & _).
  cbn [bufferToHex allHexDigits]. rewrite Hh, Hl. exact IH.
Qed.

Lemma bufferToHex_length (b : list byte) :
  String.length (bufferToHex b) = (2 * List.length b)%nat.
Proof. induction b as [|x b IH]; simpl; [reflexivity | rewrite IH; lia]. Qed.

Lemma arrayify_toHex (b : list byte) :
  arrayify ("0x" ++ bufferToHex b)%string = Ok b.
Proof.
  cbn [String.append arrayify].
  rewrite bufferToHex_allHex, bufferToHex_length.
  replace (Nat.even (2 * List.length b)) with true
    by (symmetry; apply Nat.even_spec; exists (List.length b); reflexivity).
  rewrite bufferFromHex_toHex. reflexivity.
Qed.

Lemma substring_all (s : string) : substring 0 (String.length s) s = s.
Proof. induction s; simpl; congruence. Qed.

Lemma substring2_0x (s : string) : substring2 ("0x" ++ s)%string = s.
Proof.
  unfold substring2. cbn [String.append String.length].
  replace (S (S (String.length s)) - 2)%nat with (String.length s) by lia.
  cbn [substring]. apply substring_all.
Qed.

Lemma solidityKeccak256_toHex (keccak256 : list byte -> list byte) (b : list byte) :
  solidityKeccak256 keccak256 ("0x" ++ bufferToHex b)%string
  = Ok ("0x" ++ bufferToHex (keccak256 b))%string.
Proof. unfold solidityKeccak256. rewrite arrayify_toHex. reflexivity. Qed.

(** *** Digits *)

Lemma fixedDigitsLE_zero (k : nat) : fixedDigitsLE k 0 = repeat 0 k.
Proof.
  induction k as [|k IH]; [reflexivity|].
  cbn [fixedDigitsLE repeat]. rewrite Z.div_0_l, Z.mod_0_l by lia.
  rewrite IH. reflexivity.
Qed.

Lemma fixedDigitsLE_length (k : nat) (v : Z) : List.length (fixedDigitsLE k v) = k.
Proof. revert v. induction k as [|k IH]; intros v; simpl; [reflexivity | rewrite IH; reflexivity]. Qed.

Lemma hexDigitsLE_fixed (fuel : nat) :
  forall (k : nat) (n : Z),
    0 <= n < 16 ^ Z.of_nat fuel -> n < 16 ^ Z.of_nat k ->
    (List.length (hexDigitsLE fuel n) <= k)%nat
    /\ fixedDigitsLE k n
       = hexDigitsLE fuel n ++ repeat 0 (k - List.length (hexDigitsLE fuel n)).
Proof.
  induction fuel as [|fuel IH]; intros k n Hn Hk.
  - assert (n = 0) by (simpl in Hn; lia). subst n. simpl.
    rewrite Nat.sub_0_r. split; [lia | apply fixedDigitsLE_zero].
  - cbn [hexDigitsLE]. destruct (Z.leb_spec n 0) as [Hle|Hpos].
    + assert (n = 0) by lia. subst n. simpl.
      rewrite Nat.sub_0_r. split; [lia | apply fixedDigitsLE_zero].
    + destruct k as [|k]; [simpl in Hk; lia|].
      rewrite Nat2Z.inj_succ, Z.pow_succ_r in Hn, Hk by lia.
      destruct (IH k (n / 16)) as [Hlen Heq].
      * split; [apply Z.div_pos; lia|]. apply Z.div_lt_upper_bound; lia.
      * apply Z.div_lt_upper_bound; lia.
      * cbn [fixedDigitsLE List.length app]. split; [lia|].
        rewrite Heq. reflexivity.
Qed.

Lemma stringOfChars_app (a b : list ascii) :
  stringOfChars (a ++ b) = (stringOfChars a ++ stringOfChars b)%string.
Proof. induction a as [|c a IH]; simpl; [reflexivity | rewrite IH; reflexivity]. Qed.

Lemma stringOfChars_length (a : list ascii) :
  String.length (stringOfChars a) = List.length a.
Proof. induction a as [|c a IH]; simpl; [reflexivity | rewrite IH; reflexivity]. Qed.

Lemma stringOfChars_repeat (c : ascii) (n : nat) :
  stringOfChars (repeat c n) = repeatChar c n.
Proof. induction n as [|n IH]; simpl; [reflexivity | rewrite IH; reflexivity]. Qed.

Lemma log2_fuel (n : Z) : 0 < n -> n < 16 ^ Z.of_nat (Z.to_nat (Z.log2 n) + 1).
Proof.
  intros Hn.
  pose proof (Z.log2_nonneg n) as Hl.
  replace (Z.of_nat (Z.to_nat (Z.log2 n) + 1)) with (Z.succ (Z.log2 n)) by lia.
  apply Z.lt_le_trans with (2 ^ Z.succ (Z.log2 n)).
  - apply Z.log2_spec. exact Hn.
  - apply Z.pow_le_mono_l. lia.
Qed.

Lemma padStart_hexOfPositive (k : nat) (n : Z) :
  0 < n < 16 ^ Z.of_nat k ->
  padStart k "0" (hexOfPositive n) = fixedHex k n.
Proof.
  intros Hn. unfold padStart, hexOfPositive, fixedHex.
  destruct (hexDigitsLE_fixed (Z.to_nat (Z.log2 n) + 1) k n) as [Hlen Heq].
  { split; [lia | apply log2_fuel; lia]. }
  { lia. }
  rewrite Heq, rev_app_distr, map_app, stringOfChars_app.
  rewrite stringOfChars_length, length_map, length_rev.
  rewrite rev_repeat, map_repeat, stringOfChars_repeat. reflexivity.
Qed.

Lemma padStart_toString16 (k : nat) (n : Z) :
  (1 <= k)%nat -> 0 <= n < 16 ^ Z.of_nat k ->
  padStart k "0" (BN.toString16 n) = fixedHex k n.
Proof.
  intros Hk Hn. unfold BN.toString16.
  destruct (Z.eqb_spec n 0) as [->|Hnz].
  - unfold padStart, fixedHex. cbn [String.length].
    rewrite fixedDigitsLE_zero, rev_repeat, map_repeat, stringOfChars_repeat.
    destruct k as [|k]; [lia|].
    replace (S k - 1)%nat with k by lia.
    clear. induction k as [|k IH]; [reflexivity|].
    cbn [repeatChar String.append] in *. rewrite IH. reflexivity.
  - destruct (Z.ltb_spec n 0); [lia|].
    apply padStart_hexOfPositive. lia.
Qed.

(** *** Fixed-width hexadecimal text is the big-endian bytes *)

Lemma byteValue_byteOfZ (v : Z) : 0 <= v < 256 -> byteValue (byteOfZ v) = v.
Proof.
  intros Hv. unfold byteValue, byteOfZ.
  destruct (Byte.of_N (Z.to_N v)) as [b|] eqn:E.
  - apply Byte.to_of_N in E. lia.
  - apply Byte.of_N_None_iff in E. lia.
Qed.

Lemma fixedHex_bytesBE (m : nat) (v : Z) :
  fixedHex (2 * m) v = bufferToHex (bytesBE m v).
Proof.
  unfold fixedHex, bytesBE. revert v.
  induction m as [|m IH]; intros v; [reflexivity|].
  replace (2 * S m)%nat with (S (S (2 * m))) by lia.
  cbn [fixedDigitsLE bytesLE rev].
  rewrite <- app_assoc, map_app, stringOfChars_app, bufferToHex_app.
  replace (v / 16 / 16) with (v / 256) by (rewrite Z.div_div by lia; reflexivity).
  rewrite IH. f_equal.
  cbn [app map stringOfChars fold_right bufferToHex].
  rewrite byteValue_byteOfZ by (apply Z.mod_pos_bound; lia).
  replace (v mod 256 / 16) with ((v / 16) mod 16)
    by (change 256 with (16 * 16); rewrite Z.rem_mul_r by lia;
        rewrite Z.mul_comm, Z.div_add by lia;
        rewrite (Z.div_small (v mod 16)) by (apply Z.mod_pos_bound; lia);
        reflexivity).
  replace (v mod 256 mod 16) with (v mod 16)
    by (change 256 with (16 * 16); rewrite Z.rem_mul_r by lia;
        rewrite Z.mul_comm, Z.mod_add by lia;
        rewrite Z.mod_mod by lia; reflexivity).
  reflexivity.
Qed.

Lemma bytesLE_length (n : nat) (v : Z) : List.length (bytesLE n v) = n.
Proof. revert v. induction n as [|n IH]; intros v; simpl; [reflexivity | rewrite IH; reflexivity]. Qed.

(* ------------------------------------------------------------------ *)
(** ** getHashForOnchain *)

Lemma padStart16_toString16 (v : Z) :
  0 <= v < 2 ^ 64 ->
  padStart 16 "0" (BN.toString16 v) = bufferToHex (bytesBE 8 v).
Proof.
  intros Hv. rewrite padStart_toString16 by (simpl; lia).
  apply (fixedHex_bytesBE 8).
Qed.

(** C6.  For every output script and every amount and nonce from 0 up to, not
    including, 2^64, getHashForOnchain returns
    keccak256(nonce as 8 bytes big-endian ++ keccak256(amount as 8 bytes
    little-endian ++ output script)). *)
Theorem C6_getHashForOnchain (env : Env) (outputScript : list byte) (amount nonce : Z) :
  0 <= amount < 2 ^ 64 -> 0 <= nonce < 2 ^ 64 ->
  EVMSwapProgram.getHashForOnchain env outputScript amount nonce
  = Ok (keccak256 env
          (bytesBE 8 nonce ++ keccak256 env (bytesLE 8 amount ++ outputScript))).
Proof.
  intros Ha Hn. unfold EVMSwapProgram.getHashForOnchain.
  rewrite !padStart16_toString16 by assumption.
  rewrite bufferFromHex_toHex.
  unfold bytesBE at 1. rewrite rev_involutive.
  rewrite solidityKeccak256_toHex, bind_Ok, substring2_0x.
  rewrite <- bufferToHex_app.
  rewrite solidityKeccak256_toHex, bind_Ok, substring2_0x.
  rewrite bufferFromHex_toHex. reflexivity.
Qed.

Lemma C6_getHashForOnchain_witness :
  let env := {| address := "0xB2"; Date_now := 0; getCommitment := fun _ => "0x00";
                keccak256 := fun b => firstn 32 (b ++ repeat x00 32);
                defaultAbiCoder_encode := fun _ => "0x00";
                solidityPack := fun _ _ _ => Some "0x00";
                verifyMessage := fun _ _ => Some "0xB2" |} in
  EVMSwapProgram.getHashForOnchain env [x00; x14; xab] 100000 7
  = Ok (keccak256 env
          (bytesBE 8 7 ++ keccak256 env (bytesLE 8 100000 ++ [x00; x14; xab]))).
Proof.
  intros env. apply C6_getHashForOnchain; lia.
Defined.

(* ------------------------------------------------------------------ *)
(** ** getTipData *)

Lemma repeatChar_snoc (c : ascii) (n : nat) (s : string) :
  (repeatChar c (S n) ++ s)%string = (repeatChar c n ++ String c s)%string.
Proof.
  induction n as [|n IH]; [reflexivity|].
  cbn [repeatChar String.append] in *. rewrite IH. reflexivity.
Qed.

Lemma padStart_evenPad (k : nat) (h : string) :
  Nat.even k = true -> (String.length h <= k)%nat ->
  padStart k "0" (if Nat.even (String.length h) then h else ("0" ++ h)%string)
  = padStart k "0" h.
Proof.
  intros Hk Hlen. destruct (Nat.even (String.length h)) eqn:E; [reflexivity|].
  assert (String.length h <> k) by congruence.
  unfold padStart. cbn [String.append String.length].
  replace (k - String.length h)%nat with (S (k - S (String.length h))) by lia.
  rewrite repeatChar_snoc. reflexivity.
Qed.

Lemma toString16_length (k : nat) (a : Z) :
  (1 <= k)%nat -> 0 <= a < 16 ^ Z.of_nat k ->
  (String.length (BN.toString16 a) <= k)%nat.
Proof.
  intros Hk Ha. unfold BN.toString16.
  destruct (Z.eqb_spec a 0); [simpl; lia|].
  destruct (Z.ltb_spec a 0); [lia|].
  unfold hexOfPositive.
  rewrite stringOfChars_length, length_map, length_rev.
  apply hexDigitsLE_fixed; [split; [lia | apply log2_fuel; lia] | lia].
Qed.

Lemma toHexString_padStart (k : nat) (a : Z) :
  (1 <= k)%nat -> Nat.even k = true -> 0 <= a < 16 ^ Z.of_nat k ->
  padStart k "0" (substring2 (BigNumber.toHexString a)) = fixedHex k a.
Proof.
  intros Hk Hev Ha. unfold BigNumber.toHexString.
  destruct (Z.ltb_spec a 0); [lia|].
  rewrite substring2_0x.
  rewrite padStart_evenPad by (try assumption; apply toString16_length; assumption).
  apply padStart_toString16; assumption.
Qed.

(** C9.  For every 256-bit tip word, getTipData takes the block height from
    the top 32 bits (the word divided by 2^224) and the chain work from the low
    224 bits (as 32 big-endian bytes); it returns null exactly when that height
    is 0, and otherwise the latest main-chain commitment hash without its 0x,
    the chain work and the height. *)
Theorem C9_getTipData (env : RelayEnv) :
  0 <= highScoreAndBlockHeight env < 2 ^ 256 ->
  let height := highScoreAndBlockHeight env / 2 ^ 224 in
  let work := highScoreAndBlockHeight env mod 2 ^ 224 in
  0 <= height < 2 ^ 32
  /\ EVMBtcRelay.getTipData env
     = Ok (if height =? 0 then None
           else Some {| commitHash := substring2 (getLatestMainChainCommitmentHash env);
                        chainWork := bytesBE 32 work;
                        blockheight := height |})
  /\ (EVMBtcRelay.getTipData env = Ok None <-> height = 0).
Proof.
  intros Hw height work.
  assert (Hh : 0 <= height < 2 ^ 32).
  { unfold height. split; [apply Z.div_pos; lia|].
    apply Z.div_lt_upper_bound; lia. }
  assert (Hwork : 0 <= work < 2 ^ 224) by (apply Z.mod_pos_bound; lia).
  assert (Heq : EVMBtcRelay.getTipData env
     = Ok (if height =? 0 then None
           else Some {| commitHash := substring2 (getLatestMainChainCommitmentHash env);
                        chainWork := bytesBE 32 work;
                        blockheight := height |})).
  { unfold EVMBtcRelay.getTipData.
    change (BigNumber.fromString
              "0x00000000FFFFFFFFFFFFFFFFFFFFFFFFFFFFFFFFFFFFFFFFFFFFFFFFFFFFFFFF")
      with (Ok (Z.ones 224)).
    repeat bn_step.
    rewrite Z.land_ones, Z.shiftr_div_pow2 by lia.
    fold height. fold work.
    rewrite toNumber_safe by lia. rewrite bind_Ok.
    rewrite (toHexString_padStart 64) by (try reflexivity; simpl; lia).
    rewrite (fixedHex_bytesBE 32), bufferFromHex_toHex.
    destruct (height =? 0); reflexivity. }
  split; [exact Hh|]. split; [exact Heq|].
  rewrite Heq. destruct (Z.eqb_spec height 0) as [E|E]; split; intros H;
    congruence || reflexivity.
Qed.

Lemma C9_getTipData_witness :
  let env := {| highScoreAndBlockHeight := 840000 * 2 ^ 224 + 123456789;
                forkCounter := 3;
                getLatestMainChainCommitmentHash := "0xabcdef";
                getFeeData := None; getGasPrice := 10;
                useEip1559ForFeeEstimate := true |} in
  EVMBtcRelay.getTipData env
  = Ok (Some {| commitHash := "abcdef"; chainWork := bytesBE 32 123456789;
                blockheight := 840000 |}).
Proof.
  intros env.
  destruct (C9_getTipData env ltac:(vm_compute; split; congruence)) as (_ & H & _).
  exact H.
Defined.

(* ------------------------------------------------------------------ *)
(** ** estimateSynchronizeFee *)

(** C8.  With a 256-bit tip word, whose top 32 bits are the relay's current
    height, and a target height whose gas total is a safe integer (every
    32-bit height is), estimateSynchronizeFee returns
    (target - current) * 35000 * gas_price when the target is strictly above
    the current height and exactly zero otherwise, where gas_price is the
    last base fee, the fee data's gas price or the legacy gas price as
    [selectGasPrice] picks it. *)
Theorem C8_estimateSynchronizeFee (env : RelayEnv) (requiredBlockheight : Z) :
  0 <= highScoreAndBlockHeight env < 2 ^ 256 ->
  (requiredBlockheight - highScoreAndBlockHeight env / 2 ^ 224) * GAS_PER_BLOCKHEADER
    < BigNumber.MAX_SAFE ->
  let current := highScoreAndBlockHeight env / 2 ^ 224 in
  GAS_PER_BLOCKHEADER = 35000
  /\ (current < requiredBlockheight ->
      EVMBtcRelay.estimateSynchronizeFee env requiredBlockheight
      = Ok ((requiredBlockheight - current) * 35000 * EVMBtcRelay.selectGasPrice env))
  /\ (requiredBlockheight <= current ->
      EVMBtcRelay.estimateSynchronizeFee env requiredBlockheight = Ok 0).
Proof.
  intros Hw Hsafe current.
  assert (Hc : 0 <= current < 2 ^ 32).
  { unfold current. split; [apply Z.div_pos; lia|].
    apply Z.div_lt_upper_bound; lia. }
  split; [reflexivity|].
  unfold EVMBtcRelay.estimateSynchronizeFee.
  repeat bn_step. rewrite Z.shiftr_div_pow2 by lia. fold current.
  rewrite toNumber_safe by lia. rewrite bind_Ok.
  split; intros H.
  - destruct (Z.leb_spec (requiredBlockheight - current) 0); [lia|].
    fold current in Hsafe. unfold GAS_PER_BLOCKHEADER in *.
    rewrite fromNumber_safe by (unfold BigNumber.MAX_SAFE in *; lia).
    reflexivity.
  - destruct (Z.leb_spec (requiredBlockheight - current) 0); [reflexivity | lia].
Qed.

Lemma C8_estimateSynchronizeFee_witness :
  let env := {| highScoreAndBlockHeight := 840000 * 2 ^ 224 + 123456789;
                forkCounter := 3;
                getLatestMainChainCommitmentHash := "0xabcdef";
                getFeeData := Some {| lastBaseFeePerGas := None; gasPrice := Some 30 |};
                getGasPrice := 10;
                useEip1559ForFeeEstimate := true |} in
  EVMBtcRelay.estimateSynchronizeFee env 840010 = Ok (10 * 35000 * 30)
  /\ EVMBtcRelay.estimateSynchronizeFee env 840000 = Ok 0.
Proof.
  intros env. split.
  - destruct (C8_estimateSynchronizeFee env 840010
                ltac:(vm_compute; split; congruence) ltac:(vm_compute; reflexivity))
      as (_ & H & _).
    apply H. vm_compute. reflexivity.
  - destruct (C8_estimateSynchronizeFee env 840000
                ltac:(vm_compute; split; congruence) ltac:(vm_compute; reflexivity))
      as (_ & _ & H).
    apply H. vm_compute. congruence.
Defined.

(* ------------------------------------------------------------------ *)
(** ** saveNewForkHeaders and saveForkHeaders *)

Section ForkHeaders.
Context {codec : HeaderCodec}.

Lemma last_snoc (pre : list EVMBtcStoredHeader) (s d : EVMBtcStoredHeader) :
  last (pre ++ [s]) d = s.
Proof. apply last_last. Qed.

Lemma precompute_from (headers : list EVMBtcHeader) :
  forall (pre : list EVMBtcStoredHeader) (s d : EVMBtcStoredHeader),
    fold_left
      (fun computed blockHeader =>
         computed ++ [computeNext (last computed d) blockHeader])
      headers (pre ++ [s])
    = pre ++ EVMBtcRelay.chainFrom s headers.
Proof.
  induction headers as [|h rest IH]; intros pre s d; [reflexivity|].
  cbn [fold_left EVMBtcRelay.chainFrom].
  rewrite last_snoc, IH, <- app_assoc. reflexivity.
Qed.

Lemma precompute_chainFrom (s : EVMBtcStoredHeader) (headers : list EVMBtcHeader) :
  EVMBtcRelay.precompute s headers = EVMBtcRelay.chainFrom s headers.
Proof. apply (precompute_from headers [] s s). Qed.

Lemma last_chainFrom (headers : list EVMBtcHeader) :
  forall s d : EVMBtcStoredHeader,
    last (EVMBtcRelay.chainFrom s headers) d = fold_left computeNext headers s.
Proof.
  induction headers as [|h rest IH]; intros s d; [reflexivity|].
  cbn [EVMBtcRelay.chainFrom fold_left]. rewrite <- (IH (computeNext s h) d).
  destruct (EVMBtcRelay.chainFrom (computeNext s h) rest) eqn:E; [|reflexivity].
  destruct rest; discriminate.
Qed.

(** C7.  For every list of fork headers (empty or not), with a fork counter
    and a caller's fork id that are safe integers, saveNewForkHeaders and
    saveForkHeaders return as computed headers the chain that starts at
    the given stored header and applies computeNext header after header,
    as last stored header the last of that chain, and as fork id 0 when
    gtBuffer finds that header's chain work greater than the tip work;
    otherwise the fork id is the contract's fork counter
    (saveNewForkHeaders) or the caller's fork id (saveForkHeaders). *)
Theorem C7_fork_headers_promotion (env : RelayEnv) (forkHeaders : list BtcBlock)
    (storedHeader : EVMBtcStoredHeader) (callerForkId : Z) (tipWork : list byte) :
  0 <= forkCounter env < 2 ^ 53 ->
  - BigNumber.MAX_SAFE < callerForkId < BigNumber.MAX_SAFE ->
  let headers := map EVMBtcRelay.serializeBlockHeader forkHeaders in
  let lastHeader := fold_left computeNext headers storedHeader in
  let promoted := gtBuffer (getChainWork lastHeader) tipWork in
  exists r1 r2 : EVMBtcRelay.SaveHeadersResult,
    EVMBtcRelay.saveNewForkHeaders env forkHeaders storedHeader tipWork = Ok r1
    /\ EVMBtcRelay.saveForkHeaders env forkHeaders storedHeader callerForkId tipWork
       = Ok r2
    /\ EVMBtcRelay.computedCommitedHeaders r1 = EVMBtcRelay.chainFrom storedHeader headers
    /\ EVMBtcRelay.lastStoredHeader r1 = lastHeader
    /\ EVMBtcRelay.forkId r1 = (if promoted then 0 else forkCounter env)
    /\ EVMBtcRelay.computedCommitedHeaders r2 = EVMBtcRelay.chainFrom storedHeader headers
    /\ EVMBtcRelay.lastStoredHeader r2 = lastHeader
    /\ EVMBtcRelay.forkId r2 = (if promoted then 0 else callerForkId).
Proof.
  intros Hcounter Hcaller headers lastHeader promoted.
  unfold EVMBtcRelay.saveNewForkHeaders, EVMBtcRelay.saveForkHeaders.
  fold headers. rewrite !precompute_chainFrom, !last_chainFrom.
  fold lastHeader. fold promoted.
  rewrite (fromNumber_safe callerForkId) by assumption.
  rewrite (fromNumber_safe 0) by (unfold BigNumber.MAX_SAFE; lia).
  rewrite !bind_Ok.
  rewrite toNumber_safe by (destruct promoted; lia).
  rewrite bind_Ok.
  do 2 eexists. repeat split; reflexivity.
Qed.
End ForkHeaders.

Lemma C7_fork_headers_promotion_witness :
  let blocks := [exampleBlock 5; exampleBlock 7] in
  exists r1 r2 : @EVMBtcRelay.SaveHeadersResult exampleCodec,
    @EVMBtcRelay.saveNewForkHeaders exampleCodec exampleRelay blocks (100, 1000)
      (bytesBE 32 5000) = Ok r1
    /\ @EVMBtcRelay.saveForkHeaders exampleCodec exampleRelay blocks (100, 1000) 9
         (bytesBE 32 1010) = Ok r2
    /\ EVMBtcRelay.lastStoredHeader r1 = (102, 1012)
    /\ EVMBtcRelay.forkId r1 = 3
    /\ EVMBtcRelay.forkId r2 = 0.
Proof.
  intros blocks.
  destruct (@C7_fork_headers_promotion exampleCodec exampleRelay blocks (100, 1000) 9
              (bytesBE 32 5000) ltac:(vm_compute; split; congruence)
              ltac:(vm_compute; split; reflexivity))
    as (r1 & _ & H1 & _ & _ & Hl1 & Hf1 & _).
  destruct (@C7_fork_headers_promotion exampleCodec exampleRelay blocks (100, 1000) 9
              (bytesBE 32 1010) ltac:(vm_compute; split; congruence)
              ltac:(vm_compute; split; reflexivity))
    as (_ & r2 & _ & H2 & _ & _ & _ & _ & _ & Hf2).
  exists r1, r2. repeat split; assumption.
Defined.

(* ------------------------------------------------------------------ *)
(** ** Errors of the libraries are not signature verification errors *)

Lemma faultOnly_Ok {A : Type} (a : A) : faultOnly (Ok a).
Proof. intros e H. discriminate. Qed.

Lemma faultOnly_Throw {A : Type} (message : string) :
  faultOnly (@Throw A (Fault message)).
Proof. intros e H. injection H as <-. eexists. reflexivity. Qed.

Lemma faultOnly_bind {A B : Type} (c : result A) (k : A -> result B) :
  faultOnly c -> (forall a, faultOnly (k a)) -> faultOnly (bind c k).
Proof.
  intros Hc Hk e H. destruct c as [a|e']; simpl in H.
  - apply (Hk a). exact H.
  - apply Hc. injection H as <-. reflexivity.
Qed.

Lemma faultOnly_if {A : Type} (b : bool) (c1 c2 : result A) :
  faultOnly c1 -> faultOnly c2 -> faultOnly (if b then c1 else c2).
Proof. destruct b; auto. Qed.

Lemma faultOnly_option {A B : Type} (o : option A) (k : A -> result B) (c : result B) :
  (forall a, faultOnly (k a)) -> faultOnly c ->
  faultOnly (match o with Some a => k a | None => c end).
Proof. destruct o; auto. Qed.

Create HintDb faults.
#[local] Hint Resolve faultOnly_Ok faultOnly_Throw : faults.

Ltac fault_only :=
  repeat first
    [ apply faultOnly_Ok
    | apply faultOnly_Throw
    | apply faultOnly_bind; [|intro]
    | apply faultOnly_if
    | apply faultOnly_option; [intro|]
    | solve [auto with faults] ].

Lemma faultOnly_fromUnsignedString (s : string) :
  faultOnly (BigNumber.fromUnsignedString s).
Proof.
  unfold BigNumber.fromUnsignedString.
  destruct s as [|c s]; [simpl; fault_only|].
  destruct (Ascii.ascii_dec c "0") as [->|Hc].
  - destruct s as [|c' s]; [simpl; fault_only|].
    destruct (Ascii.ascii_dec c' "x") as [->|Hc'].
    + fault_only.
    + destruct c' as [[] [] [] [] [] [] [] []]; try congruence; fault_only.
  - destruct c as [[] [] [] [] [] [] [] []]; try congruence; fault_only.
Qed.
#[local] Hint Resolve faultOnly_fromUnsignedString : faults.

Lemma faultOnly_fromString (s : string) : faultOnly (BigNumber.fromString s).
Proof.
  unfold BigNumber.fromString.
  destruct s as [|c s]; [fault_only|].
  destruct (Ascii.ascii_dec c "-") as [->|Hc].
  - fault_only.
  - destruct c as [[] [] [] [] [] [] [] []]; try congruence; fault_only.
Qed.

Lemma faultOnly_fromNumber (n : Z) : faultOnly (BigNumber.fromNumber n).
Proof. unfold BigNumber.fromNumber. fault_only. Qed.

Lemma faultOnly_and (a b : Z) : faultOnly (BigNumber.and a b).
Proof. unfold BigNumber.and. fault_only. Qed.

Lemma faultOnly_shr (a n : Z) : faultOnly (BigNumber.shr a n).
Proof. unfold BigNumber.shr. fault_only. Qed.

Lemma faultOnly_toNumber (a : Z) : faultOnly (BigNumber.toNumber a).
Proof.
  unfold BigNumber.toNumber, BN.toNumber.
  destruct (Z.abs a <? 2 ^ 53); fault_only.
Qed.

Lemma faultOnly_ofString (s : string) : faultOnly (BN.ofString s).
Proof.
  unfold BN.ofString. generalize (stripWhitespace s). clear s. intros s.
  destruct s as [|c s]; [simpl; fault_only|].
  destruct (Ascii.ascii_dec c "-") as [->|Hc].
  - fault_only.
  - destruct c as [[] [] [] [] [] [] [] []]; try congruence; fault_only.
Qed.

Lemma faultOnly_library {A : Type} (what : string) (o : option A) :
  faultOnly (library what o).
Proof. unfold library. fault_only. Qed.

Lemma faultOnly_arrayify (s : string) : faultOnly (arrayify s).
Proof.
  unfold arrayify.
  destruct s as [|c s]; [fault_only|].
  destruct (Ascii.ascii_dec c "0") as [->|Hc].
  - destruct s as [|c' s]; [fault_only|].
    destruct (Ascii.ascii_dec c' "x") as [->|Hc'].
    + fault_only.
    + destruct c' as [[] [] [] [] [] [] [] []]; try congruence; fault_only.
  - destruct c as [[] [] [] [] [] [] [] []]; try congruence; fault_only.
Qed.

#[local] Hint Resolve faultOnly_fromString faultOnly_fromNumber faultOnly_and
  faultOnly_shr faultOnly_toNumber faultOnly_ofString faultOnly_library
  faultOnly_arrayify : faults.

Lemma faultOnly_solidityKeccak256 (k : list byte -> list byte) (v : string) :
  faultOnly (solidityKeccak256 k v).
Proof. unfold solidityKeccak256. fault_only. Qed.
#[local] Hint Resolve faultOnly_solidityKeccak256 : faults.

Lemma faultOnly_getExpiry (s : EVMSwapData) : faultOnly (EVMSwapData.getExpiry s).
Proof. unfold EVMSwapData.getExpiry. fault_only. Qed.

Lemma faultOnly_getIndex (s : EVMSwapData) : faultOnly (EVMSwapData.getIndex s).
Proof. unfold EVMSwapData.getIndex. fault_only. Qed.

Lemma faultOnly_getCommitHash (env : Env) (s : EVMSwapData) :
  faultOnly (EVMSwapProgram.getCommitHash env s).
Proof. unfold EVMSwapProgram.getCommitHash. fault_only. Qed.
#[local] Hint Resolve faultOnly_getExpiry faultOnly_getIndex faultOnly_getCommitHash
  : faults.

Lemma faultOnly_getMessage (env : Env) (s : EVMSwapData) (prefix timeout : string) :
  faultOnly (EVMSwapProgram.getMessage env s prefix timeout).
Proof. unfold EVMSwapProgram.getMessage. fault_only. Qed.
#[local] Hint Resolve faultOnly_getMessage : faults.

Lemma throwsOnly_Ok {A : Type} (P : Error -> Prop) (a : A) : throwsOnly P (Ok a).
Proof. intros e H. discriminate. Qed.

Lemma throwsOnly_Throw {A : Type} (P : Error -> Prop) (e : Error) :
  P e -> throwsOnly P (@Throw A e).
Proof. intros HP e' H. injection H as <-. exact HP. Qed.

Lemma throwsOnly_bind {A B : Type} (P : Error -> Prop) (c : result A)
    (k : A -> result B) :
  throwsOnly P c -> (forall a, throwsOnly P (k a)) -> throwsOnly P (bind c k).
Proof.
  intros Hc Hk e H. destruct c as [a|e']; simpl in H.
  - apply (Hk a). exact H.
  - apply Hc. injection H as <-. reflexivity.
Qed.

Lemma throwsOnly_if {A : Type} (P : Error -> Prop) (b : bool) (c1 c2 : result A) :
  throwsOnly P c1 -> throwsOnly P c2 -> throwsOnly P (if b then c1 else c2).
Proof. destruct b; auto. Qed.

Lemma throwsOnly_fault {A : Type} (P : Error -> Prop) (c : result A) :
  faultOnly c -> (forall message, P (Fault message)) -> throwsOnly P c.
Proof. intros Hc HP e H. destruct (Hc e H) as [m ->]. apply HP. Qed.

(** Decomposes a computation into its steps: library steps can only raise
    faults, and every explicit [Throw] is compared with the excluded error. *)
Ltac throws_only :=
  repeat first
    [ apply throwsOnly_Ok
    | apply throwsOnly_Throw; discriminate
    | apply throwsOnly_fault; [solve [auto with faults] | intros; discriminate]
    | apply throwsOnly_bind; [|intro]
    | apply throwsOnly_if ].

(* ------------------------------------------------------------------ *)
(** ** Authorizations: expiry *)

Lemma authGracePeriod_value : authGracePeriod = 300.
Proof. reflexivity. Qed.

(** C5.  For an authorization that carries the verifier's own prefix
    ("initialize" for isValidInitAuthorization, "claim_initialize" for
    isValidClaimInitAuthorization) and a numeric timeout, the verifier raises
    SignatureVerificationError("Authorization expired!") exactly when
    timeout - now < auth_grace_period, which is 300 seconds. *)
Theorem C5_authorization_expired (env : Env) (swap : EVMSwapData)
    (timeout signature : string) (nonce t : Z) :
  BN.ofString timeout = Ok t ->
  authGracePeriod = 300
  /\ (EVMSwapProgram.isValidInitAuthorization env swap timeout "initialize" signature nonce
      = Throw (SignatureVerificationError "Authorization expired!")
      <-> t - nowSeconds env < authGracePeriod)
  /\ (EVMSwapProgram.isValidClaimInitAuthorization env swap timeout "claim_initialize"
        signature nonce
      = Throw (SignatureVerificationError "Authorization expired!")
      <-> t - nowSeconds env < authGracePeriod).
Proof.
  intros Ht. split; [reflexivity|].
  unfold EVMSwapProgram.isValidInitAuthorization, EVMSwapProgram.isValidClaimInitAuthorization.
  change (String.eqb "initialize" "initialize") with true.
  change (String.eqb "claim_initialize" "claim_initialize") with true.
  cbn [negb]. rewrite Ht, !bind_Ok.
  destruct (Z.ltb_spec (t - nowSeconds env) authGracePeriod) as [Hlt|Hge].
  - repeat split; intros; reflexivity || assumption.
  - split; (split; [intros H; exfalso | lia]);
      revert H;
      match goal with
      | |- ?c = Throw ?e -> False =>
          assert (Hc : throwsOnly (fun e' => e' <> e) c);
          [|intros H; exact (Hc _ H eq_refl)]
      end;
      unfold EVMSwapProgram.getInitMessage, EVMSwapProgram.getClaimInitMessage;
      throws_only.
Qed.

Lemma C5_authorization_expired_witness :
  EVMSwapProgram.isValidInitAuthorization
    (exampleEnv "0xB2" 1000000000 "0x00" (Some "0xA1"))
    (exampleSwap "0xA1" "0xB2" (packedLayout 1003600 1 0 0 false true 0))
    "1000200" "initialize" "0xsignature" 0
  = Throw (SignatureVerificationError "Authorization expired!").
Proof.
  apply (proj2 (proj1 (proj2 (C5_authorization_expired
           (exampleEnv "0xB2" 1000000000 "0x00" (Some "0xA1"))
           (exampleSwap "0xA1" "0xB2" (packedLayout 1003600 1 0 0 false true 0))
           "1000200" "0xsignature" 0 1000200 eq_refl)))).
  vm_compute. reflexivity.
Defined.

(** A wrong prefix is reported before the timeout is looked at: the
    authorization below would be expired (timeout = now + 200), and the
    verifier raises "Invalid prefix". *)
Lemma C5_wrong_prefix_counterexample :
  let env := exampleEnv "0xB2" 1000000000 "0x00" (Some "0xA1") in
  let swap := exampleSwap "0xA1" "0xB2" (packedLayout 1003600 1 0 0 false true 0) in
  let r := EVMSwapProgram.isValidInitAuthorization env swap "1000200" "refund"
             "0xsignature" 0 in
  BN.ofString "1000200" = Ok 1000200
  /\ r = Throw (SignatureVerificationError "Invalid prefix")
  /\ ~ (r = Throw (SignatureVerificationError "Authorization expired!")
        <-> 1000200 - nowSeconds env < authGracePeriod).
Proof.
  intros env swap r.
  assert (Hr : r = Throw (SignatureVerificationError "Invalid prefix")) by reflexivity.
  split; [reflexivity|]. split; [exact Hr|].
  intros [_ H]. rewrite Hr in H.
  assert (Hlt : 1000200 - nowSeconds env < authGracePeriod) by (vm_compute; reflexivity).
  specialize (H Hlt). discriminate H.
Qed.

(* ------------------------------------------------------------------ *)
(** ** Authorizations: the nonce *)

Lemma getIndex_inv (s : EVMSwapData) (i : Z) :
  EVMSwapData.getIndex s = Ok i -> 0 <= data s /\ i = bitField (data s) 168 8.
Proof.
  intros H. destruct (Z.ltb_spec (data s) 0) as [Hneg|Hpos].
  - unfold EVMSwapData.getIndex, BigNumber.shr in H.
    replace (data s <? 0) with true in H by (symmetry; apply Z.ltb_lt; lia).
    discriminate H.
  - rewrite getIndex_spec in H by lia. injection H as <-. split; [lia | reflexivity].
Qed.

Lemma getExpiry_inv (s : EVMSwapData) (e : Z) :
  EVMSwapData.getExpiry s = Ok e -> 0 <= data s /\ e = bitField (data s) 0 64.
Proof.
  intros H. destruct (Z.ltb_spec (data s) 0) as [Hneg|Hpos].
  - unfold EVMSwapData.getExpiry, BigNumber.and in H.
    change (BigNumber.fromString "0xFFFFFFFFFFFFFFFF") with (Ok (Z.ones 64)) in H.
    rewrite bind_Ok in H.
    replace (data s <? 0) with true in H by (symmetry; apply Z.ltb_lt; lia).
    discriminate H.
  - rewrite getExpiry_spec in H by lia. injection H as <-. split; [lia | reflexivity].
Qed.

(** C4.  For an authorization with the verifier's prefix, a timeout at least
    auth_grace_period ahead and (for init) a swap expiry at least
    auth_grace_period + claim_grace_period ahead, isValidClaimInitAuthorization
    and isValidInitAuthorization raise
    SignatureVerificationError("Invalid nonce!") if and only if the commitment
    the contract stores at the swap's payment hash differs from the index
    packed in the swap's data, whatever the signature is. *)
Theorem C4_invalid_nonce (env : Env) (swap : EVMSwapData)
    (timeout signature : string) (nonce t commitNum index : Z) :
  BN.ofString timeout = Ok t ->
  authGracePeriod <= t - nowSeconds env ->
  BigNumber.fromString (getCommitment env (paymentHash swap)) = Ok commitNum ->
  EVMSwapData.getIndex swap = Ok index ->
  (EVMSwapProgram.isValidClaimInitAuthorization env swap timeout "claim_initialize"
     signature nonce
   = Throw (SignatureVerificationError "Invalid nonce!")
   <-> commitNum <> index)
  /\ (forall expiry : Z,
        EVMSwapData.getExpiry swap = Ok expiry ->
        authGracePeriod + claimGracePeriod <= expiry - nowSeconds env ->
        (EVMSwapProgram.isValidInitAuthorization env swap timeout "initialize"
           signature nonce
         = Throw (SignatureVerificationError "Invalid nonce!")
         <-> commitNum <> index)).
Proof.
  intros Ht Hfresh Hc Hi.
  destruct (getIndex_inv _ _ Hi) as [Hd Hidx].
  pose proof (bitField_bounds (data swap) 168 8 ltac:(lia)) as Hb.
  rewrite <- Hidx in Hb.
  assert (Hnum : BigNumber.fromNumber index = Ok index)
    by (apply fromNumber_safe; unfold BigNumber.MAX_SAFE; lia).
  assert (Htail : forall (message : result (list byte)) (who : string),
            faultOnly message ->
            (r <- message ;;
             a <- library "verifyMessage" (verifyMessage env r signature) ;;
             if negb (String.eqb (toLowerCase a) (toLowerCase who))
             then Throw (SignatureVerificationError "Invalid signature!")
             else Ok r)
            <> Throw (SignatureVerificationError "Invalid nonce!")).
  { intros message who Hm H.
    assert (Hc' : throwsOnly
                    (fun e => e <> SignatureVerificationError "Invalid nonce!")
                    (r <- message ;;
                     a <- library "verifyMessage" (verifyMessage env r signature) ;;
                     if negb (String.eqb (toLowerCase a) (toLowerCase who))
                     then Throw (SignatureVerificationError "Invalid signature!")
                     else Ok r)).
    { apply throwsOnly_bind;
        [apply throwsOnly_fault; [exact Hm | intros; discriminate] | intro].
      throws_only. }
    exact (Hc' _ H eq_refl). }
  split; [|intros expiry He Hlate].
  - unfold EVMSwapProgram.isValidClaimInitAuthorization.
    change (String.eqb "claim_initialize" "claim_initialize") with true.
    cbn [negb]. rewrite Ht, !bind_Ok.
    destruct (Z.ltb_spec (t - nowSeconds env) authGracePeriod) as [?Hlt|?Hge]; [lia|].
    rewrite Hc, bind_Ok, Hi, bind_Ok, Hnum, bind_Ok.
    destruct (Z.eqb_spec commitNum index) as [E|E]; cbn [negb].
    + split; [intros H; exfalso | intros H; congruence].
      revert H. apply Htail. apply faultOnly_getMessage.
    + split; [intros _; exact E | reflexivity].
  - unfold EVMSwapProgram.isValidInitAuthorization.
    change (String.eqb "initialize" "initialize") with true.
    cbn [negb]. rewrite Ht, !bind_Ok.
    destruct (Z.ltb_spec (t - nowSeconds env) authGracePeriod) as [?Hlt|?Hge]; [lia|].
    rewrite He, bind_Ok.
    destruct (Z.ltb_spec (expiry - nowSeconds env) (authGracePeriod + claimGracePeriod))
      as [?Hlt|?Hge]; [lia|].
    rewrite Hc, bind_Ok, Hi, bind_Ok, Hnum, bind_Ok.
    destruct (Z.eqb_spec commitNum index) as [E|E]; cbn [negb].
    + split; [intros H; exfalso | intros H; congruence].
      revert H. apply Htail. apply faultOnly_getMessage.
    + split; [intros _; exact E | reflexivity].
Qed.

(** On-chain commitment 7 against index 6: the init authorization is rejected
    with "Invalid nonce!". *)
Lemma C4_invalid_nonce_witness :
  EVMSwapProgram.isValidInitAuthorization
    (exampleEnv "0xB2" 1000000000
       "0x0000000000000000000000000000000000000000000000000000000000000007"
       (Some "0xA1"))
    (exampleSwap "0xA1" "0xB2" (packedLayout 1003600 1 0 0 false true 6))
    "1000400" "initialize" "0xsignature" 6
  = Throw (SignatureVerificationError "Invalid nonce!").
Proof.
  refine (proj2 (proj2 (C4_invalid_nonce
           (exampleEnv "0xB2" 1000000000
              "0x0000000000000000000000000000000000000000000000000000000000000007"
              (Some "0xA1"))
           (exampleSwap "0xA1" "0xB2" (packedLayout 1003600 1 0 0 false true 6))
           "1000400" "0xsignature" 6 1000400 7 6
           eq_refl _ eq_refl eq_refl) 1003600 eq_refl _) _).
  - vm_compute. congruence.
  - vm_compute. congruence.
  - lia.
Defined.

(* ------------------------------------------------------------------ *)
(** ** Authorizations: the refund signer *)

(** C1 (as the code has it).  For every swap record and every refund
    authorization whose prefix is "refund" and whose timeout is at least
    auth_grace_period seconds in the future, isValidRefundAuthorization
    succeeds if and only if the refund message can be built and the address
    recovered from the signature over it equals, letter case aside, the swap's
    claimer; when the recovered address differs from the claimer it raises
    SignatureVerificationError("Invalid signature!"). *)
Theorem C1_refund_authorization_signer (env : Env) (swap : EVMSwapData)
    (timeout signature : string) (t : Z) :
  BN.ofString timeout = Ok t ->
  authGracePeriod <= t - nowSeconds env ->
  (forall message : list byte,
     EVMSwapProgram.isValidRefundAuthorization env swap timeout "refund" signature
     = Ok message
     <-> EVMSwapProgram.getRefundMessage env swap "refund" timeout = Ok message
         /\ exists recovered : string,
              verifyMessage env message signature = Some recovered
              /\ toLowerCase recovered = toLowerCase (claimer swap))
  /\ (forall (message : list byte) (recovered : string),
        EVMSwapProgram.getRefundMessage env swap "refund" timeout = Ok message ->
        verifyMessage env message signature = Some recovered ->
        toLowerCase recovered <> toLowerCase (claimer swap) ->
        EVMSwapProgram.isValidRefundAuthorization env swap timeout "refund" signature
        = Throw (SignatureVerificationError "Invalid signature!")).
Proof.
  intros Ht Hfresh.
  unfold EVMSwapProgram.isValidRefundAuthorization.
  change (String.eqb "refund" "refund") with true.
  cbn [negb]. rewrite Ht, !bind_Ok.
  destruct (Z.ltb_spec (t - nowSeconds env) authGracePeriod) as [Hlt|_]; [lia|].
  split.
  - intros message.
    destruct (EVMSwapProgram.getRefundMessage env swap "refund" timeout) as [m|e];
      cbn [bind]; [|split; [discriminate | intros [H _]; discriminate]].
    destruct (verifyMessage env m signature) as [a|] eqn:Hv; cbn [library bind].
    + destruct (String.eqb_spec (toLowerCase a) (toLowerCase (claimer swap))) as [E|E];
        cbn [negb].
      * split.
        -- intros H. injection H as <-. split; [reflexivity|].
           exists a. split; [exact Hv | exact E].
        -- intros [H _]. exact H.
      * split; [discriminate|].
        intros [H (a' & Ha' & E')]. injection H as <-.
        rewrite Hv in Ha'. injection Ha' as <-. contradiction.
    + split; [discriminate|].
      intros [H (a' & Ha' & _)]. injection H as <-.
      rewrite Hv in Ha'. discriminate.
  - intros message recovered Hm Hv Hne.
    rewrite Hm. cbn [bind]. rewrite Hv. cbn [library bind].
    destruct (String.eqb_spec (toLowerCase recovered) (toLowerCase (claimer swap)));
      [contradiction | reflexivity].
Qed.

Lemma C1_refund_authorization_signer_witness :
  exists message : list byte,
    EVMSwapProgram.isValidRefundAuthorization
      (exampleEnv "0xA1" 1000000000 "0x00" (Some "0xB2"))
      (exampleSwap "0xa1" "0xb2" (packedLayout 1003600 1 0 0 false true 0))
      "1000400" "refund" "0xsignature"
    = Ok message.
Proof.
  eexists.
  apply (proj1 (C1_refund_authorization_signer
           (exampleEnv "0xA1" 1000000000 "0x00" (Some "0xB2"))
           (exampleSwap "0xa1" "0xb2" (packedLayout 1003600 1 0 0 false true 0))
           "1000400" "0xsignature" 1000400 eq_refl
           ltac:(vm_compute; congruence))).
  split; [reflexivity|].
  exists "0xB2". split; reflexivity.
Defined.

(** A refund authorization signed by the offerer is rejected: the recovered
    address equals swap.offerer, and the check against swap.claimer raises
    "Invalid signature!". *)
Lemma C1_offerer_signature_counterexample :
  let recovered := "0xa1" in
  let env := exampleEnv "0xa1" 1000000000 "0x00" (Some recovered) in
  let swap := exampleSwap "0xa1" "0xb2" (packedLayout 1003600 1 0 0 false true 0) in
  let r := EVMSwapProgram.isValidRefundAuthorization env swap "1000400" "refund"
             "0xsignature" in
  BN.ofString "1000400" = Ok 1000400
  /\ authGracePeriod <= 1000400 - nowSeconds env
  /\ (exists message,
        EVMSwapProgram.getRefundMessage env swap "refund" "1000400" = Ok message
        /\ verifyMessage env message "0xsignature" = Some recovered)
  /\ recovered = offerer swap
  /\ r = Throw (SignatureVerificationError "Invalid signature!")
  /\ ~ (isOk r = true <-> recovered = offerer swap).
Proof.
  intros recovered env swap r.
  assert (Hr : r = Throw (SignatureVerificationError "Invalid signature!"))
    by (vm_compute; reflexivity).
  split; [reflexivity|].
  split; [vm_compute; congruence|].
  split; [eexists; split; [vm_compute; reflexivity | reflexivity]|].
  split; [reflexivity|].
  split; [exact Hr|].
  intros [_ H]. specialize (H eq_refl). rewrite Hr in H. discriminate H.
Qed.

(* ------------------------------------------------------------------ *)
(** ** getCommitStatus below 0x100 *)

Lemma isExpired_spec (env : Env) (swap : EVMSwapData) (expiry : Z) :
  EVMSwapData.getExpiry swap = Ok expiry ->
  EVMSwapProgram.isExpired env swap
  = Ok (expiry <? (if EVMSwapProgram.areWeClaimer env swap
                   then nowSeconds env + claimGracePeriod
                   else if EVMSwapProgram.areWeOfferer env swap
                        then nowSeconds env - refundGracePeriod
                        else 0)).
Proof.
  intros He. unfold EVMSwapProgram.isExpired. rewrite He, bind_Ok. reflexivity.
Qed.

(** C2 (as the code has it).  For every swap record whose on-chain commitment
    at its payment hash is strictly below 0x100, getCommitStatus returns
    EXPIRED exactly when the swap's expiry is before the caller's deadline,
    and NOT_COMMITED otherwise; the deadline is now + claim_grace_period when
    the caller is the swap's claimer, else now - refund_grace_period when the
    caller is the offerer, else 0.  So an offerer who is not the claimer gets
    EXPIRED exactly when expiry + refund_grace_period < now, and a caller who
    is neither offerer nor claimer never gets EXPIRED in this branch. *)
Theorem C2_commit_status_below_0x100 (env : Env) (swap : EVMSwapData)
    (commitNum expiry : Z) :
  BigNumber.fromString (getCommitment env (paymentHash swap)) = Ok commitNum ->
  commitNum < 256 ->
  EVMSwapData.getExpiry swap = Ok expiry ->
  let deadline :=
    if EVMSwapProgram.areWeClaimer env swap then nowSeconds env + claimGracePeriod
    else if EVMSwapProgram.areWeOfferer env swap then nowSeconds env - refundGracePeriod
         else 0 in
  EVMSwapProgram.getCommitStatus env swap
  = Ok (if expiry <? deadline then EXPIRED else NOT_COMMITED)
  /\ (EVMSwapProgram.getCommitStatus env swap = Ok EXPIRED <-> expiry < deadline)
  /\ (EVMSwapProgram.areWeOfferer env swap = true ->
      EVMSwapProgram.areWeClaimer env swap = false ->
      (EVMSwapProgram.getCommitStatus env swap = Ok EXPIRED
       <-> expiry + refundGracePeriod < nowSeconds env))
  /\ (EVMSwapProgram.areWeOfferer env swap = false ->
      EVMSwapProgram.areWeClaimer env swap = false ->
      EVMSwapProgram.getCommitStatus env swap = Ok NOT_COMMITED).
Proof.
  intros Hc Hlow He deadline.
  assert (Hs : EVMSwapProgram.getCommitStatus env swap
               = Ok (if expiry <? deadline then EXPIRED else NOT_COMMITED)).
  { unfold EVMSwapProgram.getCommitStatus.
    rewrite Hc, bind_Ok.
    rewrite (fromNumber_safe 256) by (unfold BigNumber.MAX_SAFE; lia).
    rewrite !bind_Ok.
    destruct (Z.eqb_spec commitNum 256) as [?Heq|?Hne]; [lia|].
    destruct (Z.ltb_spec commitNum 256) as [?Hlt|?Hge]; [|lia].
    rewrite (isExpired_spec env swap expiry He), bind_Ok.
    fold deadline. destruct (expiry <? deadline); reflexivity. }
  assert (Hiff : EVMSwapProgram.getCommitStatus env swap = Ok EXPIRED
                 <-> expiry < deadline).
  { rewrite Hs. destruct (Z.ltb_spec expiry deadline) as [Hd|Hd]; split; intros Hx;
      reflexivity || lia || discriminate. }
  split; [exact Hs|]. split; [exact Hiff|]. split.
  - intros Ho Hcl. rewrite Hiff. unfold deadline. rewrite Ho, Hcl. lia.
  - intros Ho Hcl. rewrite Hs. unfold deadline. rewrite Ho, Hcl.
    destruct (getExpiry_inv _ _ He) as [_ ->].
    pose proof (bitField_bounds (data swap) 0 64 ltac:(lia)).
    destruct (Z.ltb_spec (bitField (data swap) 0 64) 0); [lia | reflexivity].
Qed.

Lemma C2_commit_status_below_0x100_witness :
  EVMSwapProgram.getCommitStatus
    (exampleEnv "0xa1" 1000000000
       "0x0000000000000000000000000000000000000000000000000000000000000000" None)
    (exampleSwap "0xa1" "0xb2" (packedLayout 999000 1 0 0 false true 0))
  = Ok EXPIRED.
Proof.
  exact (proj1 (C2_commit_status_below_0x100
           (exampleEnv "0xa1" 1000000000
              "0x0000000000000000000000000000000000000000000000000000000000000000" None)
           (exampleSwap "0xa1" "0xb2" (packedLayout 999000 1 0 0 false true 0))
           0 999000 eq_refl ltac:(lia) eq_refl)).
Defined.

(** With commitment 0: a caller who is the claimer and not the offerer gets
    EXPIRED (expiry 1000300 is before now + 600 = 1000600); and a caller who
    is the offerer, with the clock (1000000) past expiry - 600 (= 999700) but
    not past expiry + 600, gets NOT_COMMITED. *)
Lemma C2_claimer_expired_counterexample :
  let zero := "0x0000000000000000000000000000000000000000000000000000000000000000" in
  let swap := exampleSwap "0xa1" "0xb2" (packedLayout 1000300 1 0 0 false true 0) in
  let asClaimer := exampleEnv "0xb2" 1000000000 zero None in
  let asOfferer := exampleEnv "0xa1" 1000000000 zero None in
  BigNumber.fromString (getCommitment asClaimer (paymentHash swap)) = Ok 0
  /\ EVMSwapData.getExpiry swap = Ok 1000300
  /\ EVMSwapProgram.areWeOfferer asClaimer swap = false
  /\ EVMSwapProgram.getCommitStatus asClaimer swap = Ok EXPIRED
  /\ EVMSwapProgram.areWeOfferer asOfferer swap = true
  /\ 1000300 - refundGracePeriod < nowSeconds asOfferer
  /\ EVMSwapProgram.getCommitStatus asOfferer swap = Ok NOT_COMMITED.
Proof.
  intros zero swap asClaimer asOfferer.
  repeat split; vm_compute; reflexivity.
Qed.

(* ================================================================== *)
(** * Further properties of the code *)

(* ------------------------------------------------------------------ *)
(** ** Printing a number and reading it back *)

Lemma parseDigits_chars (val : ascii -> option Z) (ch : Z -> ascii) (base : Z) :
  (forall d, 0 <= d < base -> val (ch d) = Some d) ->
  forall (ds : list Z) (acc : Z),
    Forall (fun d => 0 <= d < base) ds ->
    parseDigits val base (stringOfChars (map ch ds)) acc
    = Some (fold_left (fun a d => base * a + d) ds acc).
Proof.
  intros Hch ds. induction ds as [|d ds IH]; intros acc Hds; [reflexivity|].
  inversion Hds as [|? ? Hd Hrest]; subst.
  cbn [map stringOfChars fold_right parseDigits fold_left].
  rewrite (Hch d Hd). apply IH. exact Hrest.
Qed.

Lemma hexDigitsLE_range (fuel : nat) :
  forall n, Forall (fun d => 0 <= d < 16) (hexDigitsLE fuel n).
Proof.
  induction fuel as [|fuel IH]; intros n; cbn [hexDigitsLE]; [constructor|].
  destruct (n <=? 0); constructor; [apply Z.mod_pos_bound; lia | apply IH].
Qed.

Lemma decDigitsLE_range (fuel : nat) :
  forall n, Forall (fun d => 0 <= d < 10) (decDigitsLE fuel n).
Proof.
  induction fuel as [|fuel IH]; intros n; cbn [decDigitsLE]; [constructor|].
  destruct (n <=? 0); constructor; [apply Z.mod_pos_bound; lia | apply IH].
Qed.

Lemma hexDigitsLE_value (fuel : nat) :
  forall n, 0 <= n < 16 ^ Z.of_nat fuel ->
    fold_right (fun d a => 16 * a + d) 0 (hexDigitsLE fuel n) = n.
Proof.
  induction fuel as [|fuel IH]; intros n Hn.
  - simpl in *. lia.
  - cbn [hexDigitsLE]. destruct (Z.leb_spec n 0); [simpl; lia|].
    cbn [fold_right]. rewrite Nat2Z.inj_succ, Z.pow_succ_r in Hn by lia.
    rewrite IH.
    + pose proof (Z.div_mod n 16 ltac:(lia)). lia.
    + split; [apply Z.div_pos; lia | apply Z.div_lt_upper_bound; lia].
Qed.

Lemma decDigitsLE_value (fuel : nat) :
  forall n, 0 <= n < 10 ^ Z.of_nat fuel ->
    fold_right (fun d a => 10 * a + d) 0 (decDigitsLE fuel n) = n.
Proof.
  induction fuel as [|fuel IH]; intros n Hn.
  - simpl in *. lia.
  - cbn [decDigitsLE]. destruct (Z.leb_spec n 0); [simpl; lia|].
    cbn [fold_right]. rewrite Nat2Z.inj_succ, Z.pow_succ_r in Hn by lia.
    rewrite IH.
    + pose proof (Z.div_mod n 10 ltac:(lia)). lia.
    + split; [apply Z.div_pos; lia | apply Z.div_lt_upper_bound; lia].
Qed.

Lemma fold_left_rev_digits (base : Z) (l : list Z) :
  fold_left (fun a d => base * a + d) (rev l) 0
  = fold_right (fun d a => base * a + d) 0 l.
Proof.
  rewrite <- (rev_involutive l) at 2.
  symmetry. apply (fold_left_rev_right (fun d a => base * a + d)).
Qed.

Lemma decDigit_roundtrip (d : Z) :
  0 <= d < 10 -> decDigitValue (decDigitChar d) = Some d.
Proof.
  intros H. rewrite <- (Z2Nat.id d) by lia.
  assert (Hn : (Z.to_nat d < 10)%nat) by lia.
  revert Hn. generalize (Z.to_nat d). intros n Hn.
  do 10 (destruct n as [|n]; [reflexivity|]). lia.
Qed.

Lemma log2_fuel10 (n : Z) : 0 < n -> n < 10 ^ Z.of_nat (Z.to_nat (Z.log2 n) + 1).
Proof.
  intros Hn.
  pose proof (Z.log2_nonneg n) as Hl.
  replace (Z.of_nat (Z.to_nat (Z.log2 n) + 1)) with (Z.succ (Z.log2 n)) by lia.
  apply Z.lt_le_trans with (2 ^ Z.succ (Z.log2 n)).
  - apply Z.log2_spec. exact Hn.
  - apply Z.pow_le_mono_l. lia.
Qed.

Lemma parseHex_hexOfPositive (n : Z) : 0 < n -> parseHex (hexOfPositive n) = Some n.
Proof.
  intros Hn. unfold parseHex, hexOfPositive.
  rewrite (parseDigits_chars hexDigitValue hexDigitChar 16 hexDigit_roundtrip)
    by (apply Forall_rev, hexDigitsLE_range).
  rewrite fold_left_rev_digits, hexDigitsLE_value;
    [reflexivity | split; [lia | apply log2_fuel; lia]].
Qed.

Lemma parseDec_decOfPositive (n : Z) : 0 < n -> parseDec (decOfPositive n) = Some n.
Proof.
  intros Hn. unfold parseDec, decOfPositive.
  rewrite (parseDigits_chars decDigitValue decDigitChar 10 decDigit_roundtrip)
    by (apply Forall_rev, decDigitsLE_range).
  rewrite fold_left_rev_digits, decDigitsLE_value;
    [reflexivity | split; [lia | apply log2_fuel10; lia]].
Qed.

Lemma parseDigits_None_acc (val : ascii -> option Z) (base : Z) (s : string) :
  forall acc acc', parseDigits val base s acc = None ->
                   parseDigits val base s acc' = None.
Proof.
  induction s as [|c s IH]; intros acc acc' H; [discriminate|].
  cbn [parseDigits] in *. destruct (val c); [eapply IH; exact H | reflexivity].
Qed.

Lemma nonEmpty_chars (ch : Z -> ascii) (ds : list Z) :
  ds <> [] -> BigNumber.nonEmpty (stringOfChars (map ch ds)) = true.
Proof. destruct ds; [congruence | reflexivity]. Qed.

Lemma hexDigitsLE_nonempty (fuel : nat) (n : Z) :
  0 < n -> rev (hexDigitsLE (S fuel) n) <> [].
Proof.
  intros Hn. cbn [hexDigitsLE]. destruct (Z.leb_spec n 0) as [?Hle|?Hgt]; [lia|].
  cbn [rev]. intros H. apply app_eq_nil in H. destruct H; discriminate.
Qed.

Lemma decDigitsLE_nonempty (fuel : nat) (n : Z) :
  0 < n -> rev (decDigitsLE (S fuel) n) <> [].
Proof.
  intros Hn. cbn [decDigitsLE]. destruct (Z.leb_spec n 0) as [?Hle|?Hgt]; [lia|].
  cbn [rev]. intros H. apply app_eq_nil in H. destruct H; discriminate.
Qed.

Lemma toString16_parse (a : Z) :
  0 <= a ->
  BigNumber.nonEmpty (BN.toString16 a) = true /\ parseHex (BN.toString16 a) = Some a.
Proof.
  intros Ha. unfold BN.toString16.
  destruct (Z.eqb_spec a 0) as [->|Hnz]; [split; reflexivity|].
  destruct (Z.ltb_spec a 0); [lia|]. split.
  - unfold hexOfPositive. apply nonEmpty_chars.
    replace (Z.to_nat (Z.log2 a) + 1)%nat with (S (Z.to_nat (Z.log2 a))) by lia.
    apply hexDigitsLE_nonempty. lia.
  - apply parseHex_hexOfPositive. lia.
Qed.

Lemma fromUnsignedString_toHex (a : Z) :
  0 <= a ->
  BigNumber.fromUnsignedString
    ("0x" ++ (if Nat.even (String.length (BN.toString16 a)) then BN.toString16 a
              else "0" ++ BN.toString16 a))%string
  = Ok a.
Proof.
  intros Ha. destruct (toString16_parse a Ha) as [Hne Hp].
  cbn [String.append BigNumber.fromUnsignedString].
  destruct (Nat.even (String.length (BN.toString16 a))).
  - rewrite Hne, Hp. reflexivity.
  - cbn [String.append BigNumber.nonEmpty]. unfold parseHex in *.
    cbn [parseDigits]. change (hexDigitValue "0") with (Some 0).
    cbn iota. change (16 * 0 + 0) with 0. rewrite Hp. reflexivity.
Qed.

Lemma fromString_toHexString (a : Z) :
  BigNumber.fromString (BigNumber.toHexString a) = Ok a.
Proof.
  unfold BigNumber.toHexString.
  destruct (Z.ltb_spec a 0) as [Hneg|Hpos].
  - change ("-0x" ++ ?x)%string with (String "-" ("0x" ++ x)%string).
    cbn [BigNumber.fromString].
    rewrite fromUnsignedString_toHex by lia. cbn [bind]. f_equal. lia.
  - change (BigNumber.fromString ("0x" ++ ?x)%string)
      with (BigNumber.fromUnsignedString ("0x" ++ x)%string).
    apply fromUnsignedString_toHex. exact Hpos.
Qed.

Ltac digit_split n :=
  destruct n as [|n]; [|first [exfalso; lia | digit_split n]].

Ltac digit_cases d H :=
  rewrite <- (Z2Nat.id d) by lia;
  let n := fresh "n" in
  let Hn := fresh "Hn" in
  assert (Hn : (Z.to_nat d < 10)%nat) by lia;
  revert Hn; generalize (Z.to_nat d); intros n Hn;
  digit_split n; clear Hn; try reflexivity.

Lemma fromUnsignedString_decimal (ds : list Z) :
  Forall (fun d => 0 <= d < 10) ds -> ds <> [] ->
  BigNumber.fromUnsignedString (stringOfChars (map decDigitChar ds))
  = match parseDec (stringOfChars (map decDigitChar ds)) with
    | Some v => Ok v
    | None => Throw (Fault "invalid BigNumber string")
    end.
Proof.
  intros Hds Hne. destruct ds as [|d1 ds]; [congruence|].
  inversion Hds as [|? ? Hd1 Hrest]; subst.
  destruct ds as [|d2 ds].
  - cbn [map stringOfChars fold_right]. revert Hd1. clear. intros Hd1.
    digit_cases d1 Hd1.
  - inversion Hrest as [|? ? Hd2 Hrest']; subst.
    cbn [map stringOfChars fold_right].
    generalize (fold_right String EmptyString (map decDigitChar ds)). intros rest.
    revert Hd1 Hd2. clear. intros Hd1 Hd2.
    digit_cases d1 Hd1; digit_cases d2 Hd2.
Qed.

Lemma fromString_digit (d : Z) (s : string) :
  0 <= d < 10 ->
  BigNumber.fromString (String (decDigitChar d) s)
  = BigNumber.fromUnsignedString (String (decDigitChar d) s).
Proof. intros Hd. digit_cases d Hd. Qed.

Lemma fromUnsignedString_decOfPositive (n : Z) :
  0 < n -> BigNumber.fromUnsignedString (decOfPositive n) = Ok n.
Proof.
  intros Hn. unfold decOfPositive.
  rewrite fromUnsignedString_decimal.
  - fold (decOfPositive n). rewrite parseDec_decOfPositive by lia. reflexivity.
  - apply Forall_rev, decDigitsLE_range.
  - replace (Z.to_nat (Z.log2 n) + 1)%nat with (S (Z.to_nat (Z.log2 n))) by lia.
    apply decDigitsLE_nonempty. lia.
Qed.

Lemma fromString_toString10 (a : Z) :
  BigNumber.fromString (BN.toString10 a) = Ok a.
Proof.
  unfold BN.toString10.
  destruct (Z.eqb_spec a 0) as [->|Hnz]; [reflexivity|].
  destruct (Z.ltb_spec a 0) as [Hneg|Hpos].
  - change ("-" ++ ?x)%string with (String "-" x).
    cbn [BigNumber.fromString].
    rewrite fromUnsignedString_decOfPositive by lia. cbn [bind]. f_equal. lia.
  - pose proof (fromUnsignedString_decOfPositive a ltac:(lia)) as H.
    unfold decOfPositive in *.
    pose proof (decDigitsLE_range (Z.to_nat (Z.log2 a) + 1) a) as Hr.
    apply Forall_rev in Hr.
    destruct (rev (decDigitsLE (Z.to_nat (Z.log2 a) + 1) a)) as [|d ds] eqn:E.
    + exfalso. revert E.
      replace (Z.to_nat (Z.log2 a) + 1)%nat with (S (Z.to_nat (Z.log2 a))) by lia.
      apply decDigitsLE_nonempty. lia.
    + inversion Hr; subst. cbn [map stringOfChars fold_right] in *.
      rewrite fromString_digit by assumption. exact H.
Qed.

(* ------------------------------------------------------------------ *)
(** ** EVMSwapData: serialize and the deserializing constructor *)

Lemma bigNumberOrNull_hexOrNull (v : option Z) :
  EVMSwapData.bigNumberOrNull (EVMSwapData.hexOrNull v) = Ok v.
Proof.
  destruct v as [x|]; [|reflexivity].
  cbn [EVMSwapData.hexOrNull EVMSwapData.bigNumberOrNull].
  rewrite fromString_toHexString. reflexivity.
Qed.

(** X1.  Serializing a swap record and constructing a record from the
    serialized object gives back the same record, whatever its numbers are:
    every hexadecimal string [toHexString] writes is read back by
    [BigNumber.from] as the same number, and absent members stay absent. *)
Theorem X1_serialize_deserialize (s : EVMSwapData) :
  EVMSwapData.deserialize (EVMSwapData.serialize s) = Ok s
  /\ EVMSwapData.s_type (EVMSwapData.serialize s) = "evm".
Proof.
  split; [|reflexivity].
  unfold EVMSwapData.deserialize, EVMSwapData.serialize.
  cbn [EVMSwapData.s_amount EVMSwapData.s_data EVMSwapData.s_securityDeposit
       EVMSwapData.s_claimerBounty EVMSwapData.s_offerer EVMSwapData.s_claimer
       EVMSwapData.s_token EVMSwapData.s_paymentHash EVMSwapData.s_txoHash].
  rewrite !bigNumberOrNull_hexOrNull, fromString_toHexString, !bind_Ok.
  destruct s; reflexivity.
Qed.

(* ------------------------------------------------------------------ *)
(** ** createSwapData *)

Lemma bigNumberOfBN_id (x : option Z) : EVMSwapProgram.bigNumberOfBN x = Ok x.
Proof.
  destruct x as [v|]; [|reflexivity].
  cbn [EVMSwapProgram.bigNumberOfBN]. rewrite fromString_toString10. reflexivity.
Qed.

Lemma typeToKind_bounds (type : ChainSwapType) :
  0 <= EVMSwapProgram.typeToKind type < 2 ^ 8.
Proof. destruct type; simpl; lia. Qed.

Lemma createSwapData_ok (env : Env) (type : ChainSwapType)
    (offererAddress claimerAddress tokenAddress : string) (amountSats : option Z)
    (hash : string) (sequence : option Z) (expiry escrowNonce confirmations : Z)
    (payIn payOut : bool) (deposit bounty : option Z) (commitNum : Z) :
  BigNumber.fromString (getCommitment env ("0x" ++ hash)%string) = Ok commitNum ->
  0 <= commitNum < 256 ->
  0 <= expiry < 2 ^ 64 -> 0 <= escrowNonce < 2 ^ 64 -> 0 <= confirmations < 2 ^ 16 ->
  EVMSwapProgram.createSwapData env type offererAddress claimerAddress tokenAddress
    amountSats hash sequence (Some expiry) (Some escrowNonce) confirmations
    payIn payOut deposit bounty
  = Ok {| offerer := offererAddress; claimer := claimerAddress; token := tokenAddress;
          amount := amountSats; paymentHash := ("0x" ++ hash)%string;
          data := packedLayout expiry escrowNonce confirmations
                    (EVMSwapProgram.typeToKind type) payIn payOut commitNum;
          securityDeposit := deposit; claimerBounty := bounty; txoHash := None |}.
Proof.
  intros Hc Hlow He Hn Hconf.
  unfold EVMSwapProgram.createSwapData. rewrite Hc, bind_Ok.
  rewrite (fromNumber_safe 256) by (unfold BigNumber.MAX_SAFE; lia).
  rewrite bind_Ok. destruct (Z.leb_spec 256 commitNum) as [?Hge|?Hlt]; [lia|].
  rewrite !bigNumberOfBN_id, !bind_Ok.
  rewrite toNumber_safe by lia. rewrite bind_Ok.
  rewrite new_data by (try apply typeToKind_bounds; lia).
  rewrite !Z.mod_small by lia. reflexivity.
Qed.

(** X2.  createSwapData reads the commitment stored at the payment hash:
    when it is 0x100 or more it throws "Already committed or already paid";
    when it is below 0x100 it returns a record whose index is that
    commitment number, whose payment hash is the given hash after 0x, whose
    type is the requested swap type, and whose expiry, escrow nonce,
    confirmations and flags are the ones given (for values within the field
    widths); the record has no txo hash. *)
Theorem X2_createSwapData (env : Env) (type : ChainSwapType)
    (offererAddress claimerAddress tokenAddress : string) (amountSats : option Z)
    (hash : string) (sequence : option Z) (expiry escrowNonce confirmations : Z)
    (payIn payOut : bool) (deposit bounty : option Z) (commitNum : Z) :
  BigNumber.fromString (getCommitment env ("0x" ++ hash)%string) = Ok commitNum ->
  0 <= expiry < 2 ^ 64 -> 0 <= escrowNonce < 2 ^ 64 -> 0 <= confirmations < 2 ^ 16 ->
  let created :=
    EVMSwapProgram.createSwapData env type offererAddress claimerAddress tokenAddress
      amountSats hash sequence (Some expiry) (Some escrowNonce) confirmations
      payIn payOut deposit bounty in
  (256 <= commitNum ->
   created = Throw (Fault "Already committed or already paid"))
  /\ (0 <= commitNum < 256 ->
      exists swap : EVMSwapData,
        created = Ok swap
        /\ offerer swap = offererAddress /\ claimer swap = claimerAddress
        /\ token swap = tokenAddress /\ amount swap = amountSats
        /\ securityDeposit swap = deposit /\ claimerBounty swap = bounty
        /\ txoHash swap = None
        /\ EVMSwapData.getHash swap = hash
        /\ EVMSwapData.getIndex swap = Ok commitNum
        /\ EVMSwapData.getType swap = Ok (Some type)
        /\ EVMSwapData.getExpiry swap = Ok expiry
        /\ EVMSwapData.getEscrowNonce swap = Ok escrowNonce
        /\ EVMSwapData.getConfirmations swap = Ok confirmations
        /\ EVMSwapData.isPayIn swap = Ok payIn
        /\ EVMSwapData.isPayOut swap = Ok payOut).
Proof.
  intros Hc He Hn Hconf created. split.
  - intros Hhigh. unfold created, EVMSwapProgram.createSwapData.
    rewrite Hc, bind_Ok.
    rewrite (fromNumber_safe 256) by (unfold BigNumber.MAX_SAFE; lia).
    rewrite bind_Ok. destruct (Z.leb_spec 256 commitNum); [reflexivity | lia].
  - intros Hlow. eexists. split.
    { unfold created. apply (createSwapData_ok env) with (commitNum := commitNum);
        assumption. }
    pose proof (typeToKind_bounds type) as Hk.
    pose proof (packedLayout_bounds expiry escrowNonce confirmations
                  (EVMSwapProgram.typeToKind type) commitNum payIn payOut
                  He Hn Hconf Hk Hlow) as Hb.
    cbv zeta in Hb.
    unfold EVMSwapData.getType, EVMSwapData.getHash.
    rewrite getExpiry_spec, getEscrowNonce_spec, getConfirmations_spec, getKind_spec,
      isPayIn_spec, isPayOut_spec, getIndex_spec by (simpl; lia).
    rewrite !bitField_div_mod by lia. cbn [data paymentHash offerer claimer token
      amount securityDeposit claimerBounty txoHash].
    rewrite Z.pow_0_r, Z.div_1_r.
    rewrite packed_expiry, packed_nonce, packed_confirmations, packed_kind,
      packed_payIn, packed_payOut, packed_index by assumption.
    rewrite !boolNumber_pos, substring2_0x, bind_Ok.
    repeat split; try reflexivity.
    destruct type; reflexivity.
Qed.

Lemma X2_createSwapData_witness :
  exists swap : EVMSwapData,
    EVMSwapProgram.createSwapData
      (exampleEnv "0xB2" 1000000000
         "0x0000000000000000000000000000000000000000000000000000000000000007" None)
      CHAIN_NONCED "0xA1" "0xB2" "0x00" (Some 100000) "11" None
      (Some 1003600) (Some 42) 3 false true (Some 5) (Some 6)
    = Ok swap
    /\ EVMSwapData.getIndex swap = Ok 7
    /\ EVMSwapData.getType swap = Ok (Some CHAIN_NONCED).
Proof.
  destruct (X2_createSwapData
              (exampleEnv "0xB2" 1000000000
                 "0x0000000000000000000000000000000000000000000000000000000000000007"
                 None)
              CHAIN_NONCED "0xA1" "0xB2" "0x00" (Some 100000) "11" None
              1003600 42 3 false true (Some 5) (Some 6) 7
              eq_refl ltac:(lia) ltac:(lia) ltac:(lia)) as [_ H].
  destruct (H ltac:(lia)) as (swap & Hs & _ & _ & _ & _ & _ & _ & _ & _ & Hi & Ht & _).
  exists swap. repeat split; assumption.
Defined.

Lemma throwsOnly_bind_eq {A B : Type} (P : Error -> Prop) (c : result A)
    (k : A -> result B) :
  throwsOnly P c -> (forall a, c = Ok a -> throwsOnly P (k a)) ->
  throwsOnly P (bind c k).
Proof.
  intros Hc Hk e H. destruct c as [a|e']; simpl in H.
  - apply (Hk a eq_refl). exact H.
  - apply Hc. injection H as <-. reflexivity.
Qed.

Lemma throwsOnly_library {A : Type} (P : Error -> Prop) (what : string) (o : option A) :
  (forall message, P (Fault message)) -> throwsOnly P (library what o).
Proof.
  intros HP. apply throwsOnly_fault; [apply faultOnly_library | exact HP].
Qed.

Lemma nonce_check_passes (env : Env) (swap : EVMSwapData) (commitNum : Z) :
  BigNumber.fromString (getCommitment env (paymentHash swap)) = Ok commitNum ->
  EVMSwapData.getIndex swap = Ok commitNum ->
  forall (timeout prefix signature : string) (nonce : Z),
    EVMSwapProgram.isValidInitAuthorization env swap timeout prefix signature nonce
    <> Throw (SignatureVerificationError "Invalid nonce!")
    /\ EVMSwapProgram.isValidClaimInitAuthorization env swap timeout prefix signature
         nonce
       <> Throw (SignatureVerificationError "Invalid nonce!").
Proof.
  intros Hc Hi timeout prefix signature nonce.
  destruct (getIndex_inv _ _ Hi) as [Hd Hidx].
  pose proof (bitField_bounds (data swap) 168 8 ltac:(lia)) as Hb.
  rewrite <- Hidx in Hb.
  assert (Hnum : BigNumber.fromNumber commitNum = Ok commitNum)
    by (apply fromNumber_safe; unfold BigNumber.MAX_SAFE; lia).
  split; intros H.
  - revert H. unfold EVMSwapProgram.isValidInitAuthorization.
    match goal with
    | |- ?c = Throw ?e -> False =>
        assert (Hx : throwsOnly (fun e' => e' <> e) c);
        [|intros H; exact (Hx _ H eq_refl)]
    end.
    rewrite Hc, Hi.
    apply throwsOnly_if; [throws_only|].
    apply throwsOnly_bind; [throws_only | intro].
    apply throwsOnly_if; [throws_only|].
    apply throwsOnly_bind; [throws_only | intro].
    apply throwsOnly_if; [throws_only|].
    rewrite !bind_Ok, Hnum, bind_Ok, Z.eqb_refl. cbn [negb].
    unfold EVMSwapProgram.getInitMessage. throws_only.
  - revert H. unfold EVMSwapProgram.isValidClaimInitAuthorization.
    match goal with
    | |- ?c = Throw ?e -> False =>
        assert (Hx : throwsOnly (fun e' => e' <> e) c);
        [|intros H; exact (Hx _ H eq_refl)]
    end.
    rewrite Hc, Hi.
    apply throwsOnly_if; [throws_only|].
    apply throwsOnly_bind; [throws_only | intro].
    apply throwsOnly_if; [throws_only|].
    rewrite !bind_Ok, Hnum, bind_Ok, Z.eqb_refl. cbn [negb].
    unfold EVMSwapProgram.getClaimInitMessage. throws_only.
Qed.

(** X3.  A record that createSwapData returned passes the nonce check of both
    verifiers as long as the commitment on chain is unchanged: neither
    isValidInitAuthorization nor isValidClaimInitAuthorization raises
    "Invalid nonce!" for it, whatever the authorization is. *)
Theorem X3_created_swap_passes_nonce_check (env : Env) (type : ChainSwapType)
    (offererAddress claimerAddress tokenAddress : string) (amountSats : option Z)
    (hash : string) (sequence : option Z) (expiry escrowNonce confirmations : Z)
    (payIn payOut : bool) (deposit bounty : option Z) (commitNum : Z)
    (timeout prefix signature : string) (nonce : Z) :
  BigNumber.fromString (getCommitment env ("0x" ++ hash)%string) = Ok commitNum ->
  0 <= commitNum < 256 ->
  0 <= expiry < 2 ^ 64 -> 0 <= escrowNonce < 2 ^ 64 -> 0 <= confirmations < 2 ^ 16 ->
  exists swap : EVMSwapData,
    EVMSwapProgram.createSwapData env type offererAddress claimerAddress tokenAddress
      amountSats hash sequence (Some expiry) (Some escrowNonce) confirmations
      payIn payOut deposit bounty = Ok swap
    /\ EVMSwapProgram.isValidInitAuthorization env swap timeout prefix signature nonce
       <> Throw (SignatureVerificationError "Invalid nonce!")
    /\ EVMSwapProgram.isValidClaimInitAuthorization env swap timeout prefix signature
         nonce
       <> Throw (SignatureVerificationError "Invalid nonce!").
Proof.
  intros Hc Hlow He Hn Hconf. eexists. split.
  { apply (createSwapData_ok env) with (commitNum := commitNum); assumption. }
  apply nonce_check_passes with (commitNum := commitNum).
  - exact Hc.
  - pose proof (typeToKind_bounds type) as Hk.
    pose proof (packedLayout_bounds expiry escrowNonce confirmations
                  (EVMSwapProgram.typeToKind type) commitNum payIn payOut
                  He Hn Hconf Hk Hlow) as Hb.
    cbv zeta in Hb.
    rewrite getIndex_spec by (simpl; lia).
    rewrite bitField_div_mod by lia. cbn [data].
    rewrite packed_index by assumption. reflexivity.
Qed.

Lemma X3_created_swap_passes_nonce_check_witness :
  exists swap : EVMSwapData,
    EVMSwapProgram.createSwapData
      (exampleEnv "0xB2" 1000000000
         "0x0000000000000000000000000000000000000000000000000000000000000007" None)
      HTLC "0xA1" "0xB2" "0x00" (Some 100000) "11" None
      (Some 1003600) (Some 42) 0 false true (Some 5) (Some 6) = Ok swap
    /\ EVMSwapProgram.isValidInitAuthorization
         (exampleEnv "0xB2" 1000000000
            "0x0000000000000000000000000000000000000000000000000000000000000007" None)
         swap "1000400" "initialize" "0xsignature" 7
       <> Throw (SignatureVerificationError "Invalid nonce!").
Proof.
  destruct (X3_created_swap_passes_nonce_check
              (exampleEnv "0xB2" 1000000000
                 "0x0000000000000000000000000000000000000000000000000000000000000007"
                 None)
              HTLC "0xA1" "0xB2" "0x00" (Some 100000) "11" None
              1003600 42 0 false true (Some 5) (Some 6) 7
              "1000400" "initialize" "0xsignature" 7
              eq_refl ltac:(lia) ltac:(lia) ltac:(lia) ltac:(lia))
    as (swap & Hs & Hinit & _).
  exists swap. split; assumption.
Defined.

(* ------------------------------------------------------------------ *)
(** ** getSignatureStruct *)

(** X4.  For a signature that splits into r, s and a non-negative v, and a
    non-negative numeric timeout, getSignatureStruct returns r and s and packs
    vAndTimeout = timeout * 256 + (v mod 256): the low byte is v and the
    rest, shifted right by 8 bits, is the timeout. *)
Theorem X4_getSignatureStruct (splitSignature : string -> option (string * string * Z))
    (signature timeout sigR sigS : string) (v t : Z) :
  splitSignature signature = Some (sigR, sigS, v) ->
  0 <= v < BigNumber.MAX_SAFE ->
  BigNumber.fromString timeout = Ok t -> 0 <= t ->
  exists packed : EVMSwapProgram.SignatureStruct,
    EVMSwapProgram.getSignatureStruct splitSignature signature timeout = Ok packed
    /\ EVMSwapProgram.r packed = sigR /\ EVMSwapProgram.s packed = sigS
    /\ EVMSwapProgram.vAndTimeout packed = t * 256 + v mod 256
    /\ EVMSwapProgram.vAndTimeout packed / 256 = t
    /\ EVMSwapProgram.vAndTimeout packed mod 256 = v mod 256.
Proof.
  intros Hsplit Hv Ht Htpos.
  unfold EVMSwapProgram.getSignatureStruct.
  rewrite Hsplit. cbn [library]. rewrite bind_Ok. cbn [fst snd].
  rewrite Ht, bind_Ok.
  change (BigNumber.fromNumber 255) with (Ok (Z.ones 8)).
  unfold BigNumber.MAX_SAFE in Hv.
  repeat bn_step.
  eexists. split; [reflexivity|]. cbn [EVMSwapProgram.r EVMSwapProgram.s
    EVMSwapProgram.vAndTimeout].
  pose proof (Z.mod_pos_bound v 256 ltac:(lia)) as Hm.
  assert (Hpack : Z.lor (Z.shiftl t 8) (Z.land v (Z.ones 8)) = t * 256 + v mod 256).
  { rewrite Z.land_ones by lia. change (2 ^ 8) with 256.
    rewrite Z.lor_comm, (lor_shiftl_add (v mod 256) t 8) by (try lia; exact Hm).
    change (2 ^ 8) with 256. lia. }
  rewrite Hpack. repeat split.
  - rewrite Z.div_add_l by lia. rewrite Z.div_small by lia. lia.
  - rewrite Z.add_comm, Z.mod_add by lia. apply Z.mod_small. lia.
Qed.

Lemma X4_getSignatureStruct_witness :
  exists packed : EVMSwapProgram.SignatureStruct,
    EVMSwapProgram.getSignatureStruct (fun _ => Some ("0x01", "0x02", 28))
      "0xsignature" "1000400" = Ok packed
    /\ EVMSwapProgram.vAndTimeout packed = 1000400 * 256 + 28.
Proof.
  destruct (X4_getSignatureStruct (fun _ => Some ("0x01", "0x02", 28))
              "0xsignature" "1000400" "0x01" "0x02" 28 1000400
              eq_refl ltac:(vm_compute; split; congruence) eq_refl ltac:(lia))
    as (packed & H & _ & _ & Hp & _).
  exists packed. split; [exact H | exact Hp].
Defined.

(* ------------------------------------------------------------------ *)
(** ** Commit status *)

Lemma getCommitStatus_cases (env : Env) (swap : EVMSwapData) (commitNum : Z) :
  BigNumber.fromString (getCommitment env (paymentHash swap)) = Ok commitNum ->
  EVMSwapProgram.getCommitStatus env swap
  = if commitNum =? 256 then Ok PAID
    else if commitNum <? 256 then
      expired <- EVMSwapProgram.isExpired env swap ;;
      if expired then Ok EXPIRED else Ok NOT_COMMITED
    else
      commitHash <- EVMSwapProgram.getCommitHash env swap ;;
      if String.eqb (getCommitment env (paymentHash swap)) commitHash then
        if EVMSwapProgram.areWeOfferer env swap then
          expired <- EVMSwapProgram.isExpired env swap ;;
          if expired then Ok REFUNDABLE else Ok COMMITED
        else Ok COMMITED
      else
        if EVMSwapProgram.areWeOfferer env swap then
          expired <- EVMSwapProgram.isExpired env swap ;;
          if expired then Ok EXPIRED else Ok NOT_COMMITED
        else Ok NOT_COMMITED.
Proof.
  intros Hc. unfold EVMSwapProgram.getCommitStatus.
  rewrite Hc, bind_Ok.
  rewrite (fromNumber_safe 256) by (unfold BigNumber.MAX_SAFE; lia).
  rewrite !bind_Ok. reflexivity.
Qed.

Lemma getPaymentHashStatus_cases (env : Env) (hash : string) (commitNum : Z) :
  BigNumber.fromString (getCommitment env ("0x" ++ hash)%string) = Ok commitNum ->
  EVMSwapProgram.getPaymentHashStatus env hash
  = Ok (if commitNum =? 256 then PAID
        else if commitNum <? 256 then NOT_COMMITED else COMMITED).
Proof.
  intros Hc. unfold EVMSwapProgram.getPaymentHashStatus.
  rewrite Hc, bind_Ok.
  rewrite (fromNumber_safe 256) by (unfold BigNumber.MAX_SAFE; lia).
  rewrite !bind_Ok.
  destruct (commitNum =? 256); [reflexivity|].
  destruct (commitNum <? 256); reflexivity.
Qed.

Ltac result_cases H :=
  repeat match type of H with
    | bind ?c _ = _ => destruct c eqn:?; cbn [bind] in H
    | (if ?b then _ else _) = _ => destruct b eqn:?
    end;
  try discriminate H.

(** X5.  For a swap whose payment hash is written with 0x and whose stored
    commitment reads as a number, getPaymentHashStatus (on the hash that
    getHash returns) and getCommitStatus agree on what is paid and on what is
    committed: one reports PAID exactly when the other does; getCommitStatus
    answers EXPIRED or NOT_COMMITED whenever getPaymentHashStatus answers
    NOT_COMMITED; and getCommitStatus answers COMMITED or REFUNDABLE only
    when getPaymentHashStatus answers COMMITED.  getPaymentHashStatus never
    answers EXPIRED or REFUNDABLE. *)
Theorem X5_payment_hash_status_agrees (env : Env) (swap : EVMSwapData)
    (hash : string) (commitNum : Z) :
  paymentHash swap = ("0x" ++ hash)%string ->
  BigNumber.fromString (getCommitment env (paymentHash swap)) = Ok commitNum ->
  let byHash := EVMSwapProgram.getPaymentHashStatus env (EVMSwapData.getHash swap) in
  let bySwap := EVMSwapProgram.getCommitStatus env swap in
  (exists status, byHash = Ok status /\ status <> EXPIRED /\ status <> REFUNDABLE)
  /\ (bySwap = Ok PAID <-> byHash = Ok PAID)
  /\ (byHash = Ok NOT_COMMITED ->
      forall status, bySwap = Ok status -> status = EXPIRED \/ status = NOT_COMMITED)
  /\ (bySwap = Ok COMMITED \/ bySwap = Ok REFUNDABLE -> byHash = Ok COMMITED).
Proof.
  intros Hph Hc byHash bySwap.
  assert (Hh : byHash
               = Ok (if commitNum =? 256 then PAID
                     else if commitNum <? 256 then NOT_COMMITED else COMMITED)).
  { unfold byHash, EVMSwapData.getHash. rewrite Hph, substring2_0x.
    apply getPaymentHashStatus_cases. rewrite <- Hph. exact Hc. }
  pose proof (getCommitStatus_cases env swap commitNum Hc) as Hs.
  fold bySwap in Hs. rewrite Hh. clearbody byHash bySwap.
  assert (Hex : forall st, st <> EXPIRED -> st <> REFUNDABLE ->
            exists status, Ok st = Ok status /\ status <> EXPIRED
                           /\ status <> REFUNDABLE)
    by (intros st H1 H2; exists st; auto).
  destruct (commitNum =? 256) eqn:E1; [|destruct (commitNum <? 256) eqn:E2].
  - split; [apply Hex; discriminate|].
    split; [rewrite Hs; split; reflexivity|].
    split; [discriminate|].
    intros [H|H]; rewrite Hs in H; discriminate.
  - split; [apply Hex; discriminate|].
    split; [split; [intros H; rewrite Hs in H; result_cases H | discriminate]|].
    split.
    + intros _ status H. rewrite Hs in H. result_cases H; injection H as <-; auto.
    + intros [H|H]; rewrite Hs in H; result_cases H.
  - split; [apply Hex; discriminate|].
    split; [split; [intros H; rewrite Hs in H; result_cases H | discriminate]|].
    split; [discriminate|].
    intros _. reflexivity.
Qed.

Lemma X5_payment_hash_status_agrees_witness :
  EVMSwapProgram.getPaymentHashStatus
    (exampleEnv "0xa1" 1000000000
       "0x0000000000000000000000000000000000000000000000000000000000000100" None)
    (EVMSwapData.getHash
       (exampleSwap "0xa1" "0xb2" (packedLayout 999000 1 0 0 false true 0)))
  = Ok PAID.
Proof.
  apply (proj1 (proj1 (proj2 (X5_payment_hash_status_agrees
           (exampleEnv "0xa1" 1000000000
              "0x0000000000000000000000000000000000000000000000000000000000000100" None)
           (exampleSwap "0xa1" "0xb2" (packedLayout 999000 1 0 0 false true 0))
           "11" 256 eq_refl eq_refl)))).
  reflexivity.
Defined.

Lemma committed_of_eq (env : Env) (swap : EVMSwapData) (h : string) :
  EVMSwapProgram.getCommitHash env swap = Ok h ->
  String.eqb (getCommitment env (paymentHash swap)) h = true ->
  EVMSwapProgram.getCommitHash env swap = Ok (getCommitment env (paymentHash swap))
  /\ EVMSwapProgram.isCommited env swap = Ok true.
Proof.
  intros Hh Heq. apply String.eqb_eq in Heq. subst h.
  split; [exact Hh|]. unfold EVMSwapProgram.isCommited.
  rewrite Hh, bind_Ok, String.eqb_refl. reflexivity.
Qed.

(** X6.  When getCommitStatus answers COMMITED or REFUNDABLE, the commitment
    stored at the swap's payment hash is the swap's commit hash (isCommited
    answers true); and it answers REFUNDABLE only for the offerer of an
    expired swap. *)
Theorem X6_committed_status_means_committed (env : Env) (swap : EVMSwapData) :
  (EVMSwapProgram.getCommitStatus env swap = Ok COMMITED
   \/ EVMSwapProgram.getCommitStatus env swap = Ok REFUNDABLE ->
   EVMSwapProgram.getCommitHash env swap = Ok (getCommitment env (paymentHash swap))
   /\ EVMSwapProgram.isCommited env swap = Ok true)
  /\ (EVMSwapProgram.getCommitStatus env swap = Ok REFUNDABLE ->
      EVMSwapProgram.areWeOfferer env swap = true
      /\ EVMSwapProgram.isExpired env swap = Ok true).
Proof.
  destruct (BigNumber.fromString (getCommitment env (paymentHash swap)))
    as [commitNum|e] eqn:Hc.
  - pose proof (getCommitStatus_cases env swap commitNum Hc) as Hs.
    split.
    + intros [H|H]; rewrite Hs in H; result_cases H;
        match goal with
        | Hh : EVMSwapProgram.getCommitHash env swap = Ok ?a,
          He : String.eqb _ ?a = true |- _ =>
            rewrite <- Hh; exact (committed_of_eq _ _ _ Hh He)
        end.
    + intros H. rewrite Hs in H. result_cases H.
      split; reflexivity.
  - unfold EVMSwapProgram.getCommitStatus. rewrite Hc. cbn [bind].
    split; [intros [H|H]; discriminate | discriminate].
Qed.

(* ------------------------------------------------------------------ *)
(** ** isClaimable and isRequestRefundable *)

Lemma isRequestRefundable_inv (env : Env) (swap : EVMSwapData) :
  EVMSwapProgram.isRequestRefundable env swap = Ok true ->
  EVMSwapProgram.areWeOfferer env swap = true
  /\ (exists expiry, EVMSwapData.getExpiry swap = Ok expiry
                     /\ expiry < nowSeconds env - refundGracePeriod)
  /\ EVMSwapProgram.isCommited env swap = Ok true.
Proof.
  unfold EVMSwapProgram.isRequestRefundable. intros H.
  destruct (EVMSwapProgram.areWeOfferer env swap); [|discriminate].
  cbn [negb] in H.
  destruct (EVMSwapData.getExpiry swap) as [expiry|e]; [|discriminate].
  cbn [bind] in H.
  destruct (Z.ltb_spec expiry (nowSeconds env - refundGracePeriod)); [|discriminate].
  cbn [negb] in H. split; [reflexivity|]. split; [|exact H].
  exists expiry. split; [reflexivity | assumption].
Qed.

Lemma isClaimable_inv (env : Env) (swap : EVMSwapData) :
  EVMSwapProgram.isClaimable env swap = Ok true ->
  EVMSwapProgram.areWeClaimer env swap = true
  /\ EVMSwapProgram.isExpired env swap = Ok false
  /\ EVMSwapProgram.isCommited env swap = Ok true.
Proof.
  unfold EVMSwapProgram.isClaimable. intros H.
  destruct (EVMSwapProgram.areWeClaimer env swap); [|discriminate].
  cbn [negb] in H.
  destruct (EVMSwapProgram.isExpired env swap) as [[|]|e]; try discriminate.
  cbn [bind] in H. repeat split. exact H.
Qed.

Lemma isCommited_true (env : Env) (swap : EVMSwapData) :
  EVMSwapProgram.isCommited env swap = Ok true ->
  EVMSwapProgram.getCommitHash env swap = Ok (getCommitment env (paymentHash swap)).
Proof.
  unfold EVMSwapProgram.isCommited. intros H.
  destruct (EVMSwapProgram.getCommitHash env swap) as [h|e]; [|discriminate].
  cbn [bind] in H. injection H as H. apply String.eqb_eq in H. subst h. reflexivity.
Qed.

(** X7.  A swap is never claimable and refundable at once, also for a caller
    who is offerer and claimer of the swap: when isClaimable answers true,
    isRequestRefundable answers false, and when isRequestRefundable answers
    true, isClaimable answers false. *)
Theorem X7_claimable_excludes_refundable (env : Env) (swap : EVMSwapData) :
  (EVMSwapProgram.isClaimable env swap = Ok true ->
   EVMSwapProgram.isRequestRefundable env swap = Ok false)
  /\ (EVMSwapProgram.isRequestRefundable env swap = Ok true ->
      EVMSwapProgram.isClaimable env swap = Ok false).
Proof.
  split; intros H.
  - destruct (isClaimable_inv _ _ H) as (Hcl & Hexp & _).
    unfold EVMSwapProgram.isRequestRefundable.
    destruct (EVMSwapProgram.areWeOfferer env swap) eqn:Hof; [|reflexivity].
    cbn [negb].
    destruct (EVMSwapData.getExpiry swap) as [expiry|e] eqn:He.
    + rewrite (isExpired_spec env swap expiry He), Hcl in Hexp.
      injection Hexp as Hexp. apply Z.ltb_ge in Hexp. rewrite bind_Ok.
      destruct (Z.ltb_spec expiry (nowSeconds env - refundGracePeriod));
        [unfold claimGracePeriod, refundGracePeriod in *; lia | reflexivity].
    + unfold EVMSwapProgram.isExpired in Hexp. rewrite He in Hexp. discriminate.
  - destruct (isRequestRefundable_inv _ _ H) as (Hof & (expiry & He & Hlt) & _).
    unfold EVMSwapProgram.isClaimable.
    destruct (EVMSwapProgram.areWeClaimer env swap) eqn:Hcl; [|reflexivity].
    cbn [negb]. rewrite (isExpired_spec env swap expiry He), Hcl, bind_Ok.
    destruct (Z.ltb_spec expiry (nowSeconds env + claimGracePeriod));
      [reflexivity | unfold claimGracePeriod, refundGracePeriod in *; lia].
Qed.

Lemma X7_claimable_excludes_refundable_witness :
  EVMSwapProgram.isRequestRefundable
    (exampleEnv "0xb2" 1000000000
       "0x0100000000000000000000000100000000000f50500000000000000000000000" None)
    (exampleSwap "0xb2" "0xb2" (packedLayout 1003600 1 0 0 false true 0))
  = Ok false.
Proof.
  apply (proj1 (X7_claimable_excludes_refundable
           (exampleEnv "0xb2" 1000000000
              "0x0100000000000000000000000100000000000f50500000000000000000000000"
              None)
           (exampleSwap "0xb2" "0xb2" (packedLayout 1003600 1 0 0 false true 0)))).
  vm_compute. reflexivity.
Defined.

(** X8.  The two readiness checks agree with getCommitStatus.  For a swap
    whose stored commitment reads as a number above 0x100: when
    isRequestRefundable answers true, getCommitStatus answers REFUNDABLE; when
    isClaimable answers true, getCommitStatus answers COMMITED. *)
Theorem X8_readiness_agrees_with_status (env : Env) (swap : EVMSwapData)
    (commitNum : Z) :
  BigNumber.fromString (getCommitment env (paymentHash swap)) = Ok commitNum ->
  256 < commitNum ->
  (EVMSwapProgram.isRequestRefundable env swap = Ok true ->
   EVMSwapProgram.getCommitStatus env swap = Ok REFUNDABLE)
  /\ (EVMSwapProgram.isClaimable env swap = Ok true ->
      EVMSwapProgram.getCommitStatus env swap = Ok COMMITED).
Proof.
  intros Hc Hhigh.
  pose proof (getCommitStatus_cases env swap commitNum Hc) as Hs.
  destruct (Z.eqb_spec commitNum 256) as [?Heq|?Hne]; [lia|].
  destruct (Z.ltb_spec commitNum 256) as [?Hlt|?Hge]; [lia|].
  split; intros H.
  - destruct (isRequestRefundable_inv _ _ H) as (Hof & (expiry & He & Hlt) & Hcm).
    rewrite (isCommited_true _ _ Hcm), bind_Ok, String.eqb_refl, Hof in Hs.
    rewrite (isExpired_spec env swap expiry He), bind_Ok, Hof in Hs.
    rewrite Hs.
    replace (expiry <? _) with true; [reflexivity|].
    symmetry. apply Z.ltb_lt.
    destruct (EVMSwapProgram.areWeClaimer env swap);
      unfold claimGracePeriod, refundGracePeriod in *; lia.
  - destruct (isClaimable_inv _ _ H) as (Hcl & Hexp & Hcm).
    rewrite (isCommited_true _ _ Hcm), bind_Ok, String.eqb_refl, Hexp, bind_Ok in Hs.
    rewrite Hs. destruct (EVMSwapProgram.areWeOfferer env swap); reflexivity.
Qed.

Lemma X8_readiness_agrees_with_status_witness :
  EVMSwapProgram.getCommitStatus
    (exampleEnv "0xa1" 1000000000
       "0x0100000000000000000000000100000000000f3e580000000000000000000000" None)
    (exampleSwap "0xa1" "0xb2" (packedLayout 999000 1 0 0 false true 0))
  = Ok REFUNDABLE.
Proof.
  refine (proj1 (X8_readiness_agrees_with_status
           (exampleEnv "0xa1" 1000000000
              "0x0100000000000000000000000100000000000f3e580000000000000000000000"
              None)
           (exampleSwap "0xa1" "0xb2" (packedLayout 999000 1 0 0 false true 0))
           452312848583266388373324160195896130822660026299916408680652824132716593152
           _ _) _).
  - vm_compute. reflexivity.
  - vm_compute. reflexivity.
  - vm_compute. reflexivity.
Defined.

Lemma X6_committed_status_means_committed_witness :
  EVMSwapProgram.isCommited
    (exampleEnv "0xa1" 1000000000
       "0x0100000000000000000000000100000000000f3e580000000000000000000000" None)
    (exampleSwap "0xa1" "0xb2" (packedLayout 999000 1 0 0 false true 0))
  = Ok true.
Proof.
  apply (proj1 (X6_committed_status_means_committed
           (exampleEnv "0xa1" 1000000000
              "0x0100000000000000000000000100000000000f3e580000000000000000000000"
              None)
           (exampleSwap "0xa1" "0xb2" (packedLayout 999000 1 0 0 false true 0)))).
  right. vm_compute. reflexivity.
Defined.

(* ------------------------------------------------------------------ *)
(** ** The verifiers, rule by rule *)

(** X9.  isValidInitAuthorization checks its rules in order and reports the
    first one that fails: a prefix other than "initialize" gives "Invalid
    prefix"; then a timeout less than auth_grace_period ahead gives
    "Authorization expired!"; then a swap expiry less than auth_grace_period +
    claim_grace_period ahead gives "Swap will expire too soon!"; then a stored
    commitment that differs from the swap's index gives "Invalid nonce!"; then
    a recovered signer other than the swap's offerer (letter case aside) gives
    "Invalid signature!"; and when every rule holds the signed message is
    returned. *)
Theorem X9_init_authorization_rules (env : Env) (swap : EVMSwapData)
    (timeout prefix signature : string) (nonce : Z) :
  let verdict :=
    EVMSwapProgram.isValidInitAuthorization env swap timeout prefix signature nonce in
  (prefix <> "initialize" ->
   verdict = Throw (SignatureVerificationError "Invalid prefix"))
  /\ (prefix = "initialize" ->
      forall t, BN.ofString timeout = Ok t ->
      (t - nowSeconds env < authGracePeriod ->
       verdict = Throw (SignatureVerificationError "Authorization expired!"))
      /\ (authGracePeriod <= t - nowSeconds env ->
          forall expiry, EVMSwapData.getExpiry swap = Ok expiry ->
          (expiry - nowSeconds env < authGracePeriod + claimGracePeriod ->
           verdict = Throw (SignatureVerificationError "Swap will expire too soon!"))
          /\ (authGracePeriod + claimGracePeriod <= expiry - nowSeconds env ->
              forall commitNum index,
              BigNumber.fromString (getCommitment env (paymentHash swap))
              = Ok commitNum ->
              EVMSwapData.getIndex swap = Ok index ->
              (commitNum <> index ->
               verdict = Throw (SignatureVerificationError "Invalid nonce!"))
              /\ (commitNum = index ->
                  forall message recovered,
                  EVMSwapProgram.getInitMessage env swap nonce prefix timeout
                  = Ok message ->
                  verifyMessage env message signature = Some recovered ->
                  (toLowerCase recovered <> toLowerCase (offerer swap) ->
                   verdict = Throw (SignatureVerificationError "Invalid signature!"))
                  /\ (toLowerCase recovered = toLowerCase (offerer swap) ->
                      verdict = Ok message))))).
Proof.
  intros verdict. unfold verdict, EVMSwapProgram.isValidInitAuthorization. split.
  - intros Hp. apply String.eqb_neq in Hp. rewrite Hp. reflexivity.
  - intros -> t Ht. change (String.eqb "initialize" "initialize") with true.
    cbn [negb]. rewrite Ht, bind_Ok.
    destruct (Z.ltb_spec (t - nowSeconds env) authGracePeriod) as [Hexp|Hfresh];
      (split; [intros ?; try lia; try reflexivity | intros ?; try lia]).
    intros expiry He. rewrite He, bind_Ok.
    destruct (Z.ltb_spec (expiry - nowSeconds env) (authGracePeriod + claimGracePeriod))
      as [Hsoon|Hlate];
      (split; [intros ?; try lia; try reflexivity | intros ?; try lia]).
    intros commitNum index Hc Hi.
    destruct (getIndex_inv _ _ Hi) as [Hd Hidx].
    pose proof (bitField_bounds (data swap) 168 8 ltac:(lia)) as Hb.
    rewrite <- Hidx in Hb.
    rewrite Hc, bind_Ok, Hi, bind_Ok.
    rewrite (fromNumber_safe index) by (unfold BigNumber.MAX_SAFE; lia).
    rewrite bind_Ok.
    destruct (Z.eqb_spec commitNum index) as [Heq|Hne]; cbn [negb];
      (split; [intros ?; try contradiction; try reflexivity
              | intros ?; try contradiction]).
    intros message recovered Hm Hv. rewrite Hm, bind_Ok, Hv.
    cbn [library]. rewrite bind_Ok.
    destruct (String.eqb_spec (toLowerCase recovered) (toLowerCase (offerer swap)));
      cbn [negb]; split; intros ?; try contradiction; reflexivity.
Qed.

(** X10.  isValidClaimInitAuthorization checks its rules in order and reports
    the first one that fails: a prefix other than "claim_initialize" gives
    "Invalid prefix"; then a timeout less than auth_grace_period ahead gives
    "Authorization expired!"; then a stored commitment that differs from the
    swap's index gives "Invalid nonce!"; then a recovered signer other than
    the swap's claimer (letter case aside) gives "Invalid signature!"; and
    when every rule holds the signed message is returned.  The swap's expiry
    is not looked at. *)
Theorem X10_claim_init_authorization_rules (env : Env) (swap : EVMSwapData)
    (timeout prefix signature : string) (nonce : Z) :
  let verdict :=
    EVMSwapProgram.isValidClaimInitAuthorization env swap timeout prefix signature
      nonce in
  (prefix <> "claim_initialize" ->
   verdict = Throw (SignatureVerificationError "Invalid prefix"))
  /\ (prefix = "claim_initialize" ->
      forall t, BN.ofString timeout = Ok t ->
      (t - nowSeconds env < authGracePeriod ->
       verdict = Throw (SignatureVerificationError "Authorization expired!"))
      /\ (authGracePeriod <= t - nowSeconds env ->
          forall commitNum index,
          BigNumber.fromString (getCommitment env (paymentHash swap)) = Ok commitNum ->
          EVMSwapData.getIndex swap = Ok index ->
          (commitNum <> index ->
           verdict = Throw (SignatureVerificationError "Invalid nonce!"))
          /\ (commitNum = index ->
              forall message recovered,
              EVMSwapProgram.getClaimInitMessage env swap nonce prefix timeout
              = Ok message ->
              verifyMessage env message signature = Some recovered ->
              (toLowerCase recovered <> toLowerCase (claimer swap) ->
               verdict = Throw (SignatureVerificationError "Invalid signature!"))
              /\ (toLowerCase recovered = toLowerCase (claimer swap) ->
                  verdict = Ok message)))).
Proof.
  intros verdict. unfold verdict, EVMSwapProgram.isValidClaimInitAuthorization. split.
  - intros Hp. apply String.eqb_neq in Hp. rewrite Hp. reflexivity.
  - intros -> t Ht. change (String.eqb "claim_initialize" "claim_initialize") with true.
    cbn [negb]. rewrite Ht, bind_Ok.
    destruct (Z.ltb_spec (t - nowSeconds env) authGracePeriod) as [Hexp|Hfresh];
      (split; [intros ?; try lia; try reflexivity | intros ?; try lia]).
    intros commitNum index Hc Hi.
    destruct (getIndex_inv _ _ Hi) as [Hd Hidx].
    pose proof (bitField_bounds (data swap) 168 8 ltac:(lia)) as Hb.
    rewrite <- Hidx in Hb.
    rewrite Hc, bind_Ok, Hi, bind_Ok.
    rewrite (fromNumber_safe index) by (unfold BigNumber.MAX_SAFE; lia).
    rewrite bind_Ok.
    destruct (Z.eqb_spec commitNum index) as [Heq|Hne]; cbn [negb];
      (split; [intros ?; try contradiction; try reflexivity
              | intros ?; try contradiction]).
    intros message recovered Hm Hv. rewrite Hm, bind_Ok, Hv.
    cbn [library]. rewrite bind_Ok.
    destruct (String.eqb_spec (toLowerCase recovered) (toLowerCase (claimer swap)));
      cbn [negb]; split; intros ?; try contradiction; reflexivity.
Qed.

Lemma X9_init_authorization_rules_witness :
  exists message : list byte,
    EVMSwapProgram.isValidInitAuthorization
      (exampleEnv "0xB2" 1000000000
         "0x0000000000000000000000000000000000000000000000000000000000000006"
         (Some "0xA1"))
      (exampleSwap "0xa1" "0xb2" (packedLayout 1003600 1 0 0 false true 6))
      "1000400" "initialize" "0xsignature" 6
    = Ok message.
Proof.
  destruct (X9_init_authorization_rules
              (exampleEnv "0xB2" 1000000000
                 "0x0000000000000000000000000000000000000000000000000000000000000006"
                 (Some "0xA1"))
              (exampleSwap "0xa1" "0xb2" (packedLayout 1003600 1 0 0 false true 6))
              "1000400" "initialize" "0xsignature" 6) as [_ H].
  destruct (H eq_refl 1000400 eq_refl) as [_ H1].
  destruct (H1 ltac:(vm_compute; congruence) 1003600 eq_refl) as [_ H2].
  destruct (H2 ltac:(vm_compute; congruence) 6 6 eq_refl eq_refl) as [_ H3].
  eexists.
  refine (proj2 (H3 eq_refl _ "0xA1" _ _) _).
  - vm_compute. reflexivity.
  - reflexivity.
  - reflexivity.
Defined.

Lemma X10_claim_init_authorization_rules_witness :
  exists message : list byte,
    EVMSwapProgram.isValidClaimInitAuthorization
      (exampleEnv "0xA1" 1000000000
         "0x0000000000000000000000000000000000000000000000000000000000000006"
         (Some "0xB2"))
      (exampleSwap "0xa1" "0xb2" (packedLayout 1000100 1 0 0 false true 6))
      "1000400" "claim_initialize" "0xsignature" 6
    = Ok message.
Proof.
  destruct (X10_claim_init_authorization_rules
              (exampleEnv "0xA1" 1000000000
                 "0x0000000000000000000000000000000000000000000000000000000000000006"
                 (Some "0xB2"))
              (exampleSwap "0xa1" "0xb2" (packedLayout 1000100 1 0 0 false true 6))
              "1000400" "claim_initialize" "0xsignature" 6) as [_ H].
  destruct (H eq_refl 1000400 eq_refl) as [_ H1].
  destruct (H1 ltac:(vm_compute; congruence) 6 6 eq_refl eq_refl) as [_ H3].
  eexists.
  refine (proj2 (H3 eq_refl _ "0xB2" _ _) _).
  - vm_compute. reflexivity.
  - reflexivity.
  - reflexivity.
Defined.

(* ------------------------------------------------------------------ *)
(** ** setUsAsClaimer and setUsAsOfferer *)

Lemma below_pow2_of_bits (x n : Z) :
  0 <= n -> 0 <= x -> (forall i, n <= i -> Z.testbit x i = false) -> x < 2 ^ n.
Proof.
  intros Hn Hx Hbits.
  assert (Hmod : x mod 2 ^ n = x).
  { apply Z.bits_inj'. intros i Hi. rewrite Z.testbit_mod_pow2 by lia.
    destruct (Z.ltb_spec i n); [reflexivity|]. simpl. symmetry. apply Hbits. lia. }
  rewrite <- Hmod. apply Z.mod_pos_bound. lia.
Qed.

Lemma setPayIn_range (d : Z) (b : bool) :
  0 <= d < 2 ^ 176 ->
  0 <= Z.lor (Z.land d (Z.lor (Z.ones 152) (Z.shiftl (Z.ones 16) 160)))
             (Z.shiftl (boolNumber b) 152) < 2 ^ 176.
Proof.
  intros Hd. pose proof (boolNumber_bounds b) as Hb. split; [bn_nonneg|].
  apply below_pow2_of_bits; [lia | bn_nonneg |].
  intros i Hi. rewrite setPayIn_bits by exact Hd.
  destruct (Z.leb_spec 152 i), (Z.ltb_spec i 160); simpl; try lia.
  apply testbit_above with 176; lia.
Qed.

Ltac flag_field Hbits :=
  apply bitField_flag; [lia|];
  let i := fresh "i" in
  intros i; rewrite Hbits;
  match goal with
  | |- (if ?c then _ else _) = _ => destruct c; reflexivity
  end.

Lemma setPayIn_fields (swap : EVMSwapData) (b : bool) :
  0 <= data swap < 2 ^ 176 ->
  exists changed : EVMSwapData,
    EVMSwapData.setPayIn swap b = Ok changed
    /\ 0 <= data changed < 2 ^ 176
    /\ changed = EVMSwapData.withData swap (data changed)
    /\ bitField (data changed) 152 8 = boolNumber b
    /\ bitField (data changed) 0 64 = bitField (data swap) 0 64
    /\ bitField (data changed) 64 64 = bitField (data swap) 64 64
    /\ bitField (data changed) 128 16 = bitField (data swap) 128 16
    /\ bitField (data changed) 144 8 = bitField (data swap) 144 8
    /\ bitField (data changed) 160 8 = bitField (data swap) 160 8
    /\ bitField (data changed) 168 8 = bitField (data swap) 168 8.
Proof.
  intros Hd. eexists. split; [apply setPayIn_data; lia|].
  cbn [data EVMSwapData.withData].
  split; [apply setPayIn_range; exact Hd|]. split; [reflexivity|].
  assert (H1 : forall i,
    Z.testbit (Z.lor (Z.land (data swap)
                        (Z.lor (Z.ones 152) (Z.shiftl (Z.ones 16) 160)))
                 (Z.shiftl (boolNumber b) 152)) i
    = if (152 <=? i) && (i <? 152 + 8) then (i =? 152) && b
      else Z.testbit (data swap) i)
    by (intros i; apply setPayIn_bits; exact Hd).
  split.
  { apply bitField_flag; [lia|]. intros i. rewrite H1.
    destruct ((152 <=? i) && (i <? 152 + 8)); reflexivity. }
  change (152 + 8) with 160 in H1.
  repeat split; frame_field H1.
Qed.

Lemma setPayOut_fields (swap : EVMSwapData) (b : bool) :
  0 <= data swap < 2 ^ 176 ->
  exists changed : EVMSwapData,
    EVMSwapData.setPayOut swap b = Ok changed
    /\ changed = EVMSwapData.withData swap (data changed)
    /\ bitField (data changed) 160 8 = boolNumber b
    /\ bitField (data changed) 0 64 = bitField (data swap) 0 64
    /\ bitField (data changed) 64 64 = bitField (data swap) 64 64
    /\ bitField (data changed) 128 16 = bitField (data swap) 128 16
    /\ bitField (data changed) 144 8 = bitField (data swap) 144 8
    /\ bitField (data changed) 152 8 = bitField (data swap) 152 8
    /\ bitField (data changed) 168 8 = bitField (data swap) 168 8
    /\ 0 <= data changed.
Proof.
  intros Hd. pose proof (boolNumber_bounds b) as Hb.
  eexists. split; [apply setPayOut_data; lia|].
  cbn [data EVMSwapData.withData]. split; [reflexivity|].
  assert (H2 : forall i,
    Z.testbit (Z.lor (Z.land (data swap)
                        (Z.lor (Z.ones 160) (Z.shiftl (Z.ones 8) 168)))
                 (Z.shiftl (boolNumber b) 160)) i
    = if (160 <=? i) && (i <? 160 + 8) then (i =? 160) && b
      else Z.testbit (data swap) i)
    by (intros i; apply setPayOut_bits; exact Hd).
  split.
  { apply bitField_flag; [lia|]. intros i. rewrite H2.
    destruct ((160 <=? i) && (i <? 160 + 8)); reflexivity. }
  change (160 + 8) with 168 in H2.
  repeat split; try frame_field H2. bn_nonneg.
Qed.

(** X11.  On a swap whose data word is below 2^176, setUsAsClaimer makes the
    caller the claimer, clears pay_in and sets pay_out; setUsAsOfferer makes
    the caller the offerer and sets pay_in, leaving pay_out as it was.  Both
    leave the other party, the expiry, the escrow nonce, the confirmations,
    the kind and the index unchanged. *)
Theorem X11_setUsAsClaimer_setUsAsOfferer (env : Env) (swap : EVMSwapData) :
  0 <= data swap < 2 ^ 176 ->
  (exists asClaimer : EVMSwapData,
     EVMSwapProgram.setUsAsClaimer env swap = Ok asClaimer
     /\ claimer asClaimer = address env
     /\ EVMSwapProgram.areWeClaimer env asClaimer = true
     /\ offerer asClaimer = offerer swap
     /\ EVMSwapData.isPayIn asClaimer = Ok false
     /\ EVMSwapData.isPayOut asClaimer = Ok true
     /\ EVMSwapData.getExpiry asClaimer = EVMSwapData.getExpiry swap
     /\ EVMSwapData.getEscrowNonce asClaimer = EVMSwapData.getEscrowNonce swap
     /\ EVMSwapData.getConfirmations asClaimer = EVMSwapData.getConfirmations swap
     /\ EVMSwapData.getKind asClaimer = EVMSwapData.getKind swap
     /\ EVMSwapData.getIndex asClaimer = EVMSwapData.getIndex swap)
  /\ (exists asOfferer : EVMSwapData,
        EVMSwapProgram.setUsAsOfferer env swap = Ok asOfferer
        /\ offerer asOfferer = address env
        /\ EVMSwapProgram.areWeOfferer env asOfferer = true
        /\ claimer asOfferer = claimer swap
        /\ EVMSwapData.isPayIn asOfferer = Ok true
        /\ EVMSwapData.isPayOut asOfferer = EVMSwapData.isPayOut swap
        /\ EVMSwapData.getExpiry asOfferer = EVMSwapData.getExpiry swap
        /\ EVMSwapData.getEscrowNonce asOfferer = EVMSwapData.getEscrowNonce swap
        /\ EVMSwapData.getConfirmations asOfferer = EVMSwapData.getConfirmations swap
        /\ EVMSwapData.getKind asOfferer = EVMSwapData.getKind swap
        /\ EVMSwapData.getIndex asOfferer = EVMSwapData.getIndex swap).
Proof.
  intros Hd. split.
  - unfold EVMSwapProgram.setUsAsClaimer.
    destruct (setPayIn_fields (EVMSwapProgram.withClaimer swap (address env)) false Hd)
      as (s1 & H1 & Hd1 & Hs1 & Hin1 & He1 & Hn1 & Hc1 & Hk1 & Ho1 & Hi1).
    destruct (setPayOut_fields s1 true Hd1)
      as (s2 & H2 & Hs2 & Hout2 & He2 & Hn2 & Hc2 & Hk2 & Hin2 & Hi2 & Hd2).
    rewrite H1, bind_Ok, H2. exists s2. split; [reflexivity|].
    cbn [data EVMSwapProgram.withClaimer] in *.
    assert (Hcl : claimer s2 = address env) by (rewrite Hs2, Hs1; reflexivity).
    split; [exact Hcl|].
    split; [unfold EVMSwapProgram.areWeClaimer; rewrite Hcl; apply String.eqb_refl|].
    split; [rewrite Hs2, Hs1; reflexivity|].
    rewrite !getExpiry_spec, !getEscrowNonce_spec, !getConfirmations_spec,
      !getKind_spec, !isPayIn_spec, !isPayOut_spec, !getIndex_spec by lia.
    rewrite Hout2, Hin2, Hin1, He2, He1, Hn2, Hn1, Hc2, Hc1, Hk2, Hk1, Hi2, Hi1.
    repeat split; reflexivity.
  - unfold EVMSwapProgram.setUsAsOfferer.
    destruct (setPayIn_fields (EVMSwapProgram.withOfferer swap (address env)) true Hd)
      as (s1 & H1 & Hd1 & Hs1 & Hin1 & He1 & Hn1 & Hc1 & Hk1 & Ho1 & Hi1).
    rewrite H1. exists s1. split; [reflexivity|].
    cbn [data EVMSwapProgram.withOfferer] in *.
    assert (Hof : offerer s1 = address env) by (rewrite Hs1; reflexivity).
    split; [exact Hof|].
    split; [unfold EVMSwapProgram.areWeOfferer; rewrite Hof; apply String.eqb_refl|].
    split; [rewrite Hs1; reflexivity|].
    rewrite !getExpiry_spec, !getEscrowNonce_spec, !getConfirmations_spec,
      !getKind_spec, !isPayIn_spec, !isPayOut_spec, !getIndex_spec by lia.
    rewrite Hin1, He1, Hn1, Hc1, Hk1, Ho1, Hi1.
    repeat split; reflexivity.
Qed.

Lemma X11_setUsAsClaimer_setUsAsOfferer_witness :
  exists asClaimer : EVMSwapData,
    EVMSwapProgram.setUsAsClaimer (exampleEnv "0xC3" 1000000000 "0x00" None)
      (exampleSwap "0xa1" "0xb2" (packedLayout 1003600 1 0 0 true false 6))
    = Ok asClaimer
    /\ claimer asClaimer = "0xC3"
    /\ EVMSwapData.isPayIn asClaimer = Ok false
    /\ EVMSwapData.isPayOut asClaimer = Ok true.
Proof.
  destruct (X11_setUsAsClaimer_setUsAsOfferer
              (exampleEnv "0xC3" 1000000000 "0x00" None)
              (exampleSwap "0xa1" "0xb2" (packedLayout 1003600 1 0 0 true false 6))
              ltac:(vm_compute; split; congruence))
    as [(s & H & Hc & _ & _ & Hin & Hout & _) _].
  exists s. repeat split; assumption.
Defined.

(* ------------------------------------------------------------------ *)
(** ** The relay client: precomputed headers, fees, block hashes *)

Section MainHeaders.
Context {codec : HeaderCodec}.

Lemma chainFrom_length (headers : list EVMBtcHeader) :
  forall s : EVMBtcStoredHeader,
    List.length (EVMBtcRelay.chainFrom s headers) = S (List.length headers).
Proof.
  induction headers as [|h rest IH]; intros s; [reflexivity|].
  cbn [EVMBtcRelay.chainFrom List.length]. rewrite IH. reflexivity.
Qed.

Lemma chainFrom_step (headers : list EVMBtcHeader) :
  forall (s : EVMBtcStoredHeader) (i : nat) (prev : EVMBtcStoredHeader)
         (h : EVMBtcHeader),
    nth_error (EVMBtcRelay.chainFrom s headers) i = Some prev ->
    nth_error headers i = Some h ->
    nth_error (EVMBtcRelay.chainFrom s headers) (S i) = Some (computeNext prev h).
Proof.
  induction headers as [|h0 rest IH]; intros s i prev h Hp Hh.
  - destruct i; discriminate.
  - destruct i as [|i].
    + cbn in Hp, Hh. injection Hp as <-. injection Hh as <-.
      cbn [EVMBtcRelay.chainFrom nth_error].
      destruct rest; reflexivity.
    + cbn [EVMBtcRelay.chainFrom nth_error] in *. apply IH; assumption.
Qed.

(** X12.  saveMainHeaders always returns fork id 0 and a gas limit of
    40000 + 40000 per header.  Its computed headers are one more than the
    headers given: the first is the stored header passed in, each next one is
    computeNext of the one before and the header at that place, and the last
    is the last stored header returned. *)
Theorem X12_saveMainHeaders (mainHeaders : list BtcBlock)
    (storedHeader : EVMBtcStoredHeader) :
  let r := EVMBtcRelay.saveMainHeaders mainHeaders storedHeader in
  let headers := map EVMBtcRelay.serializeBlockHeader mainHeaders in
  EVMBtcRelay.forkId r = 0
  /\ EVMBtcRelay.gasLimit (EVMBtcRelay.tx r)
     = 40000 * (Z.of_nat (List.length mainHeaders) + 1)
  /\ List.length (EVMBtcRelay.computedCommitedHeaders r)
     = S (List.length mainHeaders)
  /\ nth_error (EVMBtcRelay.computedCommitedHeaders r) 0 = Some storedHeader
  /\ (forall i prev h,
        nth_error (EVMBtcRelay.computedCommitedHeaders r) i = Some prev ->
        nth_error headers i = Some h ->
        nth_error (EVMBtcRelay.computedCommitedHeaders r) (S i)
        = Some (computeNext prev h))
  /\ nth_error (EVMBtcRelay.computedCommitedHeaders r) (List.length mainHeaders)
     = Some (EVMBtcRelay.lastStoredHeader r)
  /\ EVMBtcRelay.lastStoredHeader r = fold_left computeNext headers storedHeader.
Proof.
  intros r headers. unfold r, EVMBtcRelay.saveMainHeaders.
  cbn [EVMBtcRelay.forkId EVMBtcRelay.gasLimit EVMBtcRelay.tx
       EVMBtcRelay.computedCommitedHeaders EVMBtcRelay.lastStoredHeader].
  fold headers. rewrite precompute_chainFrom.
  split; [reflexivity|]. split; [lia|].
  split; [rewrite chainFrom_length; unfold headers; rewrite length_map; reflexivity|].
  split; [destruct headers; reflexivity|].
  split; [intros i prev h; apply chainFrom_step|].
  split; [|apply last_chainFrom].
  replace (List.length mainHeaders) with (List.length headers)
    by (unfold headers; apply length_map).
  assert (Hlen := chainFrom_length headers storedHeader).
  destruct (EVMBtcRelay.chainFrom storedHeader headers) as [|x l] eqn:E using rev_ind;
    [discriminate|].
  rewrite last_last. rewrite length_app in Hlen. cbn in Hlen.
  replace (List.length headers) with (List.length l) by lia.
  rewrite nth_error_app2 by lia. rewrite Nat.sub_diag. reflexivity.
Qed.
End MainHeaders.

(** X13.  The synchronization fee is the per-block fee times the number of
    blocks the relay is missing: for a 256-bit tip word and a target height
    above the relay's height (with a gas total that is a safe integer),
    estimateSynchronizeFee returns (target - current) times what
    getFeePerBlock returns. *)
Theorem X13_fee_is_per_block_fee_times_blocks (env : RelayEnv)
    (requiredBlockheight : Z) :
  0 <= highScoreAndBlockHeight env < 2 ^ 256 ->
  let current := highScoreAndBlockHeight env / 2 ^ 224 in
  current < requiredBlockheight ->
  (requiredBlockheight - current) * GAS_PER_BLOCKHEADER < BigNumber.MAX_SAFE ->
  exists perBlock : Z,
    EVMBtcRelay.getFeePerBlock env = Ok perBlock
    /\ perBlock = 35000 * EVMBtcRelay.selectGasPrice env
    /\ EVMBtcRelay.estimateSynchronizeFee env requiredBlockheight
       = Ok ((requiredBlockheight - current) * perBlock).
Proof.
  intros Hw current Habove Hsafe.
  assert (Hc : 0 <= current < 2 ^ 32).
  { unfold current. split; [apply Z.div_pos; lia|].
    apply Z.div_lt_upper_bound; lia. }
  eexists. split; [reflexivity|]. split; [reflexivity|].
  unfold EVMBtcRelay.estimateSynchronizeFee.
  repeat bn_step. rewrite Z.shiftr_div_pow2 by lia. fold current.
  rewrite toNumber_safe by lia. rewrite bind_Ok.
  destruct (Z.leb_spec (requiredBlockheight - current) 0); [lia|].
  unfold GAS_PER_BLOCKHEADER in *.
  rewrite fromNumber_safe by (unfold BigNumber.MAX_SAFE in *; lia).
  rewrite bind_Ok. f_equal. lia.
Qed.

Lemma X13_fee_is_per_block_fee_times_blocks_witness :
  exists perBlock : Z,
    EVMBtcRelay.getFeePerBlock exampleRelay = Ok perBlock
    /\ EVMBtcRelay.estimateSynchronizeFee exampleRelay 840010 = Ok (10 * perBlock).
Proof.
  destruct (X13_fee_is_per_block_fee_times_blocks exampleRelay 840010
              ltac:(vm_compute; split; congruence)
              ltac:(vm_compute; reflexivity)
              ltac:(vm_compute; reflexivity)) as (p & Hp & _ & He).
  exists p. split; [exact Hp | exact He].
Defined.

Lemma hexDigitValue_range (c : ascii) (v : Z) :
  hexDigitValue c = Some v -> 0 <= v < 16.
Proof.
  unfold hexDigitValue. intros H.
  repeat match type of H with
    | (if ?b then _ else _) = _ => destruct b eqn:?
    end; try discriminate; injection H as <-; lia.
Qed.

Lemma bufferToHex_fromHex_fuel (n : nat) :
  forall s : string,
    (String.length s <= n)%nat -> isLowerHexBytes s = true ->
    bufferToHex (bufferFromHex s) = s.
Proof.
  induction n as [|n IH]; intros s Hlen Hs.
  - destruct s; [reflexivity | simpl in Hlen; lia].
  - destruct s as [|c1 [|c2 rest]]; [reflexivity | discriminate |].
    cbn [isLowerHexBytes bufferFromHex] in *.
    destruct (hexDigitValue c1) as [h|] eqn:Hh; [|discriminate].
    destruct (hexDigitValue c2) as [l|] eqn:Hl; [|discriminate].
    apply andb_prop in Hs. destruct Hs as [Hs Hrest].
    apply andb_prop in Hs. destruct Hs as [H1 H2].
    apply Ascii.eqb_eq in H1, H2.
    pose proof (hexDigitValue_range _ _ Hh). pose proof (hexDigitValue_range _ _ Hl).
    cbn [bufferToHex]. rewrite byteValue_byteOfZ by lia.
    replace ((16 * h + l) / 16) with h
      by (rewrite Z.mul_comm, Z.div_add_l, Z.div_small by lia; lia).
    replace ((16 * h + l) mod 16) with l
      by (rewrite Z.add_comm, Z.mul_comm, Z.mod_add by lia; symmetry;
          apply Z.mod_small; lia).
    rewrite H1, H2, IH; [reflexivity | simpl in Hlen; lia | exact Hrest].
Qed.

Lemma bufferToHex_fromHex (s : string) :
  isLowerHexBytes s = true -> bufferToHex (bufferFromHex s) = s.
Proof. apply (bufferToHex_fromHex_fuel (String.length s)). lia. Qed.

(** X14.  serializeBlockHeader stores the block hash, the previous block hash
    and the merkle root with their bytes reversed, and copies version,
    timestamp, nbits and nonce.  For hashes written as lower-case hex bytes,
    reversing the stored bytes and printing them as hex gives the hash of the
    block back: this is the comparison the log scanners make. *)
Theorem X14_serializeBlockHeader_reverses_hashes (e : BtcBlock) :
  isLowerHexBytes (getHash e) = true ->
  isLowerHexBytes (getPrevBlockhash e) = true ->
  isLowerHexBytes (getMerkleRoot e) = true ->
  let header := EVMBtcRelay.serializeBlockHeader e in
  bufferToHex (rev (hash header)) = getHash e
  /\ bufferToHex (rev (reversedPrevBlockhash header)) = getPrevBlockhash e
  /\ bufferToHex (rev (merkleRoot header)) = getMerkleRoot e
  /\ version header = getVersion e /\ timestamp header = getTimestamp e
  /\ nbits header = getNbits e /\ nonce header = getNonce e.
Proof.
  intros Hh Hp Hm header. unfold header, EVMBtcRelay.serializeBlockHeader.
  cbn [hash reversedPrevBlockhash merkleRoot version timestamp nbits nonce].
  rewrite !rev_involutive, !bufferToHex_fromHex by assumption.
  repeat split; reflexivity.
Qed.

Lemma X14_serializeBlockHeader_reverses_hashes_witness :
  bufferToHex (rev (hash (EVMBtcRelay.serializeBlockHeader (exampleBlock 5)))) = "1234"
  /\ hash (EVMBtcRelay.serializeBlockHeader (exampleBlock 5)) = [x34; x12].
Proof.
  split; [|reflexivity].
  apply (X14_serializeBlockHeader_reverses_hashes (exampleBlock 5)); reflexivity.
Defined.

(* ------------------------------------------------------------------ *)
(** ** The relay client: searching the logs *)

Section LogSearch.
Context {codec : HeaderCodec}.
Variable source : EVMBtcRelay.LogSource.
Variable blockData : EVMBtcRelay.BlockData.

Lemma scanLogs_no_match (logs : list EVMBtcRelay.ParsedLog) :
  (forall log, In log logs -> EVMBtcRelay.logMatches blockData log = false) ->
  EVMBtcRelay.scanLogs source blockData logs = EVMBtcRelay.NoMatch.
Proof.
  induction logs as [|log rest IH]; intros H; [reflexivity|].
  cbn [EVMBtcRelay.scanLogs].
  pose proof (H log (or_introl eq_refl)) as Hl. unfold EVMBtcRelay.logMatches in Hl.
  rewrite Hl. apply IH. intros l Hin. apply H. right. exact Hin.
Qed.

Lemma scanLogs_first_match (before after : list EVMBtcRelay.ParsedLog)
    (log : EVMBtcRelay.ParsedLog) :
  (forall l, In l before -> EVMBtcRelay.logMatches blockData l = false) ->
  EVMBtcRelay.logMatches blockData log = true ->
  EVMBtcRelay.scanLogs source blockData (before ++ log :: after)
  = if String.eqb
         (EVMBtcRelay.relayCommitment source
            (EVMBtcRelay.getBlockheight source (EVMBtcRelay.storedHeader log)))
         (EVMBtcRelay.commitmentHash log)
    then EVMBtcRelay.Found (EVMBtcRelay.storedHeader log)
    else EVMBtcRelay.ReturnNull.
Proof.
  intros Hb Hm. induction before as [|l before IH].
  - cbn [app EVMBtcRelay.scanLogs]. unfold EVMBtcRelay.logMatches in Hm. rewrite Hm.
    destruct (String.eqb
                (EVMBtcRelay.relayCommitment source
                   (EVMBtcRelay.getBlockheight source (EVMBtcRelay.storedHeader log)))
                (EVMBtcRelay.commitmentHash log)); reflexivity.
  - cbn [app EVMBtcRelay.scanLogs].
    pose proof (Hb l (or_introl eq_refl)) as Hl. unfold EVMBtcRelay.logMatches in Hl.
    rewrite Hl. apply IH. intros l' Hin. apply Hb. right. exact Hin.
Qed.

Lemma scanLogs_found (logs : list EVMBtcRelay.ParsedLog) (h : EVMBtcStoredHeader) :
  EVMBtcRelay.scanLogs source blockData logs = EVMBtcRelay.Found h ->
  exists log, In log logs /\ EVMBtcRelay.logMatches blockData log = true
              /\ EVMBtcRelay.storedHeader log = h
              /\ EVMBtcRelay.relayCommitment source
                   (EVMBtcRelay.getBlockheight source h)
                 = EVMBtcRelay.commitmentHash log.
Proof.
  induction logs as [|log rest IH]; intros H; [discriminate|].
  cbn [EVMBtcRelay.scanLogs] in H.
  destruct (EVMBtcRelay.isStoreLog log
            && String.eqb (EVMBtcRelay.loggedBlockHash log)
                 (EVMBtcRelay.blockhash blockData)) eqn:Hm.
  - destruct (String.eqb_spec
                (EVMBtcRelay.relayCommitment source
                   (EVMBtcRelay.getBlockheight source (EVMBtcRelay.storedHeader log)))
                (EVMBtcRelay.commitmentHash log)) as [Heq|Hne];
      cbn [negb] in H; [|discriminate].
    injection H as <-. exists log. repeat split; [left; reflexivity | exact Hm | exact Heq].
  - destruct (IH H) as (l & Hin & Hl). exists l. split; [right; exact Hin | exact Hl].
Qed.

Lemma scanWindows_shift (fuel : nat) :
  forall (start : Z) (k : nat),
    EVMBtcRelay.window source (start - EVMBtcRelay.logBlocksLimit source) k = EVMBtcRelay.window source start (S k).
Proof.
  intros start k. unfold EVMBtcRelay.window. f_equal; lia.
Qed.

Lemma scanWindows_found (fuel : nat) :
  forall (start : Z) (h : EVMBtcStoredHeader),
    EVMBtcRelay.scanWindows source blockData fuel start = Some (EVMBtcRelay.Found h) ->
    exists (k : nat) (log : EVMBtcRelay.ParsedLog),
      (k < fuel)%nat /\ In log (EVMBtcRelay.window source start k) /\ EVMBtcRelay.logMatches blockData log = true
      /\ EVMBtcRelay.storedHeader log = h
      /\ EVMBtcRelay.relayCommitment source (EVMBtcRelay.getBlockheight source h)
         = EVMBtcRelay.commitmentHash log.
Proof.
  induction fuel as [|fuel IH]; intros start h H; [discriminate|].
  cbn [EVMBtcRelay.scanWindows] in H.
  destruct (EVMBtcRelay.scanLogs source blockData
              (rev (EVMBtcRelay.getLogs source
                      (start - EVMBtcRelay.logBlocksLimit source) start))) eqn:Hs.
  - injection H as <-. destruct (scanLogs_found _ _ Hs) as (log & Hin & Hl).
    exists 0%nat, log. split; [lia|]. split; [|exact Hl].
    apply in_rev in Hin. unfold EVMBtcRelay.window.
    replace (start - (Z.of_nat 0 + 1) * EVMBtcRelay.logBlocksLimit source)
      with (start - EVMBtcRelay.logBlocksLimit source) by lia.
    replace (start - Z.of_nat 0 * EVMBtcRelay.logBlocksLimit source) with start by lia.
    exact Hin.
  - discriminate.
  - destruct (IH _ _ H) as (k & log & Hk & Hin & Hl).
    exists (S k), log. split; [lia|]. split; [|exact Hl].
    rewrite <- (scanWindows_shift fuel). exact Hin.
Qed.

Lemma scanWindows_skip (k : nat) :
  forall (start : Z) (fuel : nat),
    (forall j log, (j < k)%nat -> In log (EVMBtcRelay.window source start j) -> EVMBtcRelay.logMatches blockData log = false) ->
    EVMBtcRelay.scanWindows source blockData (k + fuel) start
    = EVMBtcRelay.scanWindows source blockData fuel
        (start - Z.of_nat k * EVMBtcRelay.logBlocksLimit source).
Proof.
  induction k as [|k IH]; intros start fuel H.
  - cbn [Nat.add]. f_equal. lia.
  - cbn [Nat.add EVMBtcRelay.scanWindows].
    rewrite scanLogs_no_match.
    + rewrite IH.
      * f_equal. lia.
      * intros j log Hj Hin. apply (H (S j) log); [lia|].
        rewrite <- (scanWindows_shift fuel). exact Hin.
    + intros log Hin. apply in_rev in Hin. apply (H 0%nat log); [lia|].
      unfold EVMBtcRelay.window.
      replace (start - (Z.of_nat 0 + 1) * EVMBtcRelay.logBlocksLimit source)
        with (start - EVMBtcRelay.logBlocksLimit source) by lia.
      replace (start - Z.of_nat 0 * EVMBtcRelay.logBlocksLimit source) with start by lia.
      exact Hin.
Qed.

Lemma relay_height (env : RelayEnv) :
  0 <= highScoreAndBlockHeight env < 2 ^ 256 ->
  (top <- BigNumber.shr (highScoreAndBlockHeight env) 224 ;; BigNumber.toNumber top)
  = Ok (highScoreAndBlockHeight env / 2 ^ 224).
Proof.
  intros Hw.
  assert (Hc : 0 <= highScoreAndBlockHeight env / 2 ^ 224 < 2 ^ 32).
  { split; [apply Z.div_pos; lia|]. apply Z.div_lt_upper_bound; lia. }
  repeat bn_step. rewrite Z.shiftr_div_pow2 by lia.
  rewrite toNumber_safe by lia. reflexivity.
Qed.

Lemma retrieveLogAndBlockheight_unfold (env : RelayEnv) (fuel : nat)
    (requiredBlockheight : option Z) :
  0 <= highScoreAndBlockHeight env < 2 ^ 256 ->
  EVMBtcRelay.retrieveLogAndBlockheight env source fuel blockData requiredBlockheight
  = let blockHeight := highScoreAndBlockHeight env / 2 ^ 224 in
    if blockHeight <? EVMBtcRelay.height blockData then Ok (Some None)
    else if match requiredBlockheight with
            | Some required => blockHeight <? required
            | None => false
            end
    then Ok (Some None)
    else match EVMBtcRelay.scanWindows source blockData fuel
                 (EVMBtcRelay.getBlockNumber source - 1) with
         | None => Ok None
         | Some (EVMBtcRelay.Found header) =>
             Ok (Some (Some {| EVMBtcRelay.retrievedHeader := header;
                               EVMBtcRelay.retrievedHeight := blockHeight |}))
         | Some _ => Ok (Some None)
         end.
Proof.
  intros Hw.
  assert (Hc : 0 <= highScoreAndBlockHeight env / 2 ^ 224 < 2 ^ 32).
  { split; [apply Z.div_pos; lia|]. apply Z.div_lt_upper_bound; lia. }
  unfold EVMBtcRelay.retrieveLogAndBlockheight.
  repeat bn_step. rewrite Z.shiftr_div_pow2 by lia.
  rewrite toNumber_safe by lia. rewrite bind_Ok. reflexivity.
Qed.

(** X15.  With a 256-bit tip word, retrieveLogAndBlockheight returns null
    without reading any log when the relay's height (the top 32 bits) is below
    the block's height or below the required height.  Whatever header it
    returns comes with the relay's height, which is then at least the block's
    height and the required one, and was stored by a StoreHeader or StoreFork
    log of one of the windows looked through, whose byte-reversed block hash
    is the hash asked for and whose commitment hash is the relay's commitment
    at the height the header carries. *)
Theorem X15_retrieved_log_is_committed (env : RelayEnv) (fuel : nat)
    (requiredBlockheight : option Z) :
  0 <= highScoreAndBlockHeight env < 2 ^ 256 ->
  let tip := highScoreAndBlockHeight env / 2 ^ 224 in
  let run := EVMBtcRelay.retrieveLogAndBlockheight env source fuel blockData
               requiredBlockheight in
  (tip < EVMBtcRelay.height blockData -> run = Ok (Some None))
  /\ (forall required, requiredBlockheight = Some required -> tip < required ->
      run = Ok (Some None))
  /\ (forall found, run = Ok (Some (Some found)) ->
      EVMBtcRelay.retrievedHeight found = tip
      /\ EVMBtcRelay.height blockData <= tip
      /\ (forall required, requiredBlockheight = Some required -> required <= tip)
      /\ exists (k : nat) (log : EVMBtcRelay.ParsedLog),
           (k < fuel)%nat
           /\ In log (EVMBtcRelay.window source (EVMBtcRelay.getBlockNumber source - 1) k)
           /\ EVMBtcRelay.isStoreLog log = true
           /\ EVMBtcRelay.loggedBlockHash log = EVMBtcRelay.blockhash blockData
           /\ EVMBtcRelay.storedHeader log = EVMBtcRelay.retrievedHeader found
           /\ EVMBtcRelay.relayCommitment source
                (EVMBtcRelay.getBlockheight source (EVMBtcRelay.retrievedHeader found))
              = EVMBtcRelay.commitmentHash log).
Proof.
  intros Hw tip run. unfold run.
  rewrite retrieveLogAndBlockheight_unfold by exact Hw. cbv zeta. fold tip.
  split; [|split].
  - intros Hlt. destruct (Z.ltb_spec tip (EVMBtcRelay.height blockData)); [reflexivity|lia].
  - intros required -> Hlt.
    destruct (Z.ltb_spec tip (EVMBtcRelay.height blockData)); [reflexivity|].
    destruct (Z.ltb_spec tip required); [reflexivity|lia].
  - intros found H.
    destruct (Z.ltb_spec tip (EVMBtcRelay.height blockData)) as [?Hlt|?Hge];
      [discriminate|].
    assert (Hreq : forall required, requiredBlockheight = Some required -> required <= tip).
    { intros required ->. destruct (Z.ltb_spec tip required); [discriminate|assumption]. }
    assert (Hscan : EVMBtcRelay.scanWindows source blockData fuel
                      (EVMBtcRelay.getBlockNumber source - 1)
                    = Some (EVMBtcRelay.Found (EVMBtcRelay.retrievedHeader found))
                    /\ EVMBtcRelay.retrievedHeight found = tip).
    { destruct requiredBlockheight as [required|].
      - destruct (Z.ltb_spec tip required); [discriminate|].
        destruct (EVMBtcRelay.scanWindows source blockData fuel _) as [[h| |]|];
          try discriminate.
        injection H as <-. split; reflexivity.
      - destruct (EVMBtcRelay.scanWindows source blockData fuel _) as [[h| |]|];
          try discriminate.
        injection H as <-. split; reflexivity. }
    destruct Hscan as [Hscan Hheight].
    split; [exact Hheight|]. split; [exact Hge|]. split; [exact Hreq|].
    destruct (scanWindows_found _ _ _ Hscan) as (k & log & Hk & Hin & Hm & Hs & Hc).
    unfold EVMBtcRelay.logMatches in Hm. apply andb_true_iff in Hm.
    destruct Hm as [Hstore Hhash]. apply String.eqb_eq in Hhash.
    exists k, log. repeat split; assumption.
Qed.

(** X16.  When the relay is synchronized and no log of the first k windows
    stores the block, the search reads on: after k windows it is still
    searching, and if the log visited first among the storing logs of the
    next window (none after it in the window stores the block) has the
    relay's commitment at its header's height, the search returns that
    header with the relay's height, and null when the commitment differs;
    looking through more windows changes nothing. *)
Theorem X16_search_goes_back_window_by_window (env : RelayEnv) (k more : nat)
    (requiredBlockheight : option Z)
    (before after : list EVMBtcRelay.ParsedLog) (log : EVMBtcRelay.ParsedLog) :
  0 <= highScoreAndBlockHeight env < 2 ^ 256 ->
  let tip := highScoreAndBlockHeight env / 2 ^ 224 in
  let start := EVMBtcRelay.getBlockNumber source - 1 in
  EVMBtcRelay.height blockData <= tip ->
  (forall required, requiredBlockheight = Some required -> required <= tip) ->
  (forall j l, (j < k)%nat -> In l (EVMBtcRelay.window source start j) ->
               EVMBtcRelay.logMatches blockData l = false) ->
  EVMBtcRelay.window source start k = before ++ log :: after ->
  EVMBtcRelay.logMatches blockData log = true ->
  (forall l, In l after -> EVMBtcRelay.logMatches blockData l = false) ->
  EVMBtcRelay.retrieveLogAndBlockheight env source k blockData requiredBlockheight
  = Ok None
  /\ EVMBtcRelay.retrieveLogAndBlockheight env source (k + S more) blockData
       requiredBlockheight
     = Ok (Some
         (if String.eqb
               (EVMBtcRelay.relayCommitment source
                  (EVMBtcRelay.getBlockheight source (EVMBtcRelay.storedHeader log)))
               (EVMBtcRelay.commitmentHash log)
          then Some {| EVMBtcRelay.retrievedHeader := EVMBtcRelay.storedHeader log;
                       EVMBtcRelay.retrievedHeight := tip |}
          else None)).
Proof.
  intros Hw tip start Hh Hreq Hskip Hwin Hm Hafter.
  rewrite !retrieveLogAndBlockheight_unfold by exact Hw. cbv zeta. fold tip. fold start.
  destruct (Z.ltb_spec tip (EVMBtcRelay.height blockData)); [lia|].
  assert (Hr : match requiredBlockheight with
               | Some required => tip <? required
               | None => false
               end = false).
  { destruct requiredBlockheight as [required|]; [|reflexivity].
    specialize (Hreq required eq_refl).
    destruct (Z.ltb_spec tip required); [lia|reflexivity]. }
  rewrite Hr.
  split.
  - replace k with (k + 0)%nat at 1 by lia.
    rewrite scanWindows_skip by exact Hskip. reflexivity.
  - rewrite scanWindows_skip by exact Hskip.
    cbn [EVMBtcRelay.scanWindows].
    assert (Hk : EVMBtcRelay.getLogs source
                   (start - Z.of_nat k * EVMBtcRelay.logBlocksLimit source
                    - EVMBtcRelay.logBlocksLimit source)
                   (start - Z.of_nat k * EVMBtcRelay.logBlocksLimit source)
                 = before ++ log :: after).
    { rewrite <- Hwin. unfold EVMBtcRelay.window. f_equal; lia. }
    rewrite Hk, rev_app_distr. cbn [rev]. rewrite <- app_assoc. cbn [app].
    rewrite scanLogs_first_match;
      [| intros l Hin; apply Hafter; apply in_rev; exact Hin | exact Hm].
    destruct (String.eqb _ _); reflexivity.
Qed.

Lemma scanLogsByCommitHash_found (spv : string) (logs : list EVMBtcRelay.ParsedLog)
    (h : EVMBtcStoredHeader) :
  EVMBtcRelay.scanLogsByCommitHash spv blockData logs = EVMBtcRelay.Found h ->
  exists log, In log logs /\ EVMBtcRelay.isStoreLog log = true
              /\ substring2 (EVMBtcRelay.commitmentHash log) = spv
              /\ EVMBtcRelay.loggedBlockHash log = EVMBtcRelay.blockhash blockData
              /\ EVMBtcRelay.storedHeader log = h.
Proof.
  induction logs as [|log rest IH]; intros H; [discriminate|].
  cbn [EVMBtcRelay.scanLogsByCommitHash] in H.
  destruct (EVMBtcRelay.isStoreLog log
            && String.eqb (substring2 (EVMBtcRelay.commitmentHash log)) spv) eqn:Hm.
  - destruct (String.eqb_spec (EVMBtcRelay.loggedBlockHash log)
                (EVMBtcRelay.blockhash blockData)) as [Heq|Hne];
      cbn [negb] in H; [|discriminate].
    injection H as <-. apply andb_true_iff in Hm. destruct Hm as [Hstore Hc].
    apply String.eqb_eq in Hc.
    exists log. repeat split; try assumption. left; reflexivity.
  - destruct (IH H) as (l & Hin & Hl). exists l. split; [right; exact Hin | exact Hl].
Qed.

Lemma scanWindowsByCommitHash_found (spv : string) (fuel : nat) :
  forall (start : Z) (h : EVMBtcStoredHeader),
    EVMBtcRelay.scanWindowsByCommitHash source spv blockData fuel start
    = Some (EVMBtcRelay.Found h) ->
    exists (k : nat) (log : EVMBtcRelay.ParsedLog),
      (k < fuel)%nat /\ In log (EVMBtcRelay.window source start k)
      /\ EVMBtcRelay.isStoreLog log = true
      /\ substring2 (EVMBtcRelay.commitmentHash log) = spv
      /\ EVMBtcRelay.loggedBlockHash log = EVMBtcRelay.blockhash blockData
      /\ EVMBtcRelay.storedHeader log = h.
Proof.
  induction fuel as [|fuel IH]; intros start h H; [discriminate|].
  cbn [EVMBtcRelay.scanWindowsByCommitHash] in H.
  destruct (EVMBtcRelay.scanLogsByCommitHash spv blockData
              (EVMBtcRelay.getLogs source
                 (start - EVMBtcRelay.logBlocksLimit source) start)) eqn:Hs.
  - injection H as <-. destruct (scanLogsByCommitHash_found _ _ _ Hs) as (log & Hin & Hl).
    exists 0%nat, log. split; [lia|]. split; [|exact Hl].
    unfold EVMBtcRelay.window.
    replace (start - (Z.of_nat 0 + 1) * EVMBtcRelay.logBlocksLimit source)
      with (start - EVMBtcRelay.logBlocksLimit source) by lia.
    replace (start - Z.of_nat 0 * EVMBtcRelay.logBlocksLimit source) with start by lia.
    exact Hin.
  - discriminate.
  - destruct (IH _ _ H) as (k & log & Hk & Hin & Hl).
    exists (S k), log. split; [lia|]. split; [|exact Hl].
    rewrite <- (scanWindows_shift fuel). exact Hin.
Qed.

(** X17.  With a 256-bit tip word, retrieveLogByCommitHash returns null
    without reading any log when the relay's height is below the block's
    height, or when the relay's commitment at its own tip height (without the
    0x) is not the commitment hash asked for.  Whatever header it returns was
    stored by a StoreHeader or StoreFork log of one of the windows looked
    through whose commitment hash (without the 0x) is the one asked for and
    whose byte-reversed block hash is the block's hash; the commitment hash
    asked for is then the relay's commitment at the tip. *)
Theorem X17_log_by_commit_hash_is_the_tip (env : RelayEnv) (fuel : nat)
    (spvCommitmentHashStr : string) :
  0 <= highScoreAndBlockHeight env < 2 ^ 256 ->
  let tip := highScoreAndBlockHeight env / 2 ^ 224 in
  let run := EVMBtcRelay.retrieveLogByCommitHash env source fuel spvCommitmentHashStr
               blockData in
  (tip < EVMBtcRelay.height blockData -> run = Ok (Some None))
  /\ (substring2 (EVMBtcRelay.relayCommitment source tip) <> spvCommitmentHashStr ->
      run = Ok (Some None))
  /\ (forall header, run = Ok (Some (Some header)) ->
      EVMBtcRelay.height blockData <= tip
      /\ substring2 (EVMBtcRelay.relayCommitment source tip) = spvCommitmentHashStr
      /\ exists (k : nat) (log : EVMBtcRelay.ParsedLog),
           (k < fuel)%nat
           /\ In log (EVMBtcRelay.window source (EVMBtcRelay.getBlockNumber source - 1) k)
           /\ EVMBtcRelay.isStoreLog log = true
           /\ substring2 (EVMBtcRelay.commitmentHash log) = spvCommitmentHashStr
           /\ EVMBtcRelay.loggedBlockHash log = EVMBtcRelay.blockhash blockData
           /\ EVMBtcRelay.storedHeader log = header).
Proof.
  intros Hw tip run.
  assert (Hc : 0 <= tip < 2 ^ 32).
  { unfold tip. split; [apply Z.div_pos; lia|]. apply Z.div_lt_upper_bound; lia. }
  assert (Hrun : run
    = if tip <? EVMBtcRelay.height blockData then Ok (Some None)
      else if negb (String.eqb (substring2 (EVMBtcRelay.relayCommitment source tip))
                      spvCommitmentHashStr)
      then Ok (Some None)
      else match EVMBtcRelay.scanWindowsByCommitHash source spvCommitmentHashStr
                   blockData fuel (EVMBtcRelay.getBlockNumber source - 1) with
           | None => Ok None
           | Some (EVMBtcRelay.Found header) => Ok (Some (Some header))
           | Some _ => Ok (Some None)
           end).
  { unfold run, EVMBtcRelay.retrieveLogByCommitHash.
    repeat bn_step. rewrite Z.shiftr_div_pow2 by lia. fold tip.
    rewrite toNumber_safe by lia. rewrite bind_Ok.
    destruct (tip <? EVMBtcRelay.height blockData); [reflexivity|].
    rewrite fromNumber_safe by (unfold BigNumber.MAX_SAFE; lia).
    rewrite bind_Ok. reflexivity. }
  rewrite Hrun. clear Hrun.
  split; [|split].
  - intros Hlt. destruct (Z.ltb_spec tip (EVMBtcRelay.height blockData)); [reflexivity|lia].
  - intros Hne.
    destruct (Z.ltb_spec tip (EVMBtcRelay.height blockData)); [reflexivity|].
    destruct (String.eqb_spec (substring2 (EVMBtcRelay.relayCommitment source tip))
                spvCommitmentHashStr); [contradiction|reflexivity].
  - intros header H.
    destruct (Z.ltb_spec tip (EVMBtcRelay.height blockData)) as [?Hlt|?Hge];
      [discriminate|].
    destruct (String.eqb_spec (substring2 (EVMBtcRelay.relayCommitment source tip))
                spvCommitmentHashStr) as [Heq|Hne]; cbn [negb] in H; [|discriminate].
    split; [exact Hge|]. split; [exact Heq|].
    destruct (EVMBtcRelay.scanWindowsByCommitHash source spvCommitmentHashStr
                blockData fuel _) as [[h| |]|] eqn:Hscan; try discriminate.
    injection H as <-.
    exact (scanWindowsByCommitHash_found _ _ _ _ Hscan).
Qed.

End LogSearch.

Section LatestKnown.
Context {codec : HeaderCodec} {B : Type}.
Variable source : EVMBtcRelay.LogSource.
Variable bitcoinRpc : @EVMBtcRelay.BitcoinRpc B.

Lemma scanLatestKnown_step (log : EVMBtcRelay.ParsedLog)
    (rest : list EVMBtcRelay.ParsedLog) :
  EVMBtcRelay.scanLatestKnown source bitcoinRpc (log :: rest)
  = if EVMBtcRelay.isKnownLog source bitcoinRpc log
    then Some (EVMBtcRelay.storedHeader log,
               EVMBtcRelay.getBlockHeader bitcoinRpc (EVMBtcRelay.loggedBlockHash log))
    else EVMBtcRelay.scanLatestKnown source bitcoinRpc rest.
Proof.
  cbn [EVMBtcRelay.scanLatestKnown]. unfold EVMBtcRelay.isKnownLog.
  destruct (EVMBtcRelay.isStoreLog log); [|reflexivity].
  destruct (EVMBtcRelay.isInMainChain bitcoinRpc (EVMBtcRelay.loggedBlockHash log));
    [|reflexivity].
  cbn [andb].
  destruct (String.eqb
              (EVMBtcRelay.relayCommitment source
                 (EVMBtcRelay.getBlockheight source (EVMBtcRelay.storedHeader log)))
              (EVMBtcRelay.commitmentHash log)); reflexivity.
Qed.

Lemma scanLatestKnown_none (logs : list EVMBtcRelay.ParsedLog) :
  EVMBtcRelay.scanLatestKnown source bitcoinRpc logs = None
  <-> (forall l, In l logs -> EVMBtcRelay.isKnownLog source bitcoinRpc l = false).
Proof.
  induction logs as [|log rest IH].
  - split; [intros _ l []|reflexivity].
  - rewrite scanLatestKnown_step.
    destruct (EVMBtcRelay.isKnownLog source bitcoinRpc log) eqn:Hk.
    + split; [discriminate|]. intros H.
      specialize (H log (or_introl eq_refl)). congruence.
    + rewrite IH. split.
      * intros H l [<-|Hin]; [exact Hk | apply H; exact Hin].
      * intros H l Hin. apply H. right. exact Hin.
Qed.

Lemma scanLatestKnown_some (logs : list EVMBtcRelay.ParsedLog)
    (found : EVMBtcStoredHeader * B) :
  EVMBtcRelay.scanLatestKnown source bitcoinRpc logs = Some found
  <-> exists visited log rest,
        logs = visited ++ log :: rest
        /\ (forall l, In l visited -> EVMBtcRelay.isKnownLog source bitcoinRpc l = false)
        /\ EVMBtcRelay.isKnownLog source bitcoinRpc log = true
        /\ found = (EVMBtcRelay.storedHeader log,
                    EVMBtcRelay.getBlockHeader bitcoinRpc
                      (EVMBtcRelay.loggedBlockHash log)).
Proof.
  induction logs as [|first rest IH].
  - split; [discriminate|]. intros (visited & log & rest & H & _).
    destruct visited; discriminate.
  - rewrite scanLatestKnown_step.
    destruct (EVMBtcRelay.isKnownLog source bitcoinRpc first) eqn:Hk.
    + split.
      * intros H. injection H as <-.
        exists [], first, rest. repeat split; [intros l []|exact Hk].
      * intros (visited & log & rest' & Heq & Hv & Hl & ->).
        destruct visited as [|v visited].
        -- cbn [app] in Heq. injection Heq as <- <-. reflexivity.
        -- cbn [app] in Heq. injection Heq as <- _.
           specialize (Hv first (or_introl eq_refl)). congruence.
    + rewrite IH. split.
      * intros (visited & log & rest' & -> & Hv & Hl & ->).
        exists (first :: visited), log, rest'. repeat split; [|exact Hl].
        intros l [<-|Hin]; [exact Hk | apply Hv; exact Hin].
      * intros (visited & log & rest' & Heq & Hv & Hl & ->).
        destruct visited as [|v visited].
        -- cbn [app] in Heq. injection Heq as <- _. congruence.
        -- cbn [app] in Heq. injection Heq as <- ->.
           exists visited, log, rest'. repeat split; [|exact Hl].
           intros l Hin. apply Hv. right. exact Hin.
Qed.

Lemma window_zero (start : Z) :
  EVMBtcRelay.window source start 0
  = EVMBtcRelay.getLogs source (start - EVMBtcRelay.logBlocksLimit source) start.
Proof.
  unfold EVMBtcRelay.window. f_equal; lia.
Qed.

Lemma window_succ (start : Z) (k : nat) :
  EVMBtcRelay.window source (start - EVMBtcRelay.logBlocksLimit source) k
  = EVMBtcRelay.window source start (S k).
Proof.
  unfold EVMBtcRelay.window. f_equal; lia.
Qed.

Lemma scanWindowsLatestKnown_some (fuel : nat) :
  forall (start : Z) (found : EVMBtcStoredHeader * B),
    EVMBtcRelay.scanWindowsLatestKnown source bitcoinRpc fuel start = Some found
    <-> exists (k : nat) (log : EVMBtcRelay.ParsedLog),
          (k < fuel)%nat /\ EVMBtcRelay.latestKnownAt source bitcoinRpc start k log
          /\ found = (EVMBtcRelay.storedHeader log,
                      EVMBtcRelay.getBlockHeader bitcoinRpc
                        (EVMBtcRelay.loggedBlockHash log)).
Proof.
  induction fuel as [|fuel IH]; intros start found.
  - split; [discriminate|]. intros (k & _ & Hk & _). lia.
  - cbn [EVMBtcRelay.scanWindowsLatestKnown]. rewrite <- window_zero.
    destruct (EVMBtcRelay.scanLatestKnown source bitcoinRpc
                (rev (EVMBtcRelay.window source start 0))) as [f|] eqn:Hs.
    + apply scanLatestKnown_some in Hs.
      destruct Hs as (visited & log & rest & Hrev & Hv & Hl & ->).
      assert (Hwin : EVMBtcRelay.window source start 0 = rev rest ++ log :: rev visited).
      { rewrite <- (rev_involutive (EVMBtcRelay.window source start 0)), Hrev.
        rewrite rev_app_distr. cbn [rev]. rewrite <- app_assoc. reflexivity. }
      split.
      * intros H. injection H as <-. exists 0%nat, log.
        split; [lia|]. split; [|reflexivity].
        exists (rev rest), (rev visited). repeat split; try assumption.
        -- intros l Hin. apply Hv. apply in_rev. exact Hin.
        -- intros j l Hj. lia.
      * intros (k & log' & Hk & (before & after & Hw' & Hl' & Hafter & Hnear) & ->).
        destruct k as [|k].
        -- rewrite Hwin in Hw'.
           assert (Hsame : log = log').
           { clear - Hw' Hv Hl Hl' Hafter.
             assert (Hr : visited ++ log :: rest = rev after ++ log' :: rev before).
             { rewrite <- (rev_involutive (visited ++ log :: rest)).
               rewrite rev_app_distr. cbn [rev]. rewrite <- app_assoc. cbn [app].
               rewrite Hw', rev_app_distr. cbn [rev]. rewrite <- app_assoc. reflexivity. }
             assert (Hva : forall l, In l (rev after) ->
                             EVMBtcRelay.isKnownLog source bitcoinRpc l = false).
             { intros l Hin. apply Hafter. apply in_rev. exact Hin. }
             revert Hr Hva. generalize (rev after) as a. revert Hv.
             assert (Hgoal : forall v a,
               (forall l, In l v -> EVMBtcRelay.isKnownLog source bitcoinRpc l = false) ->
               v ++ log :: rest = a ++ log' :: rev before ->
               (forall l, In l a -> EVMBtcRelay.isKnownLog source bitcoinRpc l = false) ->
               v = a /\ log = log').
             { induction v as [|x v IHv]; intros a Hv Hr Hva.
               - destruct a as [|y a].
                 + cbn [app] in Hr. injection Hr as -> _. split; reflexivity.
                 + cbn [app] in Hr. injection Hr as <- _.
                   specialize (Hva log (or_introl eq_refl)). congruence.
               - destruct a as [|y a].
                 + cbn [app] in Hr. injection Hr as <- _.
                   specialize (Hv x (or_introl eq_refl)). congruence.
                 + cbn [app] in Hr. injection Hr as <- Hr.
                   destruct (IHv a) as [-> ->]; try assumption.
                   * intros l Hin. apply Hv. right. exact Hin.
                   * intros l Hin. apply Hva. right. exact Hin.
                   * split; reflexivity. }
             intros Hv a Hr Hva. destruct (Hgoal visited a Hv Hr Hva) as [_ ->].
             reflexivity. }
           rewrite Hsame. reflexivity.
        -- exfalso. assert (Hin : In log (EVMBtcRelay.window source start 0)).
           { rewrite Hwin. apply in_or_app. right. left. reflexivity. }
           specialize (Hnear 0%nat log ltac:(lia) Hin). congruence.
    + rewrite scanLatestKnown_none in Hs.
      assert (Hnone : forall l, In l (EVMBtcRelay.window source start 0) ->
                        EVMBtcRelay.isKnownLog source bitcoinRpc l = false).
      { intros l Hin. apply Hs. apply in_rev in Hin. exact Hin. }
      rewrite IH. split.
      * intros (k & log & Hk & (before & after & Hw' & Hl & Hafter & Hnear) & ->).
        exists (S k), log. split; [lia|]. split; [|reflexivity].
        exists before, after. rewrite <- window_succ.
        repeat split; try assumption.
        intros j l Hj Hin. destruct j as [|j].
        -- apply Hnone. exact Hin.
        -- apply (Hnear j l); [lia|]. rewrite window_succ. exact Hin.
      * intros (k & log & Hk & (before & after & Hw' & Hl & Hafter & Hnear) & ->).
        destruct k as [|k].
        -- exfalso. assert (Hin : In log (EVMBtcRelay.window source start 0)).
           { rewrite Hw'. apply in_or_app. right. left. reflexivity. }
           specialize (Hnone log Hin). congruence.
        -- exists k, log. split; [lia|]. split; [|reflexivity].
           exists before, after. rewrite window_succ.
           repeat split; try assumption.
           intros j l Hj Hin. apply (Hnear (S j) l); [lia|].
           rewrite <- window_succ. exact Hin.
Qed.

(** X18.  retrieveLatestKnownBlockLog returns a stored header and a Bitcoin
    header exactly when one of the windows looked through holds a log that
    stores a header, whose byte-reversed block hash the Bitcoin node has in
    its main chain and whose commitment hash is the relay's commitment at the
    height of its header, while no later log of that window and no log of a
    window nearer to the tip is such a log; the result is the header stored by
    that log and the node's header for its block hash.  Logs that fail the
    test are passed over, they never end the search. *)
Theorem X18_latest_known_block_log (fuel : nat) (found : EVMBtcStoredHeader * B) :
  EVMBtcRelay.retrieveLatestKnownBlockLog source bitcoinRpc fuel = Some found
  <-> exists (k : nat) (log : EVMBtcRelay.ParsedLog),
        (k < fuel)%nat
        /\ EVMBtcRelay.latestKnownAt source bitcoinRpc (EVMBtcRelay.getBlockNumber source - 1) k log
        /\ found = (EVMBtcRelay.storedHeader log,
                    EVMBtcRelay.getBlockHeader bitcoinRpc
                      (EVMBtcRelay.loggedBlockHash log)).
Proof.
  unfold EVMBtcRelay.retrieveLatestKnownBlockLog.
  apply scanWindowsLatestKnown_some.
Qed.

End LatestKnown.

Lemma X15_retrieved_log_is_committed_witness :
  EVMBtcRelay.retrieveLogAndBlockheight exampleRelay (exampleLogSource "0xc0") 1
    {| EVMBtcRelay.blockhash := "1234"; EVMBtcRelay.height := 840001 |} None
  = Ok (Some None)
  /\ (forall found,
        EVMBtcRelay.retrieveLogAndBlockheight exampleRelay (exampleLogSource "0xc0") 2
          {| EVMBtcRelay.blockhash := "1234"; EVMBtcRelay.height := 839999 |}
          (Some 840000)
        = Ok (Some (Some found)) ->
        EVMBtcRelay.retrievedHeight found = 840000).
Proof.
  split.
  - apply (X15_retrieved_log_is_committed (exampleLogSource "0xc0")
             {| EVMBtcRelay.blockhash := "1234"; EVMBtcRelay.height := 840001 |}
             exampleRelay 1 None);
      vm_compute; [split; congruence | reflexivity].
  - intros found H.
    destruct (X15_retrieved_log_is_committed (exampleLogSource "0xc0")
                {| EVMBtcRelay.blockhash := "1234"; EVMBtcRelay.height := 839999 |}
                exampleRelay 2 (Some 840000)
                ltac:(vm_compute; split; congruence)) as (_ & _ & Hf).
    destruct (Hf found H) as (Hheight & _). exact Hheight.
Defined.

Lemma X16_search_goes_back_window_by_window_witness :
  EVMBtcRelay.retrieveLogAndBlockheight exampleRelay (exampleLogSource "0xc0") 1
    {| EVMBtcRelay.blockhash := "1234"; EVMBtcRelay.height := 839999 |} (Some 840000)
  = Ok None
  /\ EVMBtcRelay.retrieveLogAndBlockheight exampleRelay (exampleLogSource "0xc0") 3
       {| EVMBtcRelay.blockhash := "1234"; EVMBtcRelay.height := 839999 |} (Some 840000)
     = Ok (Some (Some (@EVMBtcRelay.Build_RetrievedLog exampleCodec (839999, 5) 840000))).
Proof.
  apply (X16_search_goes_back_window_by_window (exampleLogSource "0xc0")
           {| EVMBtcRelay.blockhash := "1234"; EVMBtcRelay.height := 839999 |}
           exampleRelay 1 1 (Some 840000) [] [] (exampleLog "0xc0")).
  - vm_compute. split; congruence.
  - vm_compute. congruence.
  - intros required H. injection H as <-. vm_compute. congruence.
  - intros j l Hj Hin. destruct j as [|j]; [|lia]. vm_compute in Hin. destruct Hin.
  - reflexivity.
  - reflexivity.
  - intros l Hin. destruct Hin.
Defined.

Lemma X17_log_by_commit_hash_is_the_tip_witness :
  EVMBtcRelay.retrieveLogByCommitHash exampleRelay (exampleLogSource "0x00") 2 "c0"
    {| EVMBtcRelay.blockhash := "1234"; EVMBtcRelay.height := 839999 |}
  = Ok (Some None).
Proof.
  apply (X17_log_by_commit_hash_is_the_tip (exampleLogSource "0x00")
           {| EVMBtcRelay.blockhash := "1234"; EVMBtcRelay.height := 839999 |}
           exampleRelay 2 "c0" ltac:(vm_compute; split; congruence)).
  vm_compute. congruence.
Defined.

(* ------------------------------------------------------------------ *)
(** ** Swap prices *)

Lemma quot_gt_bound (a c bound : Z) :
  0 < c -> 0 <= bound ->
  (Z.quot a c >? bound) = negb (a <? (bound + 1) * c).
Proof.
  intros Hc Hb.
  destruct (Z.lt_ge_cases a 0) as [Ha|Ha].
  - assert (Hq : Z.quot a c <= 0).
    { replace a with (- (- a)) by lia. rewrite Z.quot_opp_l by lia.
      assert (0 <= Z.quot (- a) c) by (apply Z.quot_pos; lia). lia. }
    destruct (Z.gtb_spec (Z.quot a c) bound); [lia|].
    destruct (Z.ltb_spec a ((bound + 1) * c)); [reflexivity|nia].
  - rewrite Z.quot_div_nonneg by lia.
    destruct (Z.gtb_spec (a / c) bound) as [Hgt|Hle];
      destruct (Z.ltb_spec a ((bound + 1) * c)) as [Hlt|Hge]; try reflexivity.
    + exfalso. assert (a / c < bound + 1) by (apply Z.div_lt_upper_bound; lia). lia.
    + exfalso. assert (bound + 1 <= a / c) by (apply Z.div_le_lower_bound; lia). lia.
Qed.

Lemma div_nonzero (a b : Z) : b <> 0 -> BN.div a b = Ok (Z.quot a b).
Proof.
  intros Hb. unfold BN.div. destruct (Z.eqb_spec b 0); [contradiction|reflexivity].
Qed.

Section PriceChecks.
Context {T : Type} `{ISwapPrice T}.

(** X19.  For a token that is not ignored, whose amount calculated from the
    satoshis with the fees added, amountSats * (1000000 + feePPM) / 1000000 +
    satsBaseFee, is positive, and a non-negative allowed difference:
    isValidAmountSend reports the difference (paid - calculated) * 1000000 /
    calculated rounded towards zero, passes the fees through, and accepts
    exactly when paid * 1000000 < (1000000 + allowed + 1) * calculated; so a
    payment below an accepted one is accepted.  When the calculated amount is
    zero the check fails with the assertion of the division. *)
Theorem X19_isValidAmountSend (self : T) (amountSats satsBaseFee feePPM paidToken : Z)
    (token : string) (preFetchedPrice : option Z) (calculated : Z) :
  shouldIgnore self token = Ok false ->
  getFromBtcSwapAmount self
    (Z.quot (amountSats * (1000000 + feePPM)) 1000000 + satsBaseFee) token
    preFetchedPrice = Ok calculated ->
  0 <= maxAllowedFeeDifferencePPM self ->
  (0 < calculated ->
     SwapPrice.isValidAmountSend self amountSats satsBaseFee feePPM paidToken token
       preFetchedPrice
     = Ok {| SwapPrice.isValid :=
               paidToken * 1000000
               <? (1000000 + maxAllowedFeeDifferencePPM self + 1) * calculated;
             SwapPrice.differencePPM :=
               Z.quot ((paidToken - calculated) * 1000000) calculated;
             SwapPrice.satsBaseFee := satsBaseFee;
             SwapPrice.feePPM := feePPM |}
     /\ (forall less v,
           less <= paidToken ->
           SwapPrice.isValidAmountSend self amountSats satsBaseFee feePPM paidToken
             token preFetchedPrice = Ok v ->
           SwapPrice.isValid v = true ->
           exists v',
             SwapPrice.isValidAmountSend self amountSats satsBaseFee feePPM less
               token preFetchedPrice = Ok v'
             /\ SwapPrice.isValid v' = true))
  /\ (calculated = 0 ->
      SwapPrice.isValidAmountSend self amountSats satsBaseFee feePPM paidToken token
        preFetchedPrice
      = Throw (Fault "Assertion failed")).
Proof.
  intros Hi Hc Hmax.
  assert (Hrun : forall paid,
    SwapPrice.isValidAmountSend self amountSats satsBaseFee feePPM paid token
      preFetchedPrice
    = (differencePPM <- BN.div ((paid - calculated) * 1000000) calculated ;;
       if differencePPM >? maxAllowedFeeDifferencePPM self then
         Ok {| SwapPrice.isValid := false; SwapPrice.differencePPM := differencePPM;
               SwapPrice.satsBaseFee := satsBaseFee; SwapPrice.feePPM := feePPM |}
       else
         Ok {| SwapPrice.isValid := true; SwapPrice.differencePPM := differencePPM;
               SwapPrice.satsBaseFee := satsBaseFee; SwapPrice.feePPM := feePPM |})).
  { intros paid. unfold SwapPrice.isValidAmountSend.
    rewrite Hi, bind_Ok. rewrite div_nonzero by lia. rewrite bind_Ok.
    rewrite Hc, bind_Ok. reflexivity. }
  assert (Hpos : 0 < calculated -> forall paid,
    SwapPrice.isValidAmountSend self amountSats satsBaseFee feePPM paid token
      preFetchedPrice
    = Ok {| SwapPrice.isValid :=
              paid * 1000000
              <? (1000000 + maxAllowedFeeDifferencePPM self + 1) * calculated;
            SwapPrice.differencePPM :=
              Z.quot ((paid - calculated) * 1000000) calculated;
            SwapPrice.satsBaseFee := satsBaseFee;
            SwapPrice.feePPM := feePPM |}).
  { intros Hcalc paid. rewrite Hrun, div_nonzero by lia. rewrite bind_Ok.
    rewrite quot_gt_bound by lia.
    replace (paid * 1000000
             <? (1000000 + maxAllowedFeeDifferencePPM self + 1) * calculated)
      with ((paid - calculated) * 1000000
            <? (maxAllowedFeeDifferencePPM self + 1) * calculated).
    - destruct ((paid - calculated) * 1000000
                <? (maxAllowedFeeDifferencePPM self + 1) * calculated); reflexivity.
    - destruct (Z.ltb_spec ((paid - calculated) * 1000000)
                  ((maxAllowedFeeDifferencePPM self + 1) * calculated));
        destruct (Z.ltb_spec (paid * 1000000)
                    ((1000000 + maxAllowedFeeDifferencePPM self + 1) * calculated));
        try reflexivity; exfalso; lia. }
  split.
  - intros Hcalc. split; [apply Hpos; exact Hcalc|].
    intros less v Hless Hv Hvalid.
    rewrite (Hpos Hcalc) in Hv. injection Hv as <-. cbn [SwapPrice.isValid] in Hvalid.
    apply Z.ltb_lt in Hvalid.
    eexists. split; [apply Hpos; exact Hcalc|]. cbn [SwapPrice.isValid].
    apply Z.ltb_lt. apply Z.le_lt_trans with (paidToken * 1000000);
      [apply Z.mul_le_mono_nonneg_r; lia | exact Hvalid].
  - intros ->. rewrite Hrun. reflexivity.
Qed.

(** X20.  For a token that is not ignored, whose amount calculated from the
    satoshis with the fees taken off, amountSats * (1000000 - feePPM) /
    1000000 - satsBaseFee, is positive, and a non-negative allowed difference:
    isValidAmountReceive reports the difference (calculated - received) *
    1000000 / calculated rounded towards zero, passes the fees through, and
    accepts exactly when (1000000 - allowed - 1) * calculated < received *
    1000000; so receiving more than an accepted amount is accepted.  When the
    calculated amount is zero the check fails with the assertion of the
    division. *)
Theorem X20_isValidAmountReceive (self : T)
    (amountSats satsBaseFee feePPM receiveToken : Z)
    (token : string) (preFetchedPrice : option Z) (calculated : Z) :
  shouldIgnore self token = Ok false ->
  getFromBtcSwapAmount self
    (Z.quot (amountSats * (1000000 - feePPM)) 1000000 - satsBaseFee) token
    preFetchedPrice = Ok calculated ->
  0 <= maxAllowedFeeDifferencePPM self ->
  (0 < calculated ->
     SwapPrice.isValidAmountReceive self amountSats satsBaseFee feePPM receiveToken
       token preFetchedPrice
     = Ok {| SwapPrice.isValid :=
               (1000000 - maxAllowedFeeDifferencePPM self - 1) * calculated
               <? receiveToken * 1000000;
             SwapPrice.differencePPM :=
               Z.quot ((calculated - receiveToken) * 1000000) calculated;
             SwapPrice.satsBaseFee := satsBaseFee;
             SwapPrice.feePPM := feePPM |}
     /\ (forall more v,
           receiveToken <= more ->
           SwapPrice.isValidAmountReceive self amountSats satsBaseFee feePPM
             receiveToken token preFetchedPrice = Ok v ->
           SwapPrice.isValid v = true ->
           exists v',
             SwapPrice.isValidAmountReceive self amountSats satsBaseFee feePPM more
               token preFetchedPrice = Ok v'
             /\ SwapPrice.isValid v' = true))
  /\ (calculated = 0 ->
      SwapPrice.isValidAmountReceive self amountSats satsBaseFee feePPM receiveToken
        token preFetchedPrice
      = Throw (Fault "Assertion failed")).
Proof.
  intros Hi Hc Hmax.
  assert (Hrun : forall received,
    SwapPrice.isValidAmountReceive self amountSats satsBaseFee feePPM received token
      preFetchedPrice
    = (differencePPM <- BN.div ((calculated - received) * 1000000) calculated ;;
       if differencePPM >? maxAllowedFeeDifferencePPM self then
         Ok {| SwapPrice.isValid := false; SwapPrice.differencePPM := differencePPM;
               SwapPrice.satsBaseFee := satsBaseFee; SwapPrice.feePPM := feePPM |}
       else
         Ok {| SwapPrice.isValid := true; SwapPrice.differencePPM := differencePPM;
               SwapPrice.satsBaseFee := satsBaseFee; SwapPrice.feePPM := feePPM |})).
  { intros received. unfold SwapPrice.isValidAmountReceive.
    rewrite Hi, bind_Ok. rewrite div_nonzero by lia. rewrite bind_Ok.
    rewrite Hc, bind_Ok. reflexivity. }
  assert (Hpos : 0 < calculated -> forall received,
    SwapPrice.isValidAmountReceive self amountSats satsBaseFee feePPM received token
      preFetchedPrice
    = Ok {| SwapPrice.isValid :=
              (1000000 - maxAllowedFeeDifferencePPM self - 1) * calculated
              <? received * 1000000;
            SwapPrice.differencePPM :=
              Z.quot ((calculated - received) * 1000000) calculated;
            SwapPrice.satsBaseFee := satsBaseFee;
            SwapPrice.feePPM := feePPM |}).
  { intros Hcalc received. rewrite Hrun, div_nonzero by lia. rewrite bind_Ok.
    rewrite quot_gt_bound by lia.
    replace ((1000000 - maxAllowedFeeDifferencePPM self - 1) * calculated
             <? received * 1000000)
      with ((calculated - received) * 1000000
            <? (maxAllowedFeeDifferencePPM self + 1) * calculated).
    - destruct ((calculated - received) * 1000000
                <? (maxAllowedFeeDifferencePPM self + 1) * calculated); reflexivity.
    - destruct (Z.ltb_spec ((calculated - received) * 1000000)
                  ((maxAllowedFeeDifferencePPM self + 1) * calculated));
        destruct (Z.ltb_spec
                    ((1000000 - maxAllowedFeeDifferencePPM self - 1) * calculated)
                    (received * 1000000));
        try reflexivity; exfalso; lia. }
  split.
  - intros Hcalc. split; [apply Hpos; exact Hcalc|].
    intros more v Hmore Hv Hvalid.
    rewrite (Hpos Hcalc) in Hv. injection Hv as <-. cbn [SwapPrice.isValid] in Hvalid.
    apply Z.ltb_lt in Hvalid.
    eexists. split; [apply Hpos; exact Hcalc|]. cbn [SwapPrice.isValid].
    apply Z.ltb_lt. apply Z.lt_le_trans with (receiveToken * 1000000);
      [exact Hvalid | apply Z.mul_le_mono_nonneg_r; lia].
  - intros ->. rewrite Hrun. reflexivity.
Qed.

End PriceChecks.

Lemma X19_isValidAmountSend_witness :
  @SwapPrice.isValidAmountSend _ OKXSwapPrice.swapPrice examplePrices
    100000 10 3000 62700000 "USDC" None
  = Ok {| SwapPrice.isValid := true; SwapPrice.differencePPM := 99;
          SwapPrice.satsBaseFee := 10; SwapPrice.feePPM := 3000 |}.
Proof.
  destruct (@X19_isValidAmountSend _ OKXSwapPrice.swapPrice examplePrices
              100000 10 3000 62700000 "USDC" None 62693750
              eq_refl eq_refl ltac:(vm_compute; congruence)) as [Hpos _].
  destruct (Hpos ltac:(lia)) as [Heq _]. exact Heq.
Defined.

Lemma X20_isValidAmountReceive_witness :
  @SwapPrice.isValidAmountReceive _ OKXSwapPrice.swapPrice examplePrices
    100000 10 3000 61000000 "USDC" None
  = Ok {| SwapPrice.isValid := false; SwapPrice.differencePPM := 20964;
          SwapPrice.satsBaseFee := 10; SwapPrice.feePPM := 3000 |}.
Proof.
  destruct (@X20_isValidAmountReceive _ OKXSwapPrice.swapPrice examplePrices
              100000 10 3000 61000000 "USDC" None 62306250
              eq_refl eq_refl ltac:(vm_compute; congruence)) as [Hpos _].
  destruct (Hpos ltac:(lia)) as [Heq _]. exact Heq.
Defined.



(** X22.  For a token of the coins map, a positive price and a non-negative
    amount of satoshis, getFromBtcSwapAmount followed by getToBtcSwapAmount
    at the same price succeeds and never gives more satoshis than were put in;
    with unit = 10^decimals * 1000 what is lost is less than price / unit + 1
    satoshis: sats * unit - price - unit < back * unit. *)
Theorem X22_conversion_there_and_back (self : OKXSwapPrice.t) (token : string)
    (coin : OKXSwapPrice.Coin) (preFetchedPrice : option Z) (sats : Z) :
  OKXSwapPrice.COINS_MAP self token = Some coin ->
  0 < OKXSwapPrice.priceFor self coin preFetchedPrice ->
  0 <= sats ->
  let price := OKXSwapPrice.priceFor self coin preFetchedPrice in
  let unit := 10 ^ Z.of_nat (OKXSwapPrice.decimals coin) * 1000 in
  exists inToken back,
    OKXSwapPrice.getFromBtcSwapAmount self sats token preFetchedPrice = Ok inToken
    /\ OKXSwapPrice.getToBtcSwapAmount self inToken token preFetchedPrice = Ok back
    /\ inToken = sats * unit / price
    /\ 0 <= back <= sats
    /\ sats * unit - price - unit < back * unit.
Proof.
  intros Hcoin Hprice Hsats price unit.
  assert (Hpow : 0 < 10 ^ Z.of_nat (OKXSwapPrice.decimals coin))
    by (apply Z.pow_pos_nonneg; lia).
  assert (Hunit : 0 < unit) by (unfold unit; lia).
  set (inToken := sats * unit / price).
  assert (Hin : 0 <= inToken) by (apply Z.div_pos; [nia | exact Hprice]).
  set (back := inToken * price / unit).
  exists inToken, back.
  assert (Hfrom : OKXSwapPrice.getFromBtcSwapAmount self sats token preFetchedPrice
                  = Ok inToken).
  { unfold OKXSwapPrice.getFromBtcSwapAmount. rewrite Hcoin. cbv zeta.
    fold price. rewrite div_nonzero by lia.
    rewrite Z.quot_div_nonneg by nia. unfold inToken, unit.
    rewrite <- Z.mul_assoc. reflexivity. }
  assert (Hto : OKXSwapPrice.getToBtcSwapAmount self inToken token preFetchedPrice
                = Ok back).
  { unfold OKXSwapPrice.getToBtcSwapAmount. rewrite Hcoin. cbv zeta.
    fold price. rewrite div_nonzero by lia. rewrite bind_Ok.
    rewrite div_nonzero by lia.
    rewrite (Z.quot_div_nonneg (inToken * price)) by nia.
    rewrite Z.quot_div_nonneg by (try lia; apply Z.div_pos; nia).
    rewrite Z.div_div by lia. unfold back, unit.
    rewrite (Z.mul_comm 1000). reflexivity. }
  split; [exact Hfrom|]. split; [exact Hto|]. split; [reflexivity|].
  assert (Hle : inToken * price <= sats * unit).
  { unfold inToken. rewrite Z.mul_comm. apply Z.mul_div_le. exact Hprice. }
  assert (Hgt : sats * unit - price < inToken * price).
  { unfold inToken. pose proof (Z.div_mod (sats * unit) price ltac:(lia)) as Hdm.
    pose proof (Z.mod_pos_bound (sats * unit) price Hprice) as Hm. nia. }
  assert (Hback : back * unit <= inToken * price).
  { unfold back. rewrite Z.mul_comm. apply Z.mul_div_le. exact Hunit. }
  assert (Hback' : inToken * price - unit < back * unit).
  { unfold back. pose proof (Z.div_mod (inToken * price) unit ltac:(lia)) as Hdm.
    pose proof (Z.mod_pos_bound (inToken * price) unit Hunit) as Hm. nia. }
  split; [|lia].
  split; [apply Z.div_pos; [nia | exact Hunit]|].
  assert (back * unit <= sats * unit) by lia. nia.
Qed.

Lemma X22_conversion_there_and_back_witness :
  OKXSwapPrice.getFromBtcSwapAmount examplePrices 100001 "SOL" (Some 270000000)
  = Ok 370374074
  /\ OKXSwapPrice.getToBtcSwapAmount examplePrices 370374074 "SOL" (Some 270000000)
     = Ok 100000.
Proof.
  destruct (X22_conversion_there_and_back examplePrices "SOL"
              {| OKXSwapPrice.pair := "SOL-BTC"; OKXSwapPrice.decimals := 9;
                 OKXSwapPrice.invert := false |}
              (Some 270000000) 100001 eq_refl ltac:(reflexivity) ltac:(lia))
    as (inToken & back & Hfrom & Hto & Hin & _).
  vm_compute in Hin. subst inToken. split; [exact Hfrom|].
  rewrite Hto. f_equal.
  assert (Hback : Ok back = Ok 100000) by (rewrite <- Hto; reflexivity).
  injection Hback as ->. reflexivity.
Defined.
